(** * ResolveIt: the case workflow of the Express API

    A shallow embedding of the request handlers of
    [server/src/routes/auth.ts] (register, login),
    [server/src/routes/cases.ts] (create, read, respond, witnesses),
    [server/src/routes/admin.ts] (dashboard, status, panel),
    [server/src/routes/users.ts] (profile update),
    [server/src/routes/notifications.ts] (mark read, mark all read, delete),
    and of the middleware of [server/src/middleware/auth.ts] and
    [server/src/middleware/errorHandler.ts].  A handler is a function from the
    database (the tables Prisma reads and writes) to a response and a new
    database.  Prisma calls run in a small monad in which one call may
    reject, so that the [try { ... } catch { res.status(500) }] of the
    handlers, and what it leaves behind, can be stated.

    Left out, because no handler reads them back: the [io.emit] pushes, the
    rate limiter of the auth routes, and multer's file filter (the files of
    a request are those it accepted).  The [param("id").isString()] chain of
    the routes holds of every route parameter.  One request sees one clock
    value, [now]. *)

From Stdlib Require Import String Ascii List ZArith Bool Arith Lia.
From Stdlib Require Import DecimalString Sorted Permutation.
Import ListNotations.
Open Scope string_scope.
Open Scope list_scope.

(** ** JavaScript values as the handlers use them *)

Module Js.

(** A body field that the handler tests for truthiness or coerces with
    [Boolean(...)]: JSON bodies carry booleans, multipart bodies strings. *)
Inductive value : Type :=
| undefined
| boolean (b : bool)
| str (s : string).

Definition truthyStr (s : string) : bool := negb (s =? "").

Definition truthy (v : value) : bool :=
  match v with
  | undefined => false
  | boolean b => b
  | str s => truthyStr s
  end.

(** [if (x)] on a [string | null | undefined]. *)
Definition truthyOpt (o : option string) : bool :=
  match o with
  | Some s => truthyStr s
  | None => false
  end.

(** The string express-validator hands to a validator. *)
Definition toString (v : value) : string :=
  match v with
  | undefined => ""
  | boolean true => "true"
  | boolean false => "false"
  | str s => s
  end.

(** [s.slice(-n)] *)
Definition sliceLast (n : nat) (s : string) : string :=
  substring (String.length s - n) n s.

(** [String(n)] for a non-negative integer. *)
Definition ofNat (n : nat) : string :=
  NilZero.string_of_uint (N.to_uint (N.of_nat n)).

(** [String(z)] for a timestamp or a year. *)
Definition ofZ (z : Z) : string :=
  NilZero.string_of_uint (N.to_uint (Z.to_N z)).

(** [s.startsWith(p)] *)
Definition startsWith (p s : string) : bool := String.prefix p s.

(** [s.substring(n)] *)
Definition substringFrom (n : nat) (s : string) : string :=
  substring n (String.length s - n) s.

(** [a || b] on optional strings. *)
Definition orElse (o : option string) (d : option string) : option string :=
  if truthyOpt o then o else d.

End Js.

(** ** express-validator: the checks the routes chain *)

Module Validator.

(** One failing chain contributes its [withMessage] text. *)
Definition check (ok : bool) (msg : string) : list string :=
  if ok then [] else [msg].

Definition isLength (min max : nat) (s : string) : bool :=
  ((min <=? String.length s) && (String.length s <=? max))%nat.

Definition isLengthMin (min : nat) (s : string) : bool :=
  (min <=? String.length s)%nat.

Definition isIn (allowed : list string) (s : string) : bool :=
  existsb (String.eqb s) allowed.

(** [isBoolean()] in its default, non-strict form. *)
Definition isBoolean (v : Js.value) : bool :=
  isIn ["true"; "false"; "1"; "0"] (Js.toString v).

(** [.optional()]: an absent field passes the rest of its chain. *)
Definition optional (p : string -> bool) (o : option string) : bool :=
  match o with
  | None => true
  | Some s => p s
  end.

(** [.optional({ nullable: true, checkFalsy: true })]: so does a falsy one. *)
Definition optionalFalsy (p : string -> bool) (o : option string) : bool :=
  match o with
  | None => true
  | Some s => if Js.truthyStr s then p s else true
  end.

Definition isEmpty (errors : list string) : bool :=
  match errors with
  | [] => true
  | _ :: _ => false
  end.

End Validator.

(** ** The closed status enum *)

Inductive CaseStatus : Type :=
| PENDING
| AWAITING_RESPONSE
| ACCEPTED
| WITNESSES_NOMINATED
| PANEL_CREATED
| MEDIATION_IN_PROGRESS
| RESOLVED
| UNRESOLVED
| CANCELLED.

Definition statusName (s : CaseStatus) : string :=
  match s with
  | PENDING => "PENDING"
  | AWAITING_RESPONSE => "AWAITING_RESPONSE"
  | ACCEPTED => "ACCEPTED"
  | WITNESSES_NOMINATED => "WITNESSES_NOMINATED"
  | PANEL_CREATED => "PANEL_CREATED"
  | MEDIATION_IN_PROGRESS => "MEDIATION_IN_PROGRESS"
  | RESOLVED => "RESOLVED"
  | UNRESOLVED => "UNRESOLVED"
  | CANCELLED => "CANCELLED"
  end.

(** The list of [body("status").isIn([...])] in routes/admin.ts. *)
Definition allStatuses : list CaseStatus :=
  [PENDING; AWAITING_RESPONSE; ACCEPTED; WITNESSES_NOMINATED; PANEL_CREATED;
   MEDIATION_IN_PROGRESS; RESOLVED; UNRESOLVED; CANCELLED].

Definition statusEqb (a b : CaseStatus) : bool :=
  statusName a =? statusName b.

(** A status string that passed [isIn] is stored as the enum member it names. *)
Definition parseStatus (s : string) : option CaseStatus :=
  find (fun st => statusName st =? s) allStatuses.

(** ** Rows of the tables *)

Module User.
Record t : Type := mk {
  id : string;
  email : string;
  password : string;
  name : string;
  phone : option string;
  role : string
}.
End User.

Module Case.
Record t : Type := mk {
  id : string;
  caseNumber : string;
  caseType : string;
  issueDescription : string;
  complainantId : string;
  respondentId : option string;
  oppositePartyName : string;
  oppositePartyEmail : option string;
  oppositePartyPhone : option string;
  oppositePartyAddress : option string;
  isInCourt : bool;
  isInPoliceStation : bool;
  courtCaseNumber : option string;
  firNumber : option string;
  courtName : option string;
  policeStationName : option string;
  priority : string;
  status : CaseStatus;
  respondentAccepted : option Js.value;
  respondentResponse : option string;
  respondentResponseAt : option Z;
  createdAt : Z
}.

Definition setStatus (s : CaseStatus) (c : t) : t :=
  mk (id c) (caseNumber c) (caseType c) (issueDescription c)
     (complainantId c) (respondentId c) (oppositePartyName c)
     (oppositePartyEmail c) (oppositePartyPhone c) (oppositePartyAddress c)
     (isInCourt c) (isInPoliceStation c) (courtCaseNumber c) (firNumber c)
     (courtName c) (policeStationName c) (priority c) s
     (respondentAccepted c) (respondentResponse c) (respondentResponseAt c)
     (createdAt c).

(** [data: { respondentAccepted: accepted, respondentResponse: response,
    respondentResponseAt: new Date(), status }]: [accepted] is stored as the
    body carries it, and an absent [response] is [undefined], which leaves
    the column as it is. *)
Definition setResponse (accepted : Js.value) (response : option string)
    (at_ : Z) (s : CaseStatus) (c : t) : t :=
  mk (id c) (caseNumber c) (caseType c) (issueDescription c)
     (complainantId c) (respondentId c) (oppositePartyName c)
     (oppositePartyEmail c) (oppositePartyPhone c) (oppositePartyAddress c)
     (isInCourt c) (isInPoliceStation c) (courtCaseNumber c) (firNumber c)
     (courtName c) (policeStationName c) (priority c) s
     (Some accepted)
     (match response with
      | Some r => Some r
      | None => respondentResponse c
      end)
     (Some at_) (createdAt c).
End Case.

Module Evidence.
Record t : Type := mk {
  fileName : string;
  originalName : string;
  fileType : string;
  fileSize : nat;
  fileUrl : string;
  caseId : string
}.
End Evidence.

(** The JSON of [metadata]: null, strings and objects. *)
Inductive Json : Type :=
| JNull
| JString (s : string)
| JObject (fields : JFields)
with JFields : Type :=
| JNil
| JField (key : string) (v : Json) (rest : JFields).

Fixpoint lookupField (key : string) (fs : JFields) : option Json :=
  match fs with
  | JNil => None
  | JField k v rest => if k =? key then Some v else lookupField key rest
  end.

(** [j.key] *)
Definition jsonField (key : string) (j : Json) : option Json :=
  match j with
  | JObject fields => lookupField key fields
  | _ => None
  end.

(** [{ key: x, ...rest }] as it is stored: a key whose value is
    [undefined] is left out. *)
Definition jsonOptField (key : string) (o : option string) (rest : JFields)
    : JFields :=
  match o with
  | Some s => JField key (JString s) rest
  | None => rest
  end.

(** [x || null] *)
Definition jsonOfOpt (o : option string) : Json :=
  match o with
  | Some s => if Js.truthyStr s then JString s else JNull
  | None => JNull
  end.

Module CaseHistory.
Record t : Type := mk {
  caseId : string;
  action : string;
  description : string;
  performedById : option string;
  metadata : option Json;
  createdAt : Z
}.
End CaseHistory.

Module Notification.
Record t : Type := mk {
  userId : string;
  caseId : option string;
  type : string;
  title : string;
  message : string;
  isRead : bool;
  createdAt : Z
}.
End Notification.

Module Witness.
Record t : Type := mk {
  caseId : string;
  name : string;
  email : string;
  phone : string;
  relationship : string;
  statement : option string
}.
End Witness.

Module MediationPanel.
Record t : Type := mk {
  id : string;
  caseId : string;
  lawyerId : string;
  religiousScholarId : option string;
  societyMemberId : option string;
  createdAt : Z
}.
End MediationPanel.

(** ** The database

    Every table is the list of its rows, the newest first.  [idSeq] counts the
    ids handed out so far. *)

Record DB : Type := mkDB {
  users : list User.t;
  cases : list Case.t;
  evidence : list Evidence.t;
  caseHistory : list CaseHistory.t;
  notifications : list Notification.t;
  witnesses : list Witness.t;
  mediationPanels : list MediationPanel.t;
  idSeq : nat
}.

Definition emptyDB : DB := mkDB [] [] [] [] [] [] [] 0.

Definition withUsers (f : list User.t -> list User.t) (d : DB) : DB :=
  mkDB (f (users d)) (cases d) (evidence d) (caseHistory d) (notifications d)
       (witnesses d) (mediationPanels d) (idSeq d).

Definition withCases (f : list Case.t -> list Case.t) (d : DB) : DB :=
  mkDB (users d) (f (cases d)) (evidence d) (caseHistory d) (notifications d)
       (witnesses d) (mediationPanels d) (idSeq d).

Definition withEvidence (f : list Evidence.t -> list Evidence.t) (d : DB) : DB :=
  mkDB (users d) (cases d) (f (evidence d)) (caseHistory d) (notifications d)
       (witnesses d) (mediationPanels d) (idSeq d).

Definition withCaseHistory (f : list CaseHistory.t -> list CaseHistory.t)
    (d : DB) : DB :=
  mkDB (users d) (cases d) (evidence d) (f (caseHistory d)) (notifications d)
       (witnesses d) (mediationPanels d) (idSeq d).

Definition withNotifications (f : list Notification.t -> list Notification.t)
    (d : DB) : DB :=
  mkDB (users d) (cases d) (evidence d) (caseHistory d) (f (notifications d))
       (witnesses d) (mediationPanels d) (idSeq d).

Definition withWitnesses (f : list Witness.t -> list Witness.t) (d : DB) : DB :=
  mkDB (users d) (cases d) (evidence d) (caseHistory d) (notifications d)
       (f (witnesses d)) (mediationPanels d) (idSeq d).

Definition withMediationPanels
    (f : list MediationPanel.t -> list MediationPanel.t) (d : DB) : DB :=
  mkDB (users d) (cases d) (evidence d) (caseHistory d) (notifications d)
       (witnesses d) (f (mediationPanels d)) (idSeq d).

Definition nextSeq (d : DB) : DB :=
  mkDB (users d) (cases d) (evidence d) (caseHistory d) (notifications d)
       (witnesses d) (mediationPanels d) (S (idSeq d)).

(** ** Prisma calls that may throw

    A world is the database and the fault still to come: [Some k] says that
    the call after the next [k] successful ones rejects, [None] that no call
    does.  A rejected call writes nothing; nothing written before it is
    undone, since no handler opens a transaction. *)

Record World : Type := mkWorld {
  db : DB;
  fault : option nat
}.

Inductive Res (A : Type) : Type :=
| Ok (a : A)
| Exn.
Arguments Ok {A} a.
Arguments Exn {A}.

Definition Prisma (A : Type) : Type := World -> Res A * World.

Definition ret {A : Type} (a : A) : Prisma A := fun w => (Ok a, w).

Definition bind {A B : Type} (m : Prisma A) (k : A -> Prisma B) : Prisma B :=
  fun w =>
    match m w with
    | (Ok a, w') => k a w'
    | (Exn, w') => (Exn, w')
    end.

Notation "x <- m ;; k" := (bind m (fun x => k))
  (at level 61, m at next level, right associativity).
Notation "m ;;; k" := (bind m (fun _ => k))
  (at level 61, right associativity).

(** One awaited Prisma call.  [f] answers [None] where the call itself
    rejects (an update of a row that is not there). *)
Definition call {A : Type} (f : DB -> option (A * DB)) : Prisma A :=
  fun w =>
    match fault w with
    | Some 0 => (Exn, mkWorld (db w) None)
    | Some (S k) =>
        match f (db w) with
        | Some (a, d) => (Ok a, mkWorld d (Some k))
        | None => (Exn, mkWorld (db w) (Some k))
        end
    | None =>
        match f (db w) with
        | Some (a, d) => (Ok a, mkWorld d None)
        | None => (Exn, mkWorld (db w) None)
        end
    end.

Definition query {A : Type} (f : DB -> A) : Prisma A :=
  call (fun d => Some (f d, d)).

Definition exec (f : DB -> DB) : Prisma unit :=
  call (fun d => Some (tt, f d)).

(** [await Promise.all(ps)]: every promise of the array has been started,
    so one rejection does not stop the others; the await throws if any
    rejected. *)
Fixpoint promiseAll {A : Type} (ps : list (Prisma A)) : Prisma (list A) :=
  fun w =>
    match ps with
    | [] => (Ok [], w)
    | p :: rest =>
        match p w with
        | (Ok a, w') =>
            match promiseAll rest w' with
            | (Ok l, w'') => (Ok (a :: l), w'')
            | (Exn, w'') => (Exn, w'')
            end
        | (Exn, w') => (Exn, snd (promiseAll rest w'))
        end
    end.

(** ** Responses *)

Inductive Body : Type :=
| Error (msg : string)
| ValidationFailed (details : list string)
| Registered (msg : string) (user : User.t) (token : string)
| CaseBody (msg : string) (c : option Case.t) (ev : list Evidence.t)
| CaseDetail (c : Case.t) (ev : list Evidence.t) (ws : list Witness.t)
    (panel : option MediationPanel.t) (history : list CaseHistory.t)
| WitnessesBody (msg : string) (ws : list User.t)
| PanelBody (msg : string) (p : MediationPanel.t).

Record Response : Type := json {
  code : nat;
  body : Body
}.

(** [try { ... } catch (error) { res.status(500).json(...) }] *)
Definition tryCatch (m : Prisma Response) (onError : Response)
    : World -> Response * World :=
  fun w =>
    match m w with
    | (Ok r, w') => (r, w')
    | (Exn, w') => (onError, w')
    end.

Definition throw {A : Type} : Prisma A := fun w => (Exn, w).

(** ** What the handlers take from outside the sources

    validator.js (through express-validator), bcryptjs, jsonwebtoken, the
    clock, and two declarations of the Prisma schema: the default of the id
    columns and the unique key of the Witness table. *)

Record Deps : Type := mkDeps {
  isEmail : string -> bool;
  normalizeEmail : string -> string;
  trim : string -> string;
  escape : string -> string;
  bcryptHash : string -> string;
  jwtSign : string -> string;
  jwtVerify : string -> option string;
  getFullYear : Z -> Z;
  cuid : nat -> string;
  witnessConflict : Witness.t -> Witness.t -> bool
}.

(** ** Request bodies, as they reach the validation chains *)

Module RegisterBody.
Record t : Type := mk {
  email : string;
  password : string;
  name : string;
  phone : option string
}.
End RegisterBody.

(** A required field that is absent fails its chain as the empty string
    does; an optional field is [None] when absent. *)
Module CreateCaseBody.
Record t : Type := mk {
  caseType : string;
  issueDescription : string;
  oppositePartyName : string;
  oppositePartyEmail : option string;
  oppositePartyPhone : option string;
  oppositePartyAddress : option string;
  isInCourt : Js.value;
  isInPoliceStation : Js.value;
  courtCaseNumber : option string;
  firNumber : option string;
  courtName : option string;
  policeStationName : option string;
  priority : option string
}.
End CreateCaseBody.

(** A file multer accepted. *)
Module File.
Record t : Type := mk {
  filename : string;
  originalname : string;
  mimetype : string;
  size : nat
}.
End File.

(** [accepted] as the body carries it: a JSON boolean, or a string, which
    [isBoolean()] admits when it is "true", "false", "1" or "0"; [response]
    the optional text. *)
Module RespondBody.
Record t : Type := mk {
  accepted : Js.value;
  response : option string
}.
End RespondBody.

Module WitnessesBody.
Record t : Type := mk {
  witnessEmails : list string
}.
End WitnessesBody.

Module StatusBody.
Record t : Type := mk {
  status : string;
  reason : option string
}.
End StatusBody.

Module PanelBody.
Record t : Type := mk {
  lawyerId : option string;
  religiousScholarId : option string;
  societyMemberId : option string
}.
End PanelBody.

(** [req.user], set by [authenticate]. *)
Module AuthUser.
Record t : Type := mk {
  id : string;
  email : string;
  name : string;
  role : string
}.
End AuthUser.

(** ** Table operations *)

Definition optEqb (o : option string) (s : string) : bool :=
  match o with
  | Some x => x =? s
  | None => false
  end.

(** [orderBy: { createdAt: "desc" }] on case history. *)
Fixpoint insertDesc (e : CaseHistory.t) (l : list CaseHistory.t)
    : list CaseHistory.t :=
  match l with
  | [] => [e]
  | x :: rest =>
      if (CaseHistory.createdAt x <=? CaseHistory.createdAt e)%Z
      then e :: x :: rest
      else x :: insertDesc e rest
  end.

Definition orderByCreatedAtDesc (l : list CaseHistory.t) : list CaseHistory.t :=
  fold_right insertDesc [] l.

(** [createMany({ data, skipDuplicates: true })]: a row that collides with
    a row already there, or with an earlier row of [data], is left out. *)
Fixpoint insertSkipping (conflict : Witness.t -> Witness.t -> bool)
    (rows table : list Witness.t) : list Witness.t :=
  match rows with
  | [] => table
  | r :: rest =>
      if existsb (conflict r) table
      then insertSkipping conflict rest table
      else insertSkipping conflict rest (r :: table)
  end.

Definition updateWhere (id : string) (f : Case.t -> Case.t)
    (l : list Case.t) : list Case.t :=
  map (fun c => if Case.id c =? id then f c else c) l.

Section Handlers.

Variable L : Deps.

Definition userFindUnique (p : User.t -> bool) : Prisma (option User.t) :=
  query (fun d => find p (users d)).

Definition userFindMany (p : User.t -> bool) : Prisma (list User.t) :=
  query (fun d => filter p (users d)).

Definition userCreate (row : string -> User.t) : Prisma User.t :=
  call (fun d =>
    let u := row (cuid L (idSeq d)) in
    Some (u, nextSeq (withUsers (cons u) d))).

Definition caseFindFirst (p : Case.t -> bool) : Prisma (option Case.t) :=
  query (fun d => find p (cases d)).

Definition caseFindUnique (id : string) : Prisma (option Case.t) :=
  caseFindFirst (fun c => Case.id c =? id).

Definition caseCreate (row : string -> Case.t) : Prisma Case.t :=
  call (fun d =>
    let c := row (cuid L (idSeq d)) in
    Some (c, nextSeq (withCases (cons c) d))).

(** [prisma.case.update({ where: { id }, data })] rejects when no row has
    the id. *)
Definition caseUpdate (id : string) (f : Case.t -> Case.t) : Prisma Case.t :=
  call (fun d =>
    match find (fun c => Case.id c =? id) (cases d) with
    | Some c => Some (f c, withCases (updateWhere id f) d)
    | None => None
    end).

Definition evidenceCreateMany (rows : list Evidence.t) : Prisma unit :=
  exec (withEvidence (app (rev rows))).

Definition caseHistoryCreate (e : CaseHistory.t) : Prisma unit :=
  exec (withCaseHistory (cons e)).

Definition notificationCreate (n : Notification.t) : Prisma unit :=
  exec (withNotifications (cons n)).

Definition witnessCreateMany (rows : list Witness.t) : Prisma unit :=
  exec (withWitnesses (insertSkipping (witnessConflict L) rows)).

Definition mediationPanelCreate (row : string -> MediationPanel.t)
    : Prisma MediationPanel.t :=
  call (fun d =>
    let p := row (cuid L (idSeq d)) in
    Some (p, nextSeq (withMediationPanels (cons p) d))).

(** *** middleware/auth.ts *)

Definition unauthorized (msg : string) : Response := json 401 (Error msg).

(** [authenticate]: the bearer token names a user that still exists. *)
Definition authenticate (authHeader : option string)
    : World -> (Response + AuthUser.t) * World :=
  fun w =>
    match authHeader with
    | None => (inl (unauthorized "Access token is required"), w)
    | Some h =>
        if negb (Js.truthyStr h) || negb (Js.startsWith "Bearer " h)
        then (inl (unauthorized "Access token is required"), w)
        else
          let token := Js.substringFrom 7 h in
          match jwtVerify L token with
          | None => (inl (unauthorized "Invalid or expired token"), w)
          | Some userId =>
              match userFindUnique (fun u => User.id u =? userId) w with
              | (Ok (Some u), w') =>
                  (inr (AuthUser.mk (User.id u) (User.email u) (User.name u)
                          (User.role u)), w')
              | (Ok None, w') => (inl (unauthorized "User not found"), w')
              | (Exn, w') =>
                  (inl (unauthorized "Invalid or expired token"), w')
              end
          end
    end.

(** [requireAdmin]: the role of [req.user] decides, nothing else. *)
Definition requireAdmin (user : option AuthUser.t) : option Response :=
  match user with
  | None => Some (json 401 (Error "Authentication required"))
  | Some u =>
      if negb (AuthUser.role u =? "ADMIN")
      then Some (json 403 (Error "Admin access required"))
      else None
  end.

(** *** routes/auth.ts: POST /api/auth/register *)

Definition registerErrors (b : RegisterBody.t) : list string :=
  Validator.check (isEmail L (RegisterBody.email b))
    "Please provide a valid email"
  ++ Validator.check (Validator.isLengthMin 6 (RegisterBody.password b))
    "Password must be at least 6 characters long"
  ++ Validator.check (Validator.isLength 2 50 (RegisterBody.name b))
    "Name must be between 2 and 50 characters"
  ++ Validator.check
    (Validator.optionalFalsy (Validator.isLengthMin 3) (RegisterBody.phone b))
    "Phone number must be at least 3 characters if provided".

(** [where: { OR: [{ email }, ...(phone ? [{ phone }] : [])] }] *)
Definition emailOrPhone (email : string) (phone : option string) (u : User.t)
    : bool :=
  (User.email u =? email)
  || (if Js.truthyOpt phone
      then match phone, User.phone u with
           | Some p, Some q => q =? p
           | _, _ => false
           end
      else false).

Definition register (b : RegisterBody.t) : World -> Response * World :=
  tryCatch
    (let errors := registerErrors b in
     if negb (Validator.isEmpty errors)
     then ret (json 400 (ValidationFailed errors))
     else
       let email := normalizeEmail L (RegisterBody.email b) in
       let password := RegisterBody.password b in
       let name := escape L (trim L (RegisterBody.name b)) in
       let phone := RegisterBody.phone b in
       existingUser <- userFindUnique (emailOrPhone email phone) ;;
       match existingUser with
       | Some _ =>
           ret (json 409
             (Error "User already exists with this email or phone number"))
       | None =>
           let hashedPassword := bcryptHash L password in
           user <- userCreate (fun id =>
             User.mk id email hashedPassword name phone
               (if email =? "admin@resolveit.com" then "ADMIN" else "USER")) ;;
           let token := jwtSign L (User.id user) in
           ret (json 201 (Registered "User registered successfully" user token))
       end)
    (json 500 (Error "Internal server error during registration")).

(** *** routes/cases.ts: POST /api/cases *)

Definition sanitize (o : option string) : option string :=
  option_map (fun s => escape L (trim L s)) o.

Definition createCaseErrors (b : CreateCaseBody.t) : list string :=
  Validator.check
    (Validator.isIn
       ["FAMILY"; "BUSINESS"; "CRIMINAL"; "PROPERTY"; "CONTRACT"; "OTHER"]
       (CreateCaseBody.caseType b))
    "Invalid case type"
  ++ Validator.check
    (Validator.isLength 50 2000 (CreateCaseBody.issueDescription b))
    "Issue description must be between 50 and 2000 characters"
  ++ Validator.check
    (Validator.isLength 2 100 (CreateCaseBody.oppositePartyName b))
    "Opposite party name must be between 2 and 100 characters"
  ++ Validator.check
    (Validator.optional (isEmail L) (CreateCaseBody.oppositePartyEmail b))
    "Please provide a valid email for opposite party"
  ++ Validator.check
    (Validator.optional (Validator.isLength 10 20)
       (CreateCaseBody.oppositePartyPhone b))
    "Phone number must be between 10 and 20 characters"
  ++ Validator.check
    (Validator.optional (Validator.isLength 10 200)
       (CreateCaseBody.oppositePartyAddress b))
    "Opposite party address must be between 10 and 200 characters"
  ++ Validator.check (Validator.isBoolean (CreateCaseBody.isInCourt b))
    "isInCourt must be a boolean value"
  ++ Validator.check (Validator.isBoolean (CreateCaseBody.isInPoliceStation b))
    "isInPoliceStation must be a boolean value"
  ++ Validator.check
    (Validator.optional (Validator.isLength 5 50)
       (CreateCaseBody.courtCaseNumber b))
    "Court case number must be between 5 and 50 characters"
  ++ Validator.check
    (Validator.optional (Validator.isLength 5 50) (CreateCaseBody.firNumber b))
    "FIR number must be between 5 and 50 characters"
  ++ Validator.check
    (Validator.optional (Validator.isLength 5 100) (CreateCaseBody.courtName b))
    "Court name must be between 5 and 100 characters"
  ++ Validator.check
    (Validator.optional (Validator.isLength 5 100)
       (CreateCaseBody.policeStationName b))
    "Police station name must be between 5 and 100 characters"
  ++ Validator.check
    (Validator.optional (Validator.isIn ["LOW"; "MEDIUM"; "HIGH"; "URGENT"])
       (CreateCaseBody.priority b))
    "Priority must be one of: LOW, MEDIUM, HIGH, URGENT".

Definition fileTypeOf (mimetype : string) : string :=
  if Js.startsWith "image/" mimetype then "IMAGE"
  else if Js.startsWith "video/" mimetype then "VIDEO"
  else if Js.startsWith "audio/" mimetype then "AUDIO"
  else "DOCUMENT".

Definition evidenceOf (caseId : string) (file : File.t) : Evidence.t :=
  Evidence.mk (File.filename file) (File.originalname file)
    (fileTypeOf (File.mimetype file)) (File.size file)
    ("/uploads/evidence/" ++ File.filename file) caseId.

(** [`RES-${new Date().getFullYear()}-${String(Date.now()).slice(-6)}`] *)
Definition newCaseNumber (now : Z) : string :=
  "RES-" ++ Js.ofZ (getFullYear L now) ++ "-"
    ++ Js.sliceLast 6 (Js.ofZ now).

Definition caseNotification (userId caseId title message : string) (now : Z)
    : Notification.t :=
  Notification.mk userId (Some caseId) "CASE_STATUS_UPDATE" title message
    false now.

Definition createCase (now : Z) (user : AuthUser.t) (b : CreateCaseBody.t)
    (files : list File.t) : World -> Response * World :=
  tryCatch
    (let errors := createCaseErrors b in
     if negb (Validator.isEmpty errors)
     then ret (json 400 (ValidationFailed errors))
     else
       let caseType := CreateCaseBody.caseType b in
       let issueDescription :=
         escape L (trim L (CreateCaseBody.issueDescription b)) in
       let oppositePartyName :=
         escape L (trim L (CreateCaseBody.oppositePartyName b)) in
       let oppositePartyEmail :=
         option_map (normalizeEmail L) (CreateCaseBody.oppositePartyEmail b) in
       let oppositePartyPhone := CreateCaseBody.oppositePartyPhone b in
       let oppositePartyAddress :=
         sanitize (CreateCaseBody.oppositePartyAddress b) in
       let isInCourt := CreateCaseBody.isInCourt b in
       let isInPoliceStation := CreateCaseBody.isInPoliceStation b in
       let courtCaseNumber := sanitize (CreateCaseBody.courtCaseNumber b) in
       let firNumber := sanitize (CreateCaseBody.firNumber b) in
       let courtName := sanitize (CreateCaseBody.courtName b) in
       let policeStationName :=
         sanitize (CreateCaseBody.policeStationName b) in
       let priority :=
         match CreateCaseBody.priority b with
         | Some p => p
         | None => "MEDIUM"
         end in
       if Js.truthy isInCourt
          && (negb (Js.truthyOpt courtCaseNumber)
              || negb (Js.truthyOpt courtName))
       then ret (json 400 (Error
         "Court case number and court name are required when case is in court"))
       else if Js.truthy isInPoliceStation
          && (negb (Js.truthyOpt firNumber)
              || negb (Js.truthyOpt policeStationName))
       then ret (json 400 (Error
         "FIR number and police station name are required when case is with police"))
       else
         respondentId <-
           (if Js.truthyOpt oppositePartyEmail
            then
              oppositePartyUser <- userFindUnique (fun u =>
                optEqb oppositePartyEmail (User.email u)) ;;
              ret (option_map User.id oppositePartyUser)
            else ret None) ;;
         let caseNumber := newCaseNumber now in
         newCase <- caseCreate (fun id =>
           Case.mk id caseNumber caseType issueDescription (AuthUser.id user)
             respondentId oppositePartyName oppositePartyEmail
             oppositePartyPhone oppositePartyAddress (Js.truthy isInCourt)
             (Js.truthy isInPoliceStation) courtCaseNumber firNumber
             courtName policeStationName priority PENDING None None None
             now) ;;
         (match files with
          | [] => ret tt
          | _ :: _ =>
              evidenceCreateMany (map (evidenceOf (Case.id newCase)) files)
          end) ;;;
         caseHistoryCreate
           (CaseHistory.mk (Case.id newCase) "CASE_CREATED"
              "Case registered successfully" (Some (AuthUser.id user)) None
              now) ;;;
         notificationCreate
           (caseNotification (AuthUser.id user) (Case.id newCase)
              "Case Registered Successfully"
              ("Your case #" ++ Case.caseNumber newCase
                 ++ " has been registered and is pending review.") now) ;;;
         (if Js.truthyOpt respondentId
          then
            match respondentId with
            | Some rid =>
                notificationCreate
                  (caseNotification rid (Case.id newCase)
                     "New Case Filed Against You"
                     ("A new case #" ++ Case.caseNumber newCase
                        ++ " has been filed against you. Please review and respond.")
                     now) ;;;
                caseUpdate (Case.id newCase)
                  (Case.setStatus AWAITING_RESPONSE) ;;;
                ret tt
            | None => ret tt
            end
          else ret tt) ;;;
         caseWithEvidence <- query (fun d =>
           (find (fun c => Case.id c =? Case.id newCase) (cases d),
            filter (fun e => Evidence.caseId e =? Case.id newCase)
              (evidence d))) ;;
         ret (json 201
           (CaseBody "Case registered successfully" (fst caseWithEvidence)
              (snd caseWithEvidence))))
    (json 500 (Error "Internal server error during case registration")).

(** *** GET /api/cases/:id *)

Definition isParty (userId : string) (c : Case.t) : bool :=
  (Case.complainantId c =? userId) || optEqb (Case.respondentId c) userId.

Definition getCase (user : AuthUser.t) (id : string)
    : World -> Response * World :=
  tryCatch
    (caseData <- query (fun d =>
       match find (fun c => (Case.id c =? id) && isParty (AuthUser.id user) c)
               (cases d) with
       | Some c =>
           Some (CaseDetail c
             (filter (fun e => Evidence.caseId e =? Case.id c) (evidence d))
             (filter (fun x => Witness.caseId x =? Case.id c) (witnesses d))
             (find (fun p => MediationPanel.caseId p =? Case.id c)
                (mediationPanels d))
             (orderByCreatedAtDesc
                (filter (fun h => CaseHistory.caseId h =? Case.id c)
                   (caseHistory d))))
       | None => None
       end) ;;
     match caseData with
     | None => ret (json 404
         (Error "Case not found or you do not have access to this case"))
     | Some detail => ret (json 200 detail)
     end)
    (json 500 (Error "Internal server error")).

(** *** POST /api/cases/:id/respond *)

Definition respondErrors (b : RespondBody.t) : list string :=
  Validator.check
    (Validator.isBoolean (RespondBody.accepted b))
    "accepted must be a boolean value"
  ++ Validator.check
    (Validator.optional (Validator.isLength 10 1000) (RespondBody.response b))
    "Response must be between 10 and 1000 characters".

Definition respondToCase (now : Z) (user : AuthUser.t) (id : string)
    (b : RespondBody.t) : World -> Response * World :=
  tryCatch
    (let errors := respondErrors b in
     if negb (Validator.isEmpty errors)
     then ret (json 400 (ValidationFailed errors))
     else
       let accepted := RespondBody.accepted b in
       let response := sanitize (RespondBody.response b) in
       caseData <- caseFindFirst (fun c =>
         (Case.id c =? id)
         && optEqb (Case.respondentId c) (AuthUser.id user)
         && statusEqb (Case.status c) AWAITING_RESPONSE) ;;
       match caseData with
       | None => ret (json 404
           (Error "Case not found or you cannot respond to this case"))
       | Some caseData =>
           updatedCase <- caseUpdate id
             (Case.setResponse accepted response now
                (if Js.truthy accepted then ACCEPTED else UNRESOLVED)) ;;
           caseHistoryCreate
             (CaseHistory.mk id
                (if Js.truthy accepted then "CASE_ACCEPTED" else "CASE_REJECTED")
                ("Respondent " ++ (if Js.truthy accepted then "accepted" else "rejected")
                   ++ " the case")
                (Some (AuthUser.id user)) None now) ;;;
           notificationCreate
             (caseNotification (Case.complainantId caseData) id
                "Case Response Received"
                ("The opposite party has "
                   ++ (if Js.truthy accepted then "accepted" else "rejected")
                   ++ " your case #" ++ Case.caseNumber caseData ++ ".")
                now) ;;;
           ret (json 200
             (CaseBody "Case response recorded successfully"
                (Some updatedCase) []))
       end)
    (json 500 (Error "Internal server error")).

(** *** POST /api/cases/:id/witnesses *)

Definition witnessesErrors (b : WitnessesBody.t) : list string :=
  Validator.check (1 <=? List.length (WitnessesBody.witnessEmails b))%nat
    "At least one witness email is required"
  ++ flat_map (fun e =>
       Validator.check (isEmail L e) "All witness emails must be valid")
     (WitnessesBody.witnessEmails b).

(** [witnesses.map((witness) => ({ caseId: id, ... }))] *)
Definition witnessData (id : string) (witnesses : list User.t)
    : list Witness.t :=
  map (fun witness =>
    Witness.mk id (User.name witness) (User.email witness) ""
      "Nominated Witness" None) witnesses.

Definition nominateWitnesses (now : Z) (user : AuthUser.t) (id : string)
    (b : WitnessesBody.t) : World -> Response * World :=
  tryCatch
    (let errors := witnessesErrors b in
     if negb (Validator.isEmpty errors)
     then ret (json 400 (ValidationFailed errors))
     else
       let witnessEmails :=
         map (normalizeEmail L) (WitnessesBody.witnessEmails b) in
       caseData <- caseFindFirst (fun c =>
         (Case.id c =? id)
         && isParty (AuthUser.id user) c
         && statusEqb (Case.status c) ACCEPTED) ;;
       match caseData with
       | None => ret (json 404
           (Error "Case not found or you cannot add witnesses to this case"))
       | Some caseData =>
           witnesses <- userFindMany (fun u =>
             existsb (String.eqb (User.email u)) witnessEmails) ;;
           if negb (List.length witnesses =? List.length witnessEmails)%nat
           then ret (json 400 (Error
             "Some witnesses are not registered users. All witnesses must be registered."))
           else
             witnessCreateMany (witnessData id witnesses) ;;;
             caseUpdate id (Case.setStatus WITNESSES_NOMINATED) ;;;
             promiseAll (map (fun witness =>
               notificationCreate
                 (caseNotification (User.id witness) id "Added as Witness"
                    ("You have been added as a witness in case #"
                       ++ Case.caseNumber caseData ++ ".") now))
               witnesses) ;;;
             caseHistoryCreate
               (CaseHistory.mk id "WITNESSES_ADDED"
                  (Js.ofNat (List.length witnesses) ++ " witnesses nominated")
                  (Some (AuthUser.id user)) None now) ;;;
             ret (json 200
               (WitnessesBody "Witnesses added successfully" witnesses))
       end)
    (json 500 (Error "Internal server error")).

(** *** routes/admin.ts: PUT /api/admin/cases/:id/status *)

Definition statusErrors (b : StatusBody.t) : list string :=
  Validator.check
    (Validator.isIn (map statusName allStatuses) (StatusBody.status b))
    "Invalid status"
  ++ Validator.check
    (Validator.optional (Validator.isLength 10 500) (StatusBody.reason b))
    "Reason must be between 10 and 500 characters".

Definition statusMetadata (adminId previousStatus newStatus : string)
    (reason : option string) : Json :=
  JObject
    (JField "adminId" (JString adminId)
    (JField "previousStatus" (JString previousStatus)
    (JField "newStatus" (JString newStatus)
    (JField "reason" (jsonOfOpt reason) JNil)))).

Definition setStatus (now : Z) (user : AuthUser.t) (id : string)
    (b : StatusBody.t) : World -> Response * World :=
  tryCatch
    (let errors := statusErrors b in
     if negb (Validator.isEmpty errors)
     then ret (json 400 (ValidationFailed errors))
     else
       let status := StatusBody.status b in
       let reason := sanitize (StatusBody.reason b) in
       caseData <- caseFindUnique id ;;
       match caseData with
       | None => ret (json 404 (Error "Case not found"))
       | Some caseData =>
           updatedCase <-
             match parseStatus status with
             | Some st => caseUpdate id (Case.setStatus st)
             | None => throw
             end ;;
           caseHistoryCreate
             (CaseHistory.mk id "STATUS_UPDATED_BY_ADMIN"
                ("Status changed from " ++ statusName (Case.status caseData)
                   ++ " to " ++ status
                   ++ (if Js.truthyOpt reason
                       then match reason with
                            | Some r => " - " ++ r
                            | None => ""
                            end
                       else ""))
                None
                (Some (statusMetadata (AuthUser.id user)
                         (statusName (Case.status caseData)) status reason))
                now) ;;;
           promiseAll
             (notificationCreate
                (caseNotification (Case.complainantId caseData) id
                   "Case Status Updated"
                   ("Your case #" ++ Case.caseNumber caseData
                      ++ " status has been updated to " ++ status ++ ".")
                   now)
              :: match Case.respondentId caseData with
                 | Some rid =>
                     [notificationCreate
                        (caseNotification rid id "Case Status Updated"
                           ("Case #" ++ Case.caseNumber caseData
                              ++ " status has been updated to " ++ status
                              ++ ".")
                           now)]
                 | None => []
                 end) ;;;
           ret (json 200
             (CaseBody "Case status updated successfully" (Some updatedCase)
                []))
       end)
    (json 500 (Error "Internal server error")).

(** *** POST /api/admin/cases/:id/panel *)

Definition panelErrors (b : PanelBody.t) : list string :=
  Validator.check
    match PanelBody.lawyerId b with Some _ => true | None => false end
    "Lawyer ID is required".

(** [[a, b, c].filter(Boolean)] *)
Definition filterBoolean (l : list (option string)) : list string :=
  flat_map (fun o =>
    match o with
    | Some s => if Js.truthyStr s then [s] else []
    | None => []
    end) l.

Definition panelMetadata (adminId panelId : string)
    (lawyerId religiousScholarId societyMemberId : option string) : Json :=
  JObject
    (JField "adminId" (JString adminId)
    (JField "panelId" (JString panelId)
    (JField "panelMembers"
       (JObject
          (jsonOptField "lawyer" lawyerId
          (jsonOptField "religiousScholar" religiousScholarId
          (jsonOptField "societyMember" societyMemberId JNil))))
       JNil))).

Definition panelNotification (userId caseId title message : string) (now : Z)
    : Notification.t :=
  Notification.mk userId (Some caseId) "PANEL_ASSIGNMENT" title message
    false now.

Definition createPanel (now : Z) (user : AuthUser.t) (id : string)
    (b : PanelBody.t) : World -> Response * World :=
  tryCatch
    (let errors := panelErrors b in
     if negb (Validator.isEmpty errors)
     then ret (json 400 (ValidationFailed errors))
     else
       let lawyerId := PanelBody.lawyerId b in
       let religiousScholarId := PanelBody.religiousScholarId b in
       let societyMemberId := PanelBody.societyMemberId b in
       caseData <- query (fun d =>
         match find (fun c => Case.id c =? id) (cases d) with
         | Some c =>
             Some (c, find (fun p => MediationPanel.caseId p =? Case.id c)
                        (mediationPanels d))
         | None => None
         end) ;;
       match caseData with
       | None => ret (json 404 (Error "Case not found"))
       | Some (caseData, Some _) =>
           ret (json 409 (Error "Mediation panel already exists for this case"))
       | Some (caseData, None) =>
           if negb (statusEqb (Case.status caseData) WITNESSES_NOMINATED)
              && negb (statusEqb (Case.status caseData) ACCEPTED)
           then ret (json 400 (Error
             "Case must be in WITNESSES_NOMINATED or ACCEPTED status to create a panel"))
           else
             let requiredMemberIds :=
               filterBoolean [lawyerId; religiousScholarId; societyMemberId] in
             panelMembers <- userFindMany (fun u =>
               existsb (String.eqb (User.id u)) requiredMemberIds) ;;
             if negb (List.length panelMembers
                        =? List.length requiredMemberIds)%nat
             then ret (json 400 (Error "One or more panel members not found"))
             else
               panel <- mediationPanelCreate (fun pid =>
                 MediationPanel.mk pid id
                   (match lawyerId with Some l => l | None => "" end)
                   (Js.orElse religiousScholarId None)
                   (Js.orElse societyMemberId None) now) ;;
               caseUpdate id (Case.setStatus PANEL_CREATED) ;;;
               caseHistoryCreate
                 (CaseHistory.mk id "PANEL_CREATED" "Mediation panel created"
                    None
                    (Some (panelMetadata (AuthUser.id user)
                             (MediationPanel.id panel) lawyerId
                             religiousScholarId societyMemberId))
                    now) ;;;
               promiseAll
                 (notificationCreate
                    (panelNotification (Case.complainantId caseData) id
                       "Mediation Panel Created"
                       ("A mediation panel has been created for your case #"
                          ++ Case.caseNumber caseData ++ ".") now)
                  :: match Case.respondentId caseData with
                     | Some rid =>
                         [notificationCreate
                            (panelNotification rid id
                               "Mediation Panel Created"
                               ("A mediation panel has been created for case #"
                                  ++ Case.caseNumber caseData ++ ".") now)]
                     | None => []
                     end
                  ++ map (fun member =>
                       notificationCreate
                         (panelNotification (User.id member) id
                            "Assigned to Mediation Panel"
                            ("You have been assigned to a mediation panel for case #"
                               ++ Case.caseNumber caseData ++ ".") now))
                     panelMembers) ;;;
               ret (json 201
                 (PanelBody "Mediation panel created successfully" panel))
       end)
    (json 500 (Error "Internal server error")).

(** ** The workflow operations and the router *)

Inductive Operation : Type :=
| CreateCase (b : CreateCaseBody.t) (files : list File.t)
| RespondToCase (id : string) (b : RespondBody.t)
| NominateWitnesses (id : string) (b : WitnessesBody.t)
| CreatePanel (id : string) (b : PanelBody.t)
| SetStatus (id : string) (b : StatusBody.t).

(** The handler of an operation, past the middleware. *)
Definition perform (now : Z) (user : AuthUser.t) (op : Operation)
    : World -> Response * World :=
  match op with
  | CreateCase b files => createCase now user b files
  | RespondToCase id b => respondToCase now user id b
  | NominateWitnesses id b => nominateWitnesses now user id b
  | CreatePanel id b => createPanel now user id b
  | SetStatus id b => setStatus now user id b
  end.

(** [router.use(authenticate); router.use(requireAdmin)] of routes/admin.ts. *)
Definition adminOnly (op : Operation) : bool :=
  match op with
  | CreatePanel _ _ | SetStatus _ _ => true
  | _ => false
  end.

(** Every route of the server that writes the Case table, and the case
    read. *)
Inductive Route : Type :=
| Workflow (op : Operation)
| GetCase (id : string).

Record Request : Type := mkRequest {
  authorization : option string;
  route : Route;
  now : Z
}.

Definition api (r : Request) : World -> Response * World :=
  fun w =>
    match authenticate (authorization r) w with
    | (inl res, w') => (res, w')
    | (inr user, w') =>
        match route r with
        | GetCase id => getCase user id w'
        | Workflow op =>
            if adminOnly op
            then match requireAdmin (Some user) with
                 | Some res => (res, w')
                 | None => perform (now r) user op w'
                 end
            else perform (now r) user op w'
        end
    end.

End Handlers.

(** ** A concrete instance, for running the handlers

    Lower-casing is what validator.js's [normalizeEmail] does to an address
    outside the providers it special-cases; the inputs below carry no
    surrounding blanks and no HTML characters, so [trim] and [escape] leave
    them as they are. *)

Definition lowerAscii (c : ascii) : ascii :=
  let n := nat_of_ascii c in
  if ((65 <=? n) && (n <=? 90))%nat then ascii_of_nat (n + 32) else c.

Fixpoint toLowerCase (s : string) : string :=
  match s with
  | EmptyString => EmptyString
  | String c rest => String (lowerAscii c) (toLowerCase rest)
  end.

Fixpoint includes (c : ascii) (s : string) : bool :=
  match s with
  | EmptyString => false
  | String x rest => Ascii.eqb x c || includes c rest
  end.

Definition sameCaseAndEmail (a b : Witness.t) : bool :=
  (Witness.caseId a =? Witness.caseId b) && (Witness.email a =? Witness.email b).

Definition testDeps (conflict : Witness.t -> Witness.t -> bool) : Deps :=
  mkDeps
    (includes "@")
    toLowerCase
    (fun s => s)
    (fun s => s)
    (fun p => ("bcrypt:" ++ p)%string)
    (fun id => ("jwt:" ++ id)%string)
    (fun t => if Js.startsWith "jwt:" t then Some (Js.substringFrom 4 t) else None)
    (fun _ => 2025%Z)
    (fun n => ("id" ++ Js.ofNat n)%string)
    conflict.

Definition L0 : Deps := testDeps sameCaseAndEmail.

Definition alice : User.t :=
  User.mk "u1" "alice@example.com" "bcrypt:secret1" "Alice" None "USER".
Definition bob : User.t :=
  User.mk "u2" "bob@example.com" "bcrypt:secret2" "Bob" None "USER".
Definition carol : User.t :=
  User.mk "u3" "carol@example.com" "bcrypt:secret3" "Carol" None "USER".
Definition root : User.t :=
  User.mk "u0" "admin@resolveit.com" "bcrypt:admin123" "System Administrator"
    None "ADMIN".

Definition authOf (u : User.t) : AuthUser.t :=
  AuthUser.mk (User.id u) (User.email u) (User.name u) (User.role u).

(** Alice's case against Bob, in a given status. *)
Definition case1 (s : CaseStatus) : Case.t :=
  Case.mk "c1" "RES-2025-000001" "CONTRACT"
    "Non-payment for freelance web development services delivered in May."
    "u1" (Some "u2") "Bob" (Some "bob@example.com") None None false false
    None None None None "MEDIUM" s None None None 1000.

Definition created1 : CaseHistory.t :=
  CaseHistory.mk "c1" "CASE_CREATED" "Case registered successfully" (Some "u1")
    None 1000.
Definition accepted1 : CaseHistory.t :=
  CaseHistory.mk "c1" "CASE_ACCEPTED" "Respondent accepted the case" (Some "u2")
    None 2000.

Definition db1 (s : CaseStatus) : DB :=
  mkDB [root; alice; bob; carol] [case1 s] [] [created1] [] [] [] 7.

Definition carolWitness : Witness.t :=
  Witness.mk "c1" "Carol" "carol@example.com" "" "Nominated Witness" None.

(** The same store after Bob accepted and Carol was nominated once. *)
Definition db2 : DB :=
  mkDB [root; alice; bob; carol] [case1 ACCEPTED] [] [accepted1; created1] []
    [carolWitness] [] 7.

(** A valid payload naming Bob as the opposite party. *)
Definition claimAgainstBob : CreateCaseBody.t :=
  CreateCaseBody.mk "CONTRACT"
    "Non-payment for freelance web development services delivered in May."
    "Bob" (Some "Bob@Example.com") None None (Js.boolean false)
    (Js.boolean false) None None None None None.



(** PUT /api/admin/cases/c1/status with target CANCELLED. *)
Definition cancelRequest (bearer : string) : Request :=
  mkRequest (Some bearer)
    (Workflow (SetStatus "c1" (StatusBody.mk "CANCELLED" None))) 3000.

Definition noFault (d : DB) : World := mkWorld d None.
Definition faultAt (k : nat) (d : DB) : World := mkWorld d (Some k).


Definition statusOf (id : string) (d : DB) : option CaseStatus :=
  option_map Case.status (find (fun c => Case.id c =? id) (cases d)).

(** [entry.metadata?.[key]] *)
Definition auditField (key : string) (e : CaseHistory.t) : option Json :=
  match CaseHistory.metadata e with
  | Some j => jsonField key j
  | None => None
  end.

Definition succeeded (r : Response) : bool :=
  ((code r =? 200) || (code r =? 201))%nat.

(** ** The claims of the specification, as it words them *)

(** What the specification promises of a rejected respondToCase: 403 for a
    caller who is not the linked respondent, 409 for a case that is not
    AWAITING_RESPONSE, and the store as it was. *)
Definition respondRejectedAsSpecified (user : AuthUser.t) (c : Case.t) (d : DB)
    (out : Response * World) : Prop :=
  (Case.respondentId c <> Some (AuthUser.id user) -> code (fst out) = 403%nat)
  /\ (Case.status c <> AWAITING_RESPONSE -> code (fst out) = 409%nat)
  /\ db (snd out) = d.

(** The history a case read returns. *)
Definition historyOf (r : Response) : list CaseHistory.t :=
  match body r with
  | CaseDetail _ _ _ _ history => history
  | _ => []
  end.

Definition oldestFirst (h : list CaseHistory.t) : Prop :=
  StronglySorted
    (fun a b => (CaseHistory.createdAt a <= CaseHistory.createdAt b)%Z) h.

Definition newestFirst (h : list CaseHistory.t) : Prop :=
  StronglySorted
    (fun a b => (CaseHistory.createdAt b <= CaseHistory.createdAt a)%Z) h.

(** Scenario F and the interface of setStatus: the override succeeds, the
    case holds the target status, and one entry of kind "ADMIN_OVERRIDE"
    carries the old and the new status. *)
Definition overrideAsSpecified (id : string) (c : Case.t) (target : CaseStatus)
    (d : DB) (out : Response * World) : Prop :=
  code (fst out) = 200%nat
  /\ statusOf id (db (snd out)) = Some target
  /\ exists e,
       caseHistory (db (snd out)) = e :: caseHistory d
       /\ CaseHistory.action e = "ADMIN_OVERRIDE"
       /\ auditField "previousStatus" e
          = Some (JString (statusName (Case.status c)))
       /\ auditField "newStatus" e = Some (JString (statusName target)).





Definition returnedCase (r : Response) : option Case.t :=
  match body r with
  | CaseBody _ c _ => c
  | _ => None
  end.




(** An audit entry records the transition of a case when its metadata
    carries, as [previousStatus] and [newStatus], the statuses the case held
    before and after the operation. *)
Definition transitionRecorded (id : string) (before after : DB)
    (e : CaseHistory.t) : Prop :=
  exists c c',
    find (fun x => Case.id x =? id) (cases before) = Some c
    /\ find (fun x => Case.id x =? id) (cases after) = Some c'
    /\ auditField "previousStatus" e
       = Some (JString (statusName (Case.status c)))
    /\ auditField "newStatus" e = Some (JString (statusName (Case.status c'))).

(** An entry that carries neither field. *)
Definition noTransition (e : CaseHistory.t) : Prop :=
  auditField "previousStatus" e = None /\ auditField "newStatus" e = None.

(** The testable property on audit entries: one entry per successful
    operation, and it records the transition. *)
Definition auditedAsSpecified (id : string) (before : DB)
    (out : Response * World) : Prop :=
  exists e,
    caseHistory (db (snd out)) = e :: caseHistory before
    /\ transitionRecorded id before (db (snd out)) e.

(** The number of Prisma reads an operation awaits before its first write. *)
Definition readsBeforeWrite (L : Deps) (op : Operation) : nat :=
  match op with
  | CreateCase b _ =>
      if Js.truthyOpt
           (option_map (normalizeEmail L) (CreateCaseBody.oppositePartyEmail b))
      then 1
      else 0
  | RespondToCase _ _ => 1
  | NominateWitnesses _ _ => 2
  | CreatePanel _ _ => 2
  | SetStatus _ _ => 1
  end.

(** Section 5 and section 7 on a persistence failure: a run in which a
    Prisma call rejected (the fault was consumed) is answered 500 and leaves
    the store as it found it. *)
Definition atomicAsSpecified (d : DB) (out : Response * World) : Prop :=
  fault (snd out) = None -> code (fst out) = 500%nat /\ db (snd out) = d.


(** No case is CANCELLED in [d'] that was not already CANCELLED in [d]. *)
Definition noCancel (d d' : DB) : Prop :=
  forall id, statusOf id d' = Some CANCELLED -> statusOf id d = Some CANCELLED.

(** The one request that asks for a cancellation: the status override with
    target "CANCELLED". *)
Definition cancelling (r : Request) : bool :=
  match route r with
  | Workflow (SetStatus _ b) => StatusBody.status b =? "CANCELLED"
  | _ => false
  end.

(** The cancelCase operation of the interface, for the complainant: some
    route cancels a case of the caller that has not reached ACCEPTED. *)
Definition cancelExposedAsSpecified (L : Deps) : Prop :=
  exists cancelCase : string -> Route,
    forall (d : DB) (c : Case.t) (header : option string) (user : AuthUser.t)
           (w1 : World) (now : Z),
      authenticate L header (noFault d) = (inr user, w1) ->
      find (fun x => Case.id x =? Case.id c) (cases d) = Some c ->
      Case.complainantId c = AuthUser.id user ->
      Case.status c = PENDING \/ Case.status c = AWAITING_RESPONSE ->
      statusOf (Case.id c)
        (db (snd (api L (mkRequest header (cancelCase (Case.id c)) now)
                    (noFault d))))
      = Some CANCELLED.

(** The registration rule as the claim words it, on the submitted address. *)
Definition roleAsSpecified (b : RegisterBody.t) (u : User.t) : Prop :=
  User.role u = "ADMIN" <-> RegisterBody.email b = "admin@resolveit.com".

Definition registeredUser (r : Response) : option User.t :=
  match body r with
  | Registered _ u _ => Some u
  | _ => None
  end.

(** Started with a fault to come, [m] ends with the fault consumed only by
    throwing. *)
Definition rejects {A : Type} (m : Prisma A) : Prop :=
  forall d k r w',
    m (mkWorld d (Some k)) = (r, w') -> fault w' = None -> r = Exn.

(** Nothing [m] does moves a case to CANCELLED, whichever call rejects. *)
Definition cancelFree {A : Type} (m : Prisma A) : Prop :=
  forall w r w', m w = (r, w') -> noCancel (db w) (db w').

(** ** The other routes and the error handler

    Their answers have shapes of their own; [Reply] is a status code with a
    payload. *)

Record Reply (B : Type) : Type := reply {
  statusCode : nat;
  payload : B
}.
Arguments reply {B} statusCode payload.
Arguments statusCode {B} r.
Arguments payload {B} r.

(** [try { ... } catch (error) { res.status(500).json(...) }], for a
    [Reply]. *)
Definition catching {B : Type} (m : Prisma (Reply B)) (onError : Reply B)
    : World -> Reply B * World :=
  fun w =>
    match m w with
    | (Ok r, w') => (r, w')
    | (Exn, w') => (onError, w')
    end.

(** *** middleware/errorHandler.ts *)

Module CustomError.
Record t : Type := mk {
  message : string;
  stack : option string;
  status : option nat;
  statusCode : option nat
}.
End CustomError.




(** *** routes/auth.ts: POST /api/auth/login *)

Module LoginBody.
Record t : Type := mk {
  email : string;
  password : string
}.
End LoginBody.

(** [AuthOk] carries the row of the user; the answer shows its id, email,
    name, phone and role. *)
Inductive AuthPayload : Type :=
| AuthError (msg : string)
| AuthInvalid (details : list string)
| AuthOk (msg : string) (user : User.t) (token : string).

(** *** routes/admin.ts: GET /api/admin/dashboard *)

Record Statistics : Type := mkStatistics {
  totalCases : nat;
  pendingCases : nat;
  activeCases : nat;
  resolvedCases : nat;
  unresolvedCases : nat;
  totalUsers : nat
}.

(** The answer: the statistics, the recent cases, and the two groupings
    with their counts.  The resolution rate, a floating point quotient of
    two of the counts that is computed after the await, is left out; so are
    the names and addresses joined to each recent case. *)
Record Dashboard : Type := mkDashboard {
  statistics : Statistics;
  recentCases : list Case.t;
  casesByType : list (string * nat);
  casesByStatus : list (CaseStatus * nat)
}.

(** What one promise of the dashboard's [Promise.all] resolves to. *)
Inductive Aggregate : Type :=
| Count (n : nat)
| Rows (l : list Case.t)
| ByType (g : list (string * nat))
| ByStatus (g : list (CaseStatus * nat)).

(** [prisma.case.count({ where })] *)
Definition caseCount (p : Case.t -> bool) : Prisma Aggregate :=
  query (fun d => Count (List.length (filter p (cases d)))).

(** [status: { in: [...] }] *)
Definition statusIn (l : list CaseStatus) (c : Case.t) : bool :=
  existsb (statusEqb (Case.status c)) l.

(** [orderBy: { createdAt: "desc" }] on cases. *)
Fixpoint insertCaseDesc (c : Case.t) (l : list Case.t) : list Case.t :=
  match l with
  | [] => [c]
  | x :: rest =>
      if (Case.createdAt x <=? Case.createdAt c)%Z
      then c :: x :: rest
      else x :: insertCaseDesc c rest
  end.

(** [findMany({ where: { createdAt: { gte } }, orderBy, take: 10 })] *)
Definition casesSince (since : Z) (l : list Case.t) : list Case.t :=
  firstn 10
    (fold_right insertCaseDesc []
       (filter (fun c => (since <=? Case.createdAt c)%Z) l)).

(** [groupBy({ by: [key], _count })]: one group per key with the number of
    its rows.  The order of the groups is the database's; here a group
    stands where its oldest row does. *)
Fixpoint countIn {K : Type} (eqb : K -> K -> bool) (k : K)
    (groups : list (K * nat)) : list (K * nat) :=
  match groups with
  | [] => [(k, 1%nat)]
  | (k', n) :: rest =>
      if eqb k' k then (k', S n) :: rest else (k', n) :: countIn eqb k rest
  end.

Definition groupBy {K : Type} (eqb : K -> K -> bool) (key : Case.t -> K)
    (l : list Case.t) : list (K * nat) :=
  fold_right (fun c groups => countIn eqb (key c) groups) [] l.

(** The nine promises of the [Promise.all], in the order of the source. *)
Definition dashboard (now : Z) : World -> Reply (option Dashboard) * World :=
  catching
    (results <- promiseAll
       [caseCount (fun _ => true);
        caseCount (statusIn [PENDING]);
        caseCount (statusIn [AWAITING_RESPONSE; ACCEPTED; WITNESSES_NOMINATED;
                             PANEL_CREATED; MEDIATION_IN_PROGRESS]);
        caseCount (statusIn [RESOLVED]);
        caseCount (statusIn [UNRESOLVED]);
        query (fun d => Count (List.length (users d)));
        query (fun d => Rows (casesSince (now - 604800000) (cases d)));
        query (fun d => ByType (groupBy String.eqb Case.caseType (cases d)));
        query (fun d => ByStatus (groupBy statusEqb Case.status (cases d)))] ;;
     match results with
     | [Count total; Count pending; Count active; Count resolved;
        Count unresolved; Count allUsers; Rows recent; ByType types;
        ByStatus statuses] =>
         ret (reply 200
                (Some (mkDashboard
                         (mkStatistics total pending active resolved
                            unresolved allUsers)
                         recent types statuses)))
     | _ => throw
     end)
    (reply 500 None).

(** *** routes/users.ts: PUT /api/users/profile *)

Module ProfileBody.
Record t : Type := mk {
  name : option string;
  phone : option string
}.
End ProfileBody.

(** [ProfileUpdated] carries the updated row; the answer shows its id, email,
    name, phone and role, and the isVerified column, which no handler here
    reads or writes. *)
Inductive ProfilePayload : Type :=
| ProfileError (msg : string)
| ProfileInvalid (details : list string)
| ProfileUpdated (msg : string) (user : User.t).

Definition setName (name : string) (u : User.t) : User.t :=
  User.mk (User.id u) (User.email u) (User.password u) name (User.phone u)
    (User.role u).

Definition setPhone (phone : string) (u : User.t) : User.t :=
  User.mk (User.id u) (User.email u) (User.password u) (User.name u)
    (Some phone) (User.role u).

(** [if (name) updateData.name = name; if (phone) updateData.phone = phone] *)
Definition updateData (name phone : option string) (u : User.t) : User.t :=
  let u1 := match name with
            | Some n => if Js.truthyStr n then setName n u else u
            | None => u
            end in
  match phone with
  | Some p => if Js.truthyStr p then setPhone p u1 else u1
  | None => u1
  end.

(** [prisma.user.update({ where: { id }, data })] rejects when no row has
    the id. *)
Definition userUpdate (id : string) (f : User.t -> User.t) : Prisma User.t :=
  call (fun d =>
    match find (fun u => User.id u =? id) (users d) with
    | Some u =>
        Some (f u,
              withUsers (map (fun x => if User.id x =? id then f x else x)) d)
    | None => None
    end).

Section OtherRoutes.

Variable L : Deps.

(** [bcrypt.compare(password, hash)] and validator.js's
    [isMobilePhone(s, "any")]. *)
Variable bcryptCompare : string -> string -> bool.
Variable isMobilePhone : string -> bool.

Definition loginErrors (b : LoginBody.t) : list string :=
  Validator.check (isEmail L (LoginBody.email b)) "Please provide a valid email"
  ++ Validator.check (Js.truthyStr (LoginBody.password b))
       "Password is required".

Definition login (b : LoginBody.t) : World -> Reply AuthPayload * World :=
  catching
    (let errors := loginErrors b in
     if negb (Validator.isEmpty errors)
     then ret (reply 400 (AuthInvalid errors))
     else
       let email := normalizeEmail L (LoginBody.email b) in
       let password := LoginBody.password b in
       user <- userFindUnique (fun u => User.email u =? email) ;;
       match user with
       | None => ret (reply 401 (AuthError "Invalid credentials"))
       | Some user =>
           let isValidPassword := bcryptCompare password (User.password user) in
           if negb isValidPassword
           then ret (reply 401 (AuthError "Invalid credentials"))
           else
             let token := jwtSign L (User.id user) in
             ret (reply 200 (AuthOk "Login successful" user token))
       end)
    (reply 500 (AuthError "Internal server error during login")).

Definition profileErrors (b : ProfileBody.t) : list string :=
  Validator.check
    (Validator.optional (Validator.isLength 2 50) (ProfileBody.name b))
    "Name must be between 2 and 50 characters"
  ++ Validator.check (Validator.optional isMobilePhone (ProfileBody.phone b))
       "Please provide a valid phone number".

Definition updateProfile (user : AuthUser.t) (b : ProfileBody.t)
    : World -> Reply ProfilePayload * World :=
  catching
    (let errors := profileErrors b in
     if negb (Validator.isEmpty errors)
     then ret (reply 400 (ProfileInvalid errors))
     else
       let name := sanitize L (ProfileBody.name b) in
       let phone := ProfileBody.phone b in
       taken <-
         (if Js.truthyOpt phone
          then userFindUnique (fun u =>
                 match phone, User.phone u with
                 | Some p, Some q => (q =? p) && negb (User.id u =? AuthUser.id user)
                 | _, _ => false
                 end)
          else ret None) ;;
       match taken with
       | Some _ =>
           ret (reply 409
                  (ProfileError "Phone number is already taken by another user"))
       | None =>
           updatedUser <- userUpdate (AuthUser.id user) (updateData name phone) ;;
           ret (reply 200 (ProfileUpdated "Profile updated successfully"
                             updatedUser))
       end)
    (reply 500 (ProfileError "Internal server error")).

End OtherRoutes.

(** *** routes/notifications.ts: mark read, mark all read, delete

    These routes address a notification by its key, which the workflow
    handlers never read; here the table is the list of its rows with their
    keys.  Each route makes at most one write, so a rejected call leaves
    nothing behind; the functions give the answer and the table when no call
    rejects. *)

Module Inbox.

Record row : Type := mkRow {
  id : string;
  notification : Notification.t
}.

Inductive Payload : Type :=
| Failed (msg : string)
| Marked (msg : string) (r : row)
| AllMarked (msg : string) (updatedCount : nat)
| Deleted (msg : string).

Definition owner (r : row) : string := Notification.userId (notification r).

Definition isRead (r : row) : bool := Notification.isRead (notification r).

(** [data: { isRead: true }] *)
Definition read (r : row) : row :=
  let n := notification r in
  mkRow (id r)
    (Notification.mk (Notification.userId n) (Notification.caseId n)
       (Notification.type n) (Notification.title n) (Notification.message n)
       true (Notification.createdAt n)).

(** [findFirst({ where: { id, userId: req.user.id } })] *)
Definition findOwned (key : string) (user : AuthUser.t) (t : list row)
    : option row :=
  find (fun r => (id r =? key) && (owner r =? AuthUser.id user)) t.

(** PUT /api/notifications/:id/read *)
Definition markRead (user : AuthUser.t) (key : string) (t : list row)
    : Reply Payload * list row :=
  match findOwned key user t with
  | None => (reply 404 (Failed "Notification not found"), t)
  | Some r =>
      (reply 200 (Marked "Notification marked as read" (read r)),
       map (fun x => if id x =? key then read x else x) t)
  end.

(** PUT /api/notifications/read-all *)
Definition markAllRead (user : AuthUser.t) (t : list row)
    : Reply Payload * list row :=
  let unread x := (owner x =? AuthUser.id user) && negb (isRead x) in
  (reply 200
     (AllMarked "All notifications marked as read"
        (List.length (filter unread t))),
   map (fun x => if unread x then read x else x) t).

(** DELETE /api/notifications/:id *)
Definition delete (user : AuthUser.t) (key : string) (t : list row)
    : Reply Payload * list row :=
  match findOwned key user t with
  | None => (reply 404 (Failed "Notification not found"), t)
  | Some _ =>
      (reply 200 (Deleted "Notification deleted successfully"),
       filter (fun x => negb (id x =? key)) t)
  end.

(** [prisma.notification.count({ where: { userId, isRead: false } })] *)
Definition unreadCount (user : AuthUser.t) (t : list row) : nat :=
  List.length
    (filter (fun x => (owner x =? AuthUser.id user) && negb (isRead x)) t).

End Inbox.

(** ** The store before and after a handler *)

(** Whatever [m] answers and whichever call rejects, the stores before and
    after are related by [R]. *)
Definition keeps (R : DB -> DB -> Prop) {A : Type} (m : Prisma A) : Prop :=
  forall w r w', m w = (r, w') -> R (db w) (db w').

(** The part [T] of the store is after as it was before. *)
Definition same {X : Type} (T : DB -> X) (d d' : DB) : Prop := T d' = T d.

(** A case as it was filed: the row without the status and the response of
    the respondent, the only columns an update of the workflow writes. *)
Definition filed (c : Case.t) : Case.t :=
  Case.mk (Case.id c) (Case.caseNumber c) (Case.caseType c)
    (Case.issueDescription c) (Case.complainantId c) (Case.respondentId c)
    (Case.oppositePartyName c) (Case.oppositePartyEmail c)
    (Case.oppositePartyPhone c) (Case.oppositePartyAddress c)
    (Case.isInCourt c) (Case.isInPoliceStation c) (Case.courtCaseNumber c)
    (Case.firNumber c) (Case.courtName c) (Case.policeStationName c)
    (Case.priority c) PENDING None None None (Case.createdAt c).

(** A table that only gained rows, at its front. *)
Definition extends {A : Type} (before after : list A) : Prop :=
  exists added, after = added ++ before.

Definition stable (d d' : DB) : Prop :=
  users d' = users d
  /\ extends (caseHistory d) (caseHistory d')
  /\ extends (notifications d) (notifications d')
  /\ extends (evidence d) (evidence d')
  /\ extends (mediationPanels d) (mediationPanels d')
  /\ incl (witnesses d) (witnesses d')
  /\ extends (map filed (cases d)) (map filed (cases d')).

(** What the first write of an operation leaves in its table: the row of
    the new case as it was filed, the updated case, the witness rows, the
    panel. *)
Inductive Written : Type :=
| CaseRows (l : list Case.t)
| WitnessRows (l : list Witness.t)
| PanelRows (l : list MediationPanel.t).

Definition firstWritten (op : Operation) (d : DB) : Written :=
  match op with
  | CreateCase _ _ => CaseRows (map filed (cases d))
  | RespondToCase _ _ => CaseRows (cases d)
  | NominateWitnesses _ _ => WitnessRows (witnesses d)
  | CreatePanel _ _ => PanelRows (mediationPanels d)
  | SetStatus _ _ => CaseRows (cases d)
  end.

(** The court and police details a case must carry when its flags are set. *)
Definition detailsPresent (c : Case.t) : Prop :=
  (Case.isInCourt c = true ->
     Js.truthyOpt (Case.courtCaseNumber c) = true
     /\ Js.truthyOpt (Case.courtName c) = true)
  /\ (Case.isInPoliceStation c = true ->
        Js.truthyOpt (Case.firNumber c) = true
        /\ Js.truthyOpt (Case.policeStationName c) = true).

(** The status changes that respondToCase, nominateWitnesses and
    createPanel make. *)
Definition edge (from to : CaseStatus) : bool :=
  match from, to with
  | AWAITING_RESPONSE, ACCEPTED
  | AWAITING_RESPONSE, UNRESOLVED
  | ACCEPTED, WITNESSES_NOMINATED
  | ACCEPTED, PANEL_CREATED
  | WITNESSES_NOMINATED, PANEL_CREATED => true
  | _, _ => false
  end.

Definition countCancelled (d : DB) : nat :=
  List.length (filter (fun c => statusEqb (Case.status c) CANCELLED) (cases d)).

(** The store after a handler moved the case [id] along an edge: the rows
    with that id were updated by [f], which takes the status of the row it
    found to a status one edge away. *)
Definition moved (id : string) (d d' : DB) : Prop :=
  exists c f,
    In c (cases d)
    /\ Case.id c = id
    /\ cases d' = updateWhere id f (cases d)
    /\ (forall x, Case.id (f x) = Case.id x)
    /\ (forall x, edge (Case.status c) (Case.status (f x)) = true).

(** [createPanel] accepts a case in one of these two statuses. *)
Definition panelReady (c : Case.t) : bool :=
  statusEqb (Case.status c) WITNESSES_NOMINATED
  || statusEqb (Case.status c) ACCEPTED.

(** The operations that move a case along the workflow: every one but the
    filing of a case and the override of the administrator. *)
Definition workflowStep (op : Operation) : bool :=
  match op with
  | RespondToCase _ _ | NominateWitnesses _ _ | CreatePanel _ _ => true
  | CreateCase _ _ | SetStatus _ _ => false
  end.

(** The columns of a user that [updateData] has no field for. *)
Definition credentials (u : User.t) : string * string * string * string :=
  (User.id u, User.email u, User.password u, User.role u).

(** ** Inputs for running the other routes *)

(** [bcrypt.compare] for the hashes of [testDeps]. *)
Definition compareHash (password hash : string) : bool :=
  hash =? ("bcrypt:" ++ password)%string.

(** The registration of a fourth person. *)
Definition dave : RegisterBody.t :=
  RegisterBody.mk "Dave@Example.com" "secret4" "Dave" None.

(** The request of a signed-in user. *)
Definition requestBy (u : User.t) (r : Route) (at_ : Z) : Request :=
  mkRequest (Some ("Bearer jwt:" ++ User.id u)%string) r at_.

(** Two notifications of Alice, the older one read, and one of Bob. *)
Definition inbox1 : list Inbox.row :=
  [Inbox.mkRow "n3"
     (Notification.mk "u1" (Some "c1") "CASE_UPDATE" "Case Accepted"
        "The opposite party has accepted your case." false 2000);
   Inbox.mkRow "n2"
     (Notification.mk "u2" (Some "c1") "CASE_UPDATE" "New Case Filed Against You"
        "A case has been filed against you." false 1000);
   Inbox.mkRow "n1"
     (Notification.mk "u1" None "SYSTEM" "Welcome" "Welcome to ResolveIt." true
        500)].

(** * Properties *)

(** ** Lists and statuses *)

Lemma statusEqb_eq (a b : CaseStatus) : statusEqb a b = true <-> a = b.
Proof.
  split.
  - destruct a, b; intros H; try reflexivity; vm_compute in H; discriminate.
  - intros ->. destruct b; reflexivity.
Qed.

Lemma parseStatus_name (s : CaseStatus) : parseStatus (statusName s) = Some s.
Proof. destruct s; reflexivity. Qed.

Lemma optEqb_eq (o : option string) (s : string) :
  optEqb o s = true <-> o = Some s.
Proof.
  destruct o as [x|]; simpl.
  - rewrite String.eqb_eq. split; congruence.
  - split; discriminate.
Qed.

Lemma find_pointwise {A : Type} (p q : A -> bool) (l : list A) :
  (forall x, p x = q x) -> find p l = find q l.
Proof.
  intros H. induction l as [|a l IH]; simpl; [reflexivity|].
  rewrite H, IH. reflexivity.
Qed.

Lemma find_conj {A : Type} (p q : A -> bool) (l : list A) (x : A) :
  find p l = Some x -> q x = true -> find (fun y => p y && q y) l = Some x.
Proof.
  induction l as [|a l IH]; simpl; intros Hf Hq; [discriminate|].
  destruct (p a) eqn:Hp; simpl.
  - injection Hf as ->. rewrite Hq. reflexivity.
  - auto.
Qed.

Lemma find_none_conj {A : Type} (p q : A -> bool) (l : list A) :
  (forall x, In x l -> p x = true -> q x = false) ->
  find (fun y => p y && q y) l = None.
Proof.
  induction l as [|a l IH]; simpl; intros H; [reflexivity|].
  destruct (p a) eqn:Hp; simpl.
  - rewrite (H a (or_introl eq_refl) Hp). apply IH. intros x Hx. apply H. now right.
  - apply IH. intros x Hx. apply H. now right.
Qed.

Lemma find_updateWhere (id : string) (f : Case.t -> Case.t) (l : list Case.t)
    (c : Case.t) :
  (forall x, Case.id (f x) = Case.id x) ->
  find (fun x => Case.id x =? id) l = Some c ->
  find (fun x => Case.id x =? id) (updateWhere id f l) = Some (f c).
Proof.
  intros Hid. induction l as [|a l IH]; simpl; intros Hf; [discriminate|].
  destruct (Case.id a =? id) eqn:Ha.
  - injection Hf as ->. rewrite Hid, Ha. reflexivity.
  - rewrite Ha. auto.
Qed.

(** ** Ordering by creation time *)

Lemma insertDesc_perm (e : CaseHistory.t) (l : list CaseHistory.t) :
  Permutation (insertDesc e l) (e :: l).
Proof.
  induction l as [|x l IH]; simpl; [apply Permutation_refl|].
  destruct (CaseHistory.createdAt x <=? CaseHistory.createdAt e)%Z.
  - apply Permutation_refl.
  - apply perm_trans with (x :: e :: l).
    + apply perm_skip. exact IH.
    + apply perm_swap.
Qed.

Lemma orderByCreatedAtDesc_perm (l : list CaseHistory.t) :
  Permutation (orderByCreatedAtDesc l) l.
Proof.
  induction l as [|x l IH]; simpl; [apply perm_nil|].
  apply perm_trans with (x :: orderByCreatedAtDesc l).
  - apply insertDesc_perm.
  - apply perm_skip. exact IH.
Qed.

Lemma insertDesc_sorted (e : CaseHistory.t) (l : list CaseHistory.t) :
  newestFirst l -> newestFirst (insertDesc e l).
Proof.
  unfold newestFirst. induction l as [|x l IH]; simpl; intros Hs.
  - constructor; constructor.
  - inversion Hs as [|? ? Hl Hx]; subst.
    destruct (CaseHistory.createdAt x <=? CaseHistory.createdAt e)%Z eqn:E.
    + apply Z.leb_le in E. constructor; [exact Hs|].
      constructor; [exact E|].
      rewrite Forall_forall in *. intros y Hy. specialize (Hx y Hy). lia.
    + apply Z.leb_gt in E. constructor; [apply IH; exact Hl|].
      rewrite Forall_forall in *. intros y Hy.
      apply (Permutation_in _ (insertDesc_perm e l)) in Hy.
      destruct Hy as [<-|Hy]; [lia|apply Hx; exact Hy].
Qed.

Lemma orderByCreatedAtDesc_sorted (l : list CaseHistory.t) :
  newestFirst (orderByCreatedAtDesc l).
Proof.
  induction l as [|x l IH]; simpl.
  - constructor.
  - apply insertDesc_sorted. exact IH.
Qed.

(** ** Running a handler when no call rejects *)

Lemma call_run {A : Type} (f : DB -> option (A * DB)) (d : DB) :
  call f (mkWorld d None)
  = match f d with
    | Some (a, d') => (Ok a, mkWorld d' None)
    | None => (Exn, mkWorld d None)
    end.
Proof. unfold call. simpl. destruct (f d) as [[a d']|]; reflexivity. Qed.

Lemma query_run {A : Type} (f : DB -> A) (d : DB) :
  query f (mkWorld d None) = (Ok (f d), mkWorld d None).
Proof. reflexivity. Qed.

Lemma exec_run (f : DB -> DB) (d : DB) :
  exec f (mkWorld d None) = (Ok tt, mkWorld (f d) None).
Proof. reflexivity. Qed.

(** Awaiting an array of writes none of which rejects applies them in turn. *)
Lemma promiseAll_exec {X : Type} (f : X -> DB -> DB) (l : list X) (d : DB) :
  promiseAll (map (fun x => exec (f x)) l) (mkWorld d None)
  = (Ok (map (fun _ => tt) l),
     mkWorld (fold_left (fun acc x => f x acc) l d) None).
Proof.
  revert d. induction l as [|x l IH]; intros d; [reflexivity|].
  cbn [map promiseAll fold_left]. rewrite exec_run, IH. reflexivity.
Qed.

Lemma fold_notifications {X : Type} (g : X -> Notification.t) (l : list X)
    (d : DB) :
  fold_left (fun acc x => withNotifications (cons (g x)) acc) l d
  = withNotifications (app (rev (map g l))) d.
Proof.
  revert d. induction l as [|x l IH]; intros d.
  - destruct d; reflexivity.
  - cbn [fold_left map rev]. rewrite IH. unfold withNotifications.
    cbn [users cases evidence caseHistory notifications witnesses
         mediationPanels idSeq].
    rewrite <- app_assoc. reflexivity.
Qed.

Ltac prisma :=
  repeat (progress (
    unfold tryCatch, bind, ret, throw, noFault,
      userFindUnique, userFindMany, userCreate, caseFindFirst, caseFindUnique,
      caseCreate, caseUpdate, evidenceCreateMany, caseHistoryCreate,
      notificationCreate, witnessCreateMany, mediationPanelCreate;
    rewrite ?query_run, ?exec_run, ?call_run, ?promiseAll_exec,
      ?fold_notifications;
    cbn [promiseAll app fault db fst snd users cases evidence caseHistory
         notifications witnesses mediationPanels idSeq withUsers withCases
         withEvidence withCaseHistory withNotifications withWitnesses
         withMediationPanels nextSeq find map updateWhere Case.id Case.status
         Case.setStatus Case.setResponse code body option_map];
    rewrite ?String.eqb_refl)).


(** ** createMany with skipDuplicates *)

Lemma insertSkipping_incl (conflict : Witness.t -> Witness.t -> bool)
    (rows table : list Witness.t) (x : Witness.t) :
  In x table -> In x (insertSkipping conflict rows table).
Proof.
  revert table. induction rows as [|r rows IH]; intros table Hin; simpl.
  - exact Hin.
  - destruct (existsb (conflict r) table); apply IH; [exact Hin|now right].
Qed.


Lemma parseStatus_some (s : string) (st : CaseStatus) :
  parseStatus s = Some st -> statusName st = s.
Proof.
  unfold parseStatus. intros H. apply find_some in H.
  apply String.eqb_eq. apply H.
Qed.

(** Case analysis on the tests a handler makes, innermost first. *)
Ltac plain x :=
  lazymatch x with
  | context [if _ then _ else _] => fail
  | context [match _ with Some _ => _ | None => _ end] => fail
  | context [match _ with [] => _ | _ :: _ => _ end] => fail
  | _ => idtac
  end.

Ltac branch :=
  match goal with
  | |- context [if ?c then _ else _] => plain c; destruct c eqn:?
  | |- context [match ?x with Some _ => _ | None => _ end] =>
      plain x; destruct x eqn:?
  | |- context [match ?x with [] => _ | _ :: _ => _ end] =>
      plain x; destruct x eqn:?
  end.

Ltac audited :=
  first
    [ (intros Hs; cbn in Hs; discriminate Hs)
    | (intros _; eexists; split; [reflexivity|]; split; reflexivity) ].

(** ** A rejected call reaches the catch *)

Lemma rejects_ret {A : Type} (a : A) : rejects (ret a).
Proof. intros d k r w' H Hf. injection H as <- <-. discriminate Hf. Qed.

Lemma rejects_throw {A : Type} : rejects (@throw A).
Proof. intros d k r w' H _. injection H as <- _. reflexivity. Qed.

Lemma rejects_call {A : Type} (f : DB -> option (A * DB)) : rejects (call f).
Proof.
  intros d k r w' H Hf. unfold call in H. cbn [fault db] in H.
  destruct k as [|k].
  - injection H as <- _. reflexivity.
  - destruct (f d) as [[a d']|]; injection H as <- <-;
      [discriminate Hf|reflexivity].
Qed.

Lemma rejects_bind {A B : Type} (m : Prisma A) (k : A -> Prisma B) :
  rejects m -> (forall a, rejects (k a)) -> rejects (bind m k).
Proof.
  intros Hm Hk d n r w' H Hf. unfold bind in H.
  destruct (m (mkWorld d (Some n))) as [[a|] w1] eqn:E.
  - destruct w1 as [d1 [n1|]].
    + exact (Hk a d1 n1 r w' H Hf).
    + specialize (Hm d n (Ok a) _ E eq_refl). discriminate Hm.
  - injection H as <- _. reflexivity.
Qed.

Lemma rejects_promiseAll {A : Type} (ps : list (Prisma A)) :
  (forall p, In p ps -> rejects p) -> rejects (promiseAll ps).
Proof.
  induction ps as [|p ps IH]; intros Hall d k r w' H Hf.
  - injection H as <- <-. discriminate Hf.
  - cbn [promiseAll] in H.
    destruct (p (mkWorld d (Some k))) as [[a|] w1] eqn:E.
    + destruct w1 as [d1 [n1|]].
      * destruct (promiseAll ps (mkWorld d1 (Some n1))) as [[l|] w2] eqn:E2.
        -- injection H as <- <-.
           assert (X : @Ok (list A) l = Exn).
           { apply (IH (fun q Hq => Hall q (or_intror Hq)) d1 n1 _ _ E2 Hf). }
           discriminate X.
        -- injection H as <- _. reflexivity.
      * specialize (Hall p (or_introl eq_refl) d k (Ok a) _ E eq_refl).
        discriminate Hall.
    + injection H as <- _. reflexivity.
Qed.

Lemma tryCatch_rejects (m : Prisma Response) (onError : Response) (d : DB)
    (k : nat) :
  rejects m ->
  fault (snd (tryCatch m onError (faultAt k d))) = None ->
  fst (tryCatch m onError (faultAt k d)) = onError.
Proof.
  intros Hm. unfold tryCatch, faultAt.
  destruct (m (mkWorld d (Some k))) as [[r|] w'] eqn:E; cbn [fst snd];
    intros Hf.
  - specialize (Hm d k _ _ E Hf). discriminate Hm.
  - reflexivity.
Qed.

(** The members of an array of promises built by the handlers. *)
Ltac members :=
  intros ? Hin; cbn [In app] in Hin;
  repeat match goal with
         | H : _ \/ _ |- _ => destruct H as [H|H]
         | H : In _ (_ ++ _) |- _ => apply in_app_or in H
         | H : In _ (_ :: _) |- _ => destruct H as [H|H]
         | H : In _ [] |- _ => destruct H
         | H : In _ (map _ _) |- _ =>
             apply in_map_iff in H; destruct H as (? & H & _)
         | H : In _ (match ?x with Some _ => _ | None => _ end) |- _ =>
             destruct x
         | H : False |- _ => destruct H
         end; subst.

Ltac rejecting :=
  repeat first
    [ apply rejects_ret
    | apply rejects_throw
    | apply rejects_call
    | (apply rejects_promiseAll; members)
    | (apply rejects_bind; [|intros ?])
    | match goal with
      | |- rejects (if ?c then _ else _) => destruct c
      | |- rejects (match ?x with Some _ => _ | None => _ end) => destruct x
      | |- rejects (match ?x with [] => _ | _ :: _ => _ end) => destruct x
      | |- rejects (match ?x with (_, _) => _ end) => destruct x
      end
    | progress cbv zeta
    | progress unfold userFindUnique, userFindMany, userCreate, caseFindFirst,
        caseFindUnique, caseCreate, caseUpdate, evidenceCreateMany,
        caseHistoryCreate, notificationCreate, witnessCreateMany,
        mediationPanelCreate, query, exec ].

(** ** Running a handler up to the rejected call *)

Lemma call_fault_now {A : Type} (f : DB -> option (A * DB)) (d : DB) :
  call f (mkWorld d (Some 0%nat)) = (Exn, mkWorld d None).
Proof. reflexivity. Qed.

Lemma call_fault_later {A : Type} (f : DB -> option (A * DB)) (d : DB)
    (k : nat) :
  call f (mkWorld d (Some (S k)))
  = match f d with
    | Some (a, d') => (Ok a, mkWorld d' (Some k))
    | None => (Exn, mkWorld d (Some k))
    end.
Proof. unfold call. simpl. destruct (f d) as [[a d']|]; reflexivity. Qed.

Ltac faulty :=
  repeat (progress (
    unfold tryCatch, bind, ret, throw, faultAt,
      userFindUnique, userFindMany, userCreate, caseFindFirst, caseFindUnique,
      caseCreate, caseUpdate, evidenceCreateMany, caseHistoryCreate,
      notificationCreate, witnessCreateMany, mediationPanelCreate, query, exec;
    rewrite ?call_fault_now, ?call_fault_later;
    cbn [fault db fst snd])).

(** ** Cancellation is no effect of a party's operation *)

Lemma noCancel_refl d : noCancel d d.
Proof. intros id H. exact H. Qed.

Lemma noCancel_trans d1 d2 d3 : noCancel d1 d2 -> noCancel d2 d3 -> noCancel d1 d3.
Proof. intros H1 H2 id H. apply H1, H2, H. Qed.

Lemma noCancel_same_cases d d' : cases d' = cases d -> noCancel d d'.
Proof. intros E id. unfold statusOf. rewrite E. auto. Qed.

Lemma cancelFree_ret {A : Type} (a : A) : cancelFree (ret a).
Proof. intros w r w' H. injection H as _ <-. apply noCancel_refl. Qed.

Lemma cancelFree_throw {A : Type} : cancelFree (@throw A).
Proof. intros w r w' H. injection H as _ <-. apply noCancel_refl. Qed.

Lemma cancelFree_call {A : Type} (f : DB -> option (A * DB)) :
  (forall d a d', f d = Some (a, d') -> noCancel d d') -> cancelFree (call f).
Proof.
  intros Hf w r w' H. unfold call in H.
  destruct (fault w) as [[|k]|].
  - injection H as _ <-. apply noCancel_refl.
  - destruct (f (db w)) as [[a d']|] eqn:E; injection H as _ <-; cbn [db].
    + exact (Hf _ _ _ E).
    + apply noCancel_refl.
  - destruct (f (db w)) as [[a d']|] eqn:E; injection H as _ <-; cbn [db].
    + exact (Hf _ _ _ E).
    + apply noCancel_refl.
Qed.

Lemma cancelFree_bind {A B : Type} (m : Prisma A) (k : A -> Prisma B) :
  cancelFree m -> (forall a, cancelFree (k a)) -> cancelFree (bind m k).
Proof.
  intros Hm Hk w r w' H. unfold bind in H.
  destruct (m w) as [[a|] w1] eqn:E.
  - apply noCancel_trans with (db w1); [exact (Hm _ _ _ E)|exact (Hk _ _ _ _ H)].
  - injection H as _ <-. exact (Hm _ _ _ E).
Qed.

Lemma cancelFree_promiseAll {A : Type} (ps : list (Prisma A)) :
  (forall p, In p ps -> cancelFree p) -> cancelFree (promiseAll ps).
Proof.
  induction ps as [|p ps IH]; intros Hall w r w' H.
  - injection H as _ <-. apply noCancel_refl.
  - cbn [promiseAll] in H.
    destruct (p w) as [[a|] w1] eqn:E.
    + destruct (promiseAll ps w1) as [[l|] w2] eqn:E2; injection H as _ <-;
        (apply noCancel_trans with (db w1);
         [exact (Hall p (or_introl eq_refl) _ _ _ E)
         |exact (IH (fun q Hq => Hall q (or_intror Hq)) _ _ _ E2)]).
    + injection H as _ <-.
      apply noCancel_trans with (db w1);
        [exact (Hall p (or_introl eq_refl) _ _ _ E)|].
      destruct (promiseAll ps w1) as [r2 w2] eqn:E2. cbn [snd].
      exact (IH (fun q Hq => Hall q (or_intror Hq)) _ _ _ E2).
Qed.

Lemma cancelFree_tryCatch (m : Prisma Response) (onError : Response) (w : World) :
  cancelFree m -> noCancel (db w) (db (snd (tryCatch m onError w))).
Proof.
  intros Hm. unfold tryCatch. destruct (m w) as [[r|] w'] eqn:E; cbn [snd];
    exact (Hm _ _ _ E).
Qed.

Lemma cancelFree_query {A : Type} (f : DB -> A) : cancelFree (query f).
Proof.
  apply cancelFree_call. intros d a d' H. injection H as _ <-.
  apply noCancel_refl.
Qed.

Lemma cancelFree_exec (f : DB -> DB) :
  (forall d, cases (f d) = cases d) -> cancelFree (exec f).
Proof.
  intros Hf. apply cancelFree_call. intros d a d' H. injection H as _ <-.
  apply noCancel_same_cases, Hf.
Qed.

Lemma cancelFree_caseCreate L (row : string -> Case.t) :
  (forall id, Case.status (row id) <> CANCELLED) -> cancelFree (caseCreate L row).
Proof.
  intros Hrow. apply cancelFree_call. intros d a d' H. injection H as _ <-.
  intros id. unfold statusOf. cbn [cases nextSeq withCases find].
  destruct (Case.id (row (cuid L (idSeq d))) =? id); [|auto].
  cbn [option_map]. intros E. injection E as E. destruct (Hrow _ E).
Qed.

Lemma find_updateWhere_status (id id' : string) (f : Case.t -> Case.t)
    (l : list Case.t) (st : CaseStatus) :
  (forall x, Case.id (f x) = Case.id x) ->
  (forall x, Case.status (f x) <> st) ->
  option_map Case.status (find (fun x => Case.id x =? id') (updateWhere id f l))
  = Some st ->
  option_map Case.status (find (fun x => Case.id x =? id') l) = Some st.
Proof.
  intros Hid Hst. induction l as [|a l IH]; cbn [updateWhere map find]; [auto|].
  destruct (Case.id a =? id) eqn:Ha.
  - rewrite Hid. destruct (Case.id a =? id'); [|exact IH].
    cbn [option_map]. intros E. injection E as E. destruct (Hst _ E).
  - destruct (Case.id a =? id'); [auto|exact IH].
Qed.

Lemma cancelFree_caseUpdate (id : string) (f : Case.t -> Case.t) :
  (forall x, Case.id (f x) = Case.id x) ->
  (forall x, Case.status (f x) <> CANCELLED) ->
  cancelFree (caseUpdate id f).
Proof.
  intros Hid Hst. apply cancelFree_call. intros d a d' H.
  destruct (find (fun c => Case.id c =? id) (cases d)); [|discriminate H].
  injection H as _ <-. intros id'. unfold statusOf. cbn [cases withCases].
  apply find_updateWhere_status; assumption.
Qed.

Ltac cancelfree :=
  repeat first
    [ apply cancelFree_ret
    | apply cancelFree_throw
    | apply cancelFree_query
    | (apply cancelFree_exec; intros ?; reflexivity)
    | (apply cancelFree_caseCreate; intros ?; discriminate)
    | (apply cancelFree_caseUpdate; [intros ?; reflexivity|intros x; cbn; try destruct (Js.truthy (RespondBody.accepted _)); discriminate])
    | (apply cancelFree_promiseAll; members)
    | (apply cancelFree_bind; [|intros ?])
    | match goal with
      | |- cancelFree (if ?c then _ else _) => destruct c
      | |- cancelFree (match ?x with Some _ => _ | None => _ end) => destruct x
      | |- cancelFree (match ?x with [] => _ | _ :: _ => _ end) => destruct x
      end
    | progress cbv zeta
    | progress unfold userFindUnique, userFindMany, caseFindFirst,
        caseFindUnique, evidenceCreateMany,
        caseHistoryCreate, notificationCreate, witnessCreateMany ].

(** ** Relations kept by every call *)

Section Keeping.

Variable R : DB -> DB -> Prop.
Hypothesis R_refl : forall d, R d d.
Hypothesis R_trans : forall a b c, R a b -> R b c -> R a c.

Lemma keeps_ret {A : Type} (a : A) : keeps R (ret a).
Proof. intros w r w' H. injection H as _ <-. apply R_refl. Qed.

Lemma keeps_throw {A : Type} : keeps R (@throw A).
Proof. intros w r w' H. injection H as _ <-. apply R_refl. Qed.

Lemma keeps_call {A : Type} (f : DB -> option (A * DB)) :
  (forall d a d', f d = Some (a, d') -> R d d') -> keeps R (call f).
Proof.
  intros Hf w r w' H. unfold call in H.
  destruct (fault w) as [[|k]|].
  - injection H as _ <-. apply R_refl.
  - destruct (f (db w)) as [[a d']|] eqn:E; injection H as _ <-; cbn [db].
    + exact (Hf _ _ _ E).
    + apply R_refl.
  - destruct (f (db w)) as [[a d']|] eqn:E; injection H as _ <-; cbn [db].
    + exact (Hf _ _ _ E).
    + apply R_refl.
Qed.

Lemma keeps_query {A : Type} (f : DB -> A) : keeps R (query f).
Proof.
  apply keeps_call. intros d a d' H. injection H as _ <-. apply R_refl.
Qed.

Lemma keeps_exec (f : DB -> DB) : (forall d, R d (f d)) -> keeps R (exec f).
Proof.
  intros Hf. apply keeps_call. intros d a d' H. injection H as _ <-. apply Hf.
Qed.

Lemma keeps_bind {A B : Type} (m : Prisma A) (k : A -> Prisma B) :
  keeps R m -> (forall a, keeps R (k a)) -> keeps R (bind m k).
Proof.
  intros Hm Hk w r w' H. unfold bind in H.
  destruct (m w) as [[a|] w1] eqn:E.
  - apply R_trans with (db w1); [exact (Hm _ _ _ E)|exact (Hk _ _ _ _ H)].
  - injection H as _ <-. exact (Hm _ _ _ E).
Qed.

Lemma keeps_promiseAll {A : Type} (ps : list (Prisma A)) :
  (forall p, In p ps -> keeps R p) -> keeps R (promiseAll ps).
Proof.
  induction ps as [|p ps IH]; intros Hall w r w' H.
  - injection H as _ <-. apply R_refl.
  - cbn [promiseAll] in H.
    destruct (p w) as [[a|] w1] eqn:E.
    + destruct (promiseAll ps w1) as [[l|] w2] eqn:E2; injection H as _ <-;
        (apply R_trans with (db w1);
         [exact (Hall p (or_introl eq_refl) _ _ _ E)
         |exact (IH (fun q Hq => Hall q (or_intror Hq)) _ _ _ E2)]).
    + injection H as _ <-.
      apply R_trans with (db w1);
        [exact (Hall p (or_introl eq_refl) _ _ _ E)|].
      destruct (promiseAll ps w1) as [r2 w2] eqn:E2. cbn [snd].
      exact (IH (fun q Hq => Hall q (or_intror Hq)) _ _ _ E2).
Qed.

Lemma keeps_tryCatch (m : Prisma Response) (onError : Response) (w : World) :
  keeps R m -> R (db w) (db (snd (tryCatch m onError w))).
Proof.
  intros Hm. unfold tryCatch. destruct (m w) as [[r|] w'] eqn:E; cbn [snd];
    exact (Hm _ _ _ E).
Qed.

Lemma keeps_catching {B : Type} (m : Prisma (Reply B)) (onError : Reply B)
    (w : World) :
  keeps R m -> R (db w) (db (snd (catching m onError w))).
Proof.
  intros Hm. unfold catching. destruct (m w) as [[r|] w'] eqn:E; cbn [snd];
    exact (Hm _ _ _ E).
Qed.

End Keeping.

Lemma extends_refl {A : Type} (l : list A) : extends l l.
Proof. exists []. reflexivity. Qed.

Lemma extends_trans {A : Type} (a b c : list A) :
  extends a b -> extends b c -> extends a c.
Proof.
  intros [x ->] [y ->]. exists (y ++ x). now rewrite app_assoc.
Qed.

Lemma extends_cons {A : Type} (x : A) (l : list A) : extends l (x :: l).
Proof. exists [x]. reflexivity. Qed.

Lemma extends_app {A : Type} (x l : list A) : extends l (x ++ l).
Proof. exists x. reflexivity. Qed.

Lemma stable_refl (d : DB) : stable d d.
Proof.
  repeat split; try apply extends_refl. apply incl_refl.
Qed.

Lemma stable_trans (a b c : DB) : stable a b -> stable b c -> stable a c.
Proof.
  intros (U1 & H1 & N1 & E1 & P1 & W1 & C1) (U2 & H2 & N2 & E2 & P2 & W2 & C2).
  repeat split.
  - congruence.
  - exact (extends_trans _ _ _ H1 H2).
  - exact (extends_trans _ _ _ N1 N2).
  - exact (extends_trans _ _ _ E1 E2).
  - exact (extends_trans _ _ _ P1 P2).
  - exact (incl_tran W1 W2).
  - exact (extends_trans _ _ _ C1 C2).
Qed.

Lemma filed_updateWhere (id : string) (f : Case.t -> Case.t) (l : list Case.t) :
  (forall c, filed (f c) = filed c) ->
  map filed (updateWhere id f l) = map filed l.
Proof.
  intros Hf. unfold updateWhere. rewrite map_map. apply map_ext.
  intros c. destruct (Case.id c =? id); [apply Hf|reflexivity].
Qed.

Lemma stable_caseUpdate (id : string) (f : Case.t -> Case.t) :
  (forall c, filed (f c) = filed c) -> keeps stable (caseUpdate id f).
Proof.
  intros Hf. apply keeps_call; [apply stable_refl|]. intros d a d' H.
  destruct (find (fun c => Case.id c =? id) (cases d)); [|discriminate H].
  injection H as _ <-.
  repeat split; cbn; try apply extends_refl; try apply incl_refl.
  rewrite (filed_updateWhere id f _ Hf). apply extends_refl.
Qed.

Lemma stable_caseCreate L (row : string -> Case.t) : keeps stable (caseCreate L row).
Proof.
  apply keeps_call; [apply stable_refl|]. intros d a d' H. injection H as _ <-.
  repeat split; cbn; try apply extends_refl; try apply incl_refl.
  apply extends_cons.
Qed.

Lemma stable_mediationPanelCreate L (row : string -> MediationPanel.t) :
  keeps stable (mediationPanelCreate L row).
Proof.
  apply keeps_call; [apply stable_refl|]. intros d a d' H. injection H as _ <-.
  repeat split; cbn; try apply extends_refl; try apply incl_refl.
  apply extends_cons.
Qed.

Ltac grows :=
  intros ?; repeat split; cbn;
  first [ apply extends_refl | apply incl_refl | apply extends_cons
        | apply extends_app
        | (intros ? ?; apply insertSkipping_incl; assumption) ].

Ltac keeping :=
  repeat first
    [ apply (keeps_ret stable stable_refl)
    | apply (keeps_throw stable stable_refl)
    | apply (keeps_query stable stable_refl)
    | (apply stable_caseCreate)
    | (apply stable_mediationPanelCreate)
    | (apply stable_caseUpdate; intros ?; reflexivity)
    | (apply (keeps_exec stable stable_refl); grows)
    | (apply (keeps_promiseAll stable stable_refl stable_trans); members)
    | (apply (keeps_bind stable stable_trans); [|intros ?])
    | match goal with
      | |- keeps _ (if ?c then _ else _) => destruct c
      | |- keeps _ (match ?x with Some _ => _ | None => _ end) => destruct x
      | |- keeps _ (match ?x with [] => _ | _ :: _ => _ end) => destruct x
      | |- keeps _ (match ?x with (_, _) => _ end) => destruct x
      end
    | progress cbv zeta
    | progress unfold userFindUnique, userFindMany, caseFindFirst,
        caseFindUnique, evidenceCreateMany,
        caseHistoryCreate, notificationCreate, witnessCreateMany ].

Lemma perform_stable L now user op w :
  stable (db w) (db (snd (perform L now user op w))).
Proof.
  destruct op as [b files|id b|id b|id b|id b]; cbn [perform];
    unfold createCase, respondToCase, nominateWitnesses, createPanel, setStatus;
    apply (keeps_tryCatch stable); keeping.
Qed.

(** ** The first write of an operation *)

Lemma same_refl {X : Type} (T : DB -> X) (d : DB) : same T d d.
Proof. reflexivity. Qed.

Lemma same_trans {X : Type} (T : DB -> X) (a b c : DB) :
  same T a b -> same T b c -> same T a c.
Proof. unfold same. congruence. Qed.

Lemma same_run {X A : Type} (T : DB -> X) (m : Prisma A) (w : World) :
  keeps (same T) m -> T (db (snd (m w))) = T (db w).
Proof. intros Hm. destruct (m w) as [r w'] eqn:E. exact (Hm _ _ _ E). Qed.

(** Past the first write, a handler under a fault and the same handler
    under none leave the table [T] as that write left it. *)
Lemma same_rest {X A : Type} (T : DB -> X) (m : Prisma A) (d : DB)
    (k : option nat) :
  keeps (same T) m ->
  T (db (snd (m (mkWorld d k)))) = T (db (snd (m (mkWorld d None)))).
Proof. intros Hm. rewrite !(same_run T m _ Hm). reflexivity. Qed.

Lemma tryCatch_db (m : Prisma Response) (onError : Response) (w : World) :
  db (snd (tryCatch m onError w)) = db (snd (m w)).
Proof. unfold tryCatch. destruct (m w) as [[r|] w']; reflexivity. Qed.

Lemma bind_bind {A B C : Type} (m : Prisma A) (f : A -> Prisma B)
    (g : B -> Prisma C) (w : World) :
  bind (bind m f) g w = bind m (fun a => bind (f a) g) w.
Proof. unfold bind. destruct (m w) as [[a|] w1]; reflexivity. Qed.

Lemma bind_ret {A B : Type} (a : A) (g : A -> Prisma B) (w : World) :
  bind (ret a) g w = g a w.
Proof. reflexivity. Qed.

Lemma bind_call_later {A B : Type} (f : DB -> option (A * DB))
    (g : A -> Prisma B) (d : DB) (n : nat) :
  bind (call f) g (mkWorld d (Some (S n)))
  = match f d with
    | Some (a, d') => g a (mkWorld d' (Some n))
    | None => (Exn, mkWorld d (Some n))
    end.
Proof.
  unfold bind. rewrite call_fault_later. destruct (f d) as [[a d']|]; reflexivity.
Qed.

Lemma bind_call_none {A B : Type} (f : DB -> option (A * DB))
    (g : A -> Prisma B) (d : DB) :
  bind (call f) g (mkWorld d None)
  = match f d with
    | Some (a, d') => g a (mkWorld d' None)
    | None => (Exn, mkWorld d None)
    end.
Proof.
  unfold bind. rewrite call_run. destruct (f d) as [[a d']|]; reflexivity.
Qed.

Lemma same_caseUpdate {X : Type} (T : DB -> X) (id : string)
    (f : Case.t -> Case.t) :
  (forall d, T (withCases (updateWhere id f) d) = T d) ->
  keeps (same T) (caseUpdate id f).
Proof.
  intros HT. apply keeps_call; [apply same_refl|]. intros d a d' H.
  destruct (find (fun c => Case.id c =? id) (cases d)); [|discriminate H].
  injection H as _ <-. apply HT.
Qed.

Ltac kept T :=
  repeat first
    [ apply (keeps_ret (same T) (same_refl T))
    | apply (keeps_throw (same T) (same_refl T))
    | apply (keeps_query (same T) (same_refl T))
    | (apply (same_caseUpdate T); intros ?; unfold same; cbn [cases withCases];
       first [reflexivity | apply filed_updateWhere; intros ?; reflexivity])
    | (apply (keeps_exec (same T) (same_refl T)); intros ?; reflexivity)
    | (apply (keeps_promiseAll (same T) (same_refl T) (same_trans T)); members)
    | (apply (keeps_bind (same T) (same_trans T)); [|intros ?])
    | match goal with
      | |- keeps _ (if ?c then _ else _) => destruct c
      | |- keeps _ (match ?x with Some _ => _ | None => _ end) => destruct x
      | |- keeps _ (match ?x with [] => _ | _ :: _ => _ end) => destruct x
      | |- keeps _ (match ?x with (_, _) => _ end) => destruct x
      end
    | progress cbv zeta
    | progress unfold userFindUnique, userFindMany, caseFindFirst,
        caseFindUnique, evidenceCreateMany,
        caseHistoryCreate, notificationCreate, witnessCreateMany ].

(** One awaited call, under a fault still to come and under none. *)
Ltac await :=
  unfold userFindUnique, userFindMany, caseFindUnique, caseFindFirst,
    caseCreate, caseUpdate, mediationPanelCreate, witnessCreateMany, query,
    exec;
  rewrite ?bind_bind; rewrite bind_call_later, bind_call_none;
  cbv beta iota zeta; rewrite ?bind_ret.

Lemma cancelFree_mediationPanelCreate L (row : string -> MediationPanel.t) :
  cancelFree (mediationPanelCreate L row).
Proof.
  apply cancelFree_call. intros d a d' H. injection H as _ <-.
  apply noCancel_same_cases. reflexivity.
Qed.

Section Claims.

Variable L : Deps.

(** ** respondToCase *)



(** C5 (as the code has it). A valid respondToCase call by someone who is
    not the linked respondent of the case, or on a case that is not in
    AWAITING_RESPONSE, is answered 404 with one message for both, and the
    store is left as it was. *)
Theorem respondToCase_rejects_with_404 :
  forall (now : Z) (user : AuthUser.t) (id : string) (b : RespondBody.t)
         (d : DB),
    respondErrors b = [] ->
    (forall c, In c (cases d) -> Case.id c = id ->
       Case.respondentId c <> Some (AuthUser.id user)
       \/ Case.status c <> AWAITING_RESPONSE) ->
    respondToCase L now user id b (noFault d)
    = (json 404 (Error "Case not found or you cannot respond to this case"),
       noFault d).
Proof.
  intros now user id b d Hv Hno.
  unfold respondToCase, tryCatch, bind, caseFindFirst, query, call, noFault.
  rewrite Hv. simpl.
  rewrite (find_pointwise _ (fun x => (Case.id x =? id)
       && (optEqb (Case.respondentId x) (AuthUser.id user)
           && statusEqb (Case.status x) AWAITING_RESPONSE)))
    by (intros x; now rewrite andb_assoc).
  rewrite find_none_conj; [reflexivity|].
  intros x Hin Hid. apply String.eqb_eq in Hid.
  destruct (Hno x Hin Hid) as [Hr|Hs].
  - destruct (optEqb (Case.respondentId x) (AuthUser.id user)) eqn:E;
      [|reflexivity].
    apply optEqb_eq in E. contradiction.
  - destruct (statusEqb (Case.status x) AWAITING_RESPONSE) eqn:E;
      [|apply andb_false_r].
    apply statusEqb_eq in E. contradiction.
Qed.

(** ** The case read *)

(** C7 (as the code has it). The history returned with a case to one of
    its parties holds exactly the entries of that case, ordered from the
    newest to the oldest by creation time. *)
Theorem getCase_history_newest_first :
  forall (user : AuthUser.t) (id : string) (d : DB) (c : Case.t),
    find (fun x => Case.id x =? id) (cases d) = Some c ->
    isParty (AuthUser.id user) c = true ->
    let out := getCase user id (noFault d) in
    code (fst out) = 200%nat
    /\ newestFirst (historyOf (fst out))
    /\ Permutation (historyOf (fst out))
         (filter (fun h => CaseHistory.caseId h =? id) (caseHistory d)).
Proof.
  intros user id d c Hfind Hparty out. subst out.
  unfold getCase, tryCatch, bind, query, call, noFault. simpl.
  rewrite (find_conj _ _ _ _ Hfind Hparty). simpl.
  assert (Hid : Case.id c = id).
  { apply find_some in Hfind. apply String.eqb_eq. apply Hfind. }
  rewrite Hid. unfold historyOf. simpl.
  split; [reflexivity|]. split.
  - apply orderByCreatedAtDesc_sorted.
  - apply orderByCreatedAtDesc_perm.
Qed.

(** ** The admin override *)

Lemma statusErrors_nil (b : StatusBody.t) (st : CaseStatus) :
  StatusBody.status b = statusName st ->
  Validator.optional (Validator.isLength 10 500) (StatusBody.reason b) = true ->
  statusErrors b = [].
Proof.
  intros Hs Hr. unfold statusErrors. rewrite Hs, Hr.
  destruct st; reflexivity.
Qed.

(** What a valid setStatus call does when no Prisma call rejects. *)
Lemma setStatus_run :
  forall (now : Z) (user : AuthUser.t) (id : string) (b : StatusBody.t)
         (d : DB) (c : Case.t) (st : CaseStatus),
    find (fun x => Case.id x =? id) (cases d) = Some c ->
    StatusBody.status b = statusName st ->
    Validator.optional (Validator.isLength 10 500) (StatusBody.reason b) = true ->
    let out := setStatus L now user id b (noFault d) in
    code (fst out) = 200%nat
    /\ fault (snd out) = None
    /\ cases (db (snd out)) = updateWhere id (Case.setStatus st) (cases d)
    /\ (exists e,
          caseHistory (db (snd out)) = e :: caseHistory d
          /\ CaseHistory.action e = "STATUS_UPDATED_BY_ADMIN"
          /\ auditField "previousStatus" e
             = Some (JString (statusName (Case.status c)))
          /\ auditField "newStatus" e = Some (JString (statusName st)))
    /\ map Notification.userId (notifications (db (snd out)))
       = match Case.respondentId c with
         | Some rid => [rid]
         | None => []
         end ++ Case.complainantId c :: map Notification.userId (notifications d).
Proof.
  intros now user id b d c st Hfind Hs Hr out. subst out.
  unfold setStatus, tryCatch, bind, caseFindUnique, caseFindFirst, caseUpdate,
    query, call, noFault.
  rewrite (statusErrors_nil b st Hs Hr). simpl.
  rewrite Hfind. simpl. rewrite Hs, parseStatus_name. simpl.
  rewrite Hfind. simpl.
  destruct (Case.respondentId c) as [rid|]; simpl;
    (repeat split; try reflexivity; eexists; repeat split; reflexivity).
Qed.

(** C8 (as the code has it). For an existing case in any status and any
    target of the enum, a setStatus request whose optional reason is 10 to
    500 characters long answers 200, leaves the case in the target status
    and records one entry of kind "STATUS_UPDATED_BY_ADMIN" whose metadata
    carries the old and the new status. *)
Theorem setStatus_overrides_and_audits :
  forall (now : Z) (user : AuthUser.t) (id : string) (b : StatusBody.t)
         (d : DB) (c : Case.t) (target : CaseStatus),
    find (fun x => Case.id x =? id) (cases d) = Some c ->
    StatusBody.status b = statusName target ->
    Validator.optional (Validator.isLength 10 500) (StatusBody.reason b) = true ->
    let out := setStatus L now user id b (noFault d) in
    code (fst out) = 200%nat
    /\ statusOf id (db (snd out)) = Some target
    /\ exists e,
         caseHistory (db (snd out)) = e :: caseHistory d
         /\ CaseHistory.action e = "STATUS_UPDATED_BY_ADMIN"
         /\ auditField "previousStatus" e
            = Some (JString (statusName (Case.status c)))
         /\ auditField "newStatus" e = Some (JString (statusName target)).
Proof.
  intros now user id b d c target Hfind Hs Hr out.
  destruct (setStatus_run now user id b d c target Hfind Hs Hr)
    as (Hcode & _ & Hcases & Haudit & _).
  fold out in Hcode, Hcases, Haudit.
  split; [exact Hcode|]. split; [|exact Haudit].
  unfold statusOf. rewrite Hcases.
  rewrite (find_updateWhere id _ (cases d) c); [reflexivity|reflexivity|exact Hfind].
Qed.

(** ** createCase *)



(** ** nominateWitnesses *)

(** What a valid nomination on an ACCEPTED case does when every address is
    registered and no Prisma call rejects. *)
Lemma nominateWitnesses_run :
  forall (now : Z) (user : AuthUser.t) (id : string) (b : WitnessesBody.t)
         (d : DB) (c : Case.t),
    witnessesErrors L b = [] ->
    find (fun x => Case.id x =? id) (cases d) = Some c ->
    isParty (AuthUser.id user) c = true ->
    Case.status c = ACCEPTED ->
    let emails := map (normalizeEmail L) (WitnessesBody.witnessEmails b) in
    let found :=
      filter (fun u => existsb (String.eqb (User.email u)) emails) (users d) in
    List.length found = List.length emails ->
    let out := nominateWitnesses L now user id b (noFault d) in
    code (fst out) = 200%nat
    /\ fault (snd out) = None
    /\ cases (db (snd out))
       = updateWhere id (Case.setStatus WITNESSES_NOMINATED) (cases d)
    /\ witnesses (db (snd out))
       = insertSkipping (witnessConflict L) (witnessData id found) (witnesses d)
    /\ (exists e, caseHistory (db (snd out)) = e :: caseHistory d
          /\ CaseHistory.action e = "WITNESSES_ADDED"
          /\ CaseHistory.metadata e = None)
    /\ map Notification.userId (notifications (db (snd out)))
       = rev (map User.id found) ++ map Notification.userId (notifications d).
Proof.
  intros now user id b d c Hv Hfind Hparty Hst emails found Hlen out.
  subst out. unfold nominateWitnesses.
  rewrite Hv. cbv zeta. cbn [Validator.isEmpty negb].
  assert (Hq : find (fun x => (Case.id x =? id) && isParty (AuthUser.id user) x
                      && statusEqb (Case.status x) ACCEPTED) (cases d) = Some c).
  { rewrite (find_pointwise _ (fun x => (Case.id x =? id)
       && (isParty (AuthUser.id user) x && statusEqb (Case.status x) ACCEPTED)))
      by (intros x; now rewrite andb_assoc).
    apply find_conj; [exact Hfind|]. rewrite Hparty, Hst. reflexivity. }
  prisma. rewrite Hq. prisma.
  fold emails. fold found. rewrite Hlen, Nat.eqb_refl. cbn [negb].
  prisma. rewrite Hfind. prisma.
  repeat split; try reflexivity.
  - eexists. repeat split; reflexivity.
  - rewrite map_app, map_rev, map_map. reflexivity.
Qed.



(** ** One audit entry per successful operation *)

Lemma createCase_audit now user b files d :
  let out := createCase L now user b files (noFault d) in
  succeeded (fst out) = true ->
  exists e, caseHistory (db (snd out)) = e :: caseHistory d /\ noTransition e.
Proof.
  cbv zeta. unfold createCase.
  generalize (newCaseNumber L now) as num. intros num.
  repeat (prisma; try branch); audited.
Qed.

Lemma respondToCase_audit now user id b d :
  let out := respondToCase L now user id b (noFault d) in
  succeeded (fst out) = true ->
  exists e, caseHistory (db (snd out)) = e :: caseHistory d /\ noTransition e.
Proof.
  cbv zeta. unfold respondToCase.
  repeat (prisma; try branch); audited.
Qed.

Lemma nominateWitnesses_audit now user id b d :
  let out := nominateWitnesses L now user id b (noFault d) in
  succeeded (fst out) = true ->
  exists e, caseHistory (db (snd out)) = e :: caseHistory d /\ noTransition e.
Proof.
  cbv zeta. unfold nominateWitnesses.
  repeat (prisma; try branch); audited.
Qed.

Lemma createPanel_audit now user id b d :
  let out := createPanel L now user id b (noFault d) in
  succeeded (fst out) = true ->
  exists e, caseHistory (db (snd out)) = e :: caseHistory d /\ noTransition e.
Proof.
  cbv zeta. unfold createPanel.
  repeat (prisma; try branch); audited.
Qed.

Lemma setStatus_audit now user id b d :
  let out := setStatus L now user id b (noFault d) in
  succeeded (fst out) = true ->
  exists e,
    caseHistory (db (snd out)) = e :: caseHistory d
    /\ transitionRecorded id d (db (snd out)) e.
Proof.
  cbv zeta. unfold setStatus.
  repeat (prisma; try branch);
    try (intros Hs; cbn in Hs; discriminate Hs).
  all: intros _;
    repeat match goal with
           | H : Some _ = Some _ |- _ => injection H as H; subst
           end;
    eexists; (split; [reflexivity|]);
    match goal with
    | Hf : find _ (cases _) = Some ?c, Hp : parseStatus _ = Some ?st |- _ =>
        exists c, (Case.setStatus st c);
        split; [exact Hf|]; split;
        [apply find_updateWhere; [reflexivity|exact Hf]|];
        split; [reflexivity|];
        cbn; rewrite (parseStatus_some _ _ Hp); reflexivity
    end.
Qed.

(** C2 (as the code has it). Every successful createCase, respondToCase,
    nominateWitnesses, createPanel and setStatus creates exactly one audit
    entry.  The entry of setStatus carries, as previousStatus and newStatus,
    the statuses the case held before and after; the entries of the other
    four carry neither field. *)
Theorem successful_operation_audited_once :
  forall (now : Z) (user : AuthUser.t) (op : Operation) (d : DB),
    let out := perform L now user op (noFault d) in
    succeeded (fst out) = true ->
    exists e,
      caseHistory (db (snd out)) = e :: caseHistory d
      /\ match op with
         | SetStatus id _ => transitionRecorded id d (db (snd out)) e
         | _ => noTransition e
         end.
Proof.
  intros now user op d. destruct op as [b files|id b|id b|id b|id b]; cbn [perform].
  - apply createCase_audit.
  - apply respondToCase_audit.
  - apply nominateWitnesses_audit.
  - apply createPanel_audit.
  - apply setStatus_audit.
Qed.

(** ** Persistence failures *)

Lemma rejected_is_500 now user op d k :
  let out := perform L now user op (faultAt k d) in
  fault (snd out) = None -> code (fst out) = 500%nat.
Proof.
  cbv zeta. intros Hf.
  destruct op; cbn [perform] in *;
    unfold createCase, respondToCase, nominateWitnesses, createPanel, setStatus
      in *;
    (rewrite tryCatch_rejects; [reflexivity|rejecting|exact Hf]).
Qed.

Lemma early_fault_leaves_store now user op d k :
  (k <= readsBeforeWrite L op)%nat ->
  db (snd (perform L now user op (faultAt k d))) = d.
Proof.
  intros Hk.
  destruct op as [b files|id b|id b|id b|id b];
    cbn [perform readsBeforeWrite] in *.
  - unfold createCase. generalize (newCaseNumber L now) as num. intros num.
    destruct (Js.truthyOpt (option_map (normalizeEmail L)
                (CreateCaseBody.oppositePartyEmail b))) eqn:E;
      destruct k as [|[|k]]; try (exfalso; lia);
      repeat (faulty; try branch); reflexivity.
  - unfold respondToCase. destruct k as [|[|k]]; try (exfalso; lia);
      repeat (faulty; try branch); reflexivity.
  - unfold nominateWitnesses. destruct k as [|[|[|k]]]; try (exfalso; lia);
      repeat (faulty; try branch); reflexivity.
  - unfold createPanel. destruct k as [|[|[|k]]]; try (exfalso; lia);
      repeat (faulty; try branch); reflexivity.
  - unfold setStatus. destruct k as [|[|k]]; try (exfalso; lia);
      repeat (faulty; try branch); reflexivity.
Qed.

Lemma first_write_kept now user op d k :
  (readsBeforeWrite L op < k)%nat ->
  firstWritten op (db (snd (perform L now user op (faultAt k d))))
  = firstWritten op (db (snd (perform L now user op (noFault d)))).
Proof.
  intros Hk.
  destruct op as [b files|id b|id b|id b|id b];
    cbn [perform readsBeforeWrite firstWritten] in *; f_equal;
    unfold faultAt, noFault.
  - unfold createCase. rewrite !tryCatch_db. cbv zeta.
    generalize (newCaseNumber L now) as num. intros num.
    destruct (negb (Validator.isEmpty (createCaseErrors L b)));
      [reflexivity|].
    repeat (branch; [reflexivity|]).
    destruct (Js.truthyOpt (option_map (normalizeEmail L)
                (CreateCaseBody.oppositePartyEmail b))).
    + destruct k as [|[|k]]; try (exfalso; lia).
      await. await.
      apply (same_rest (fun d => map filed (cases d))).
      kept (fun d : DB => map filed (cases d)).
    + destruct k as [|k]; try (exfalso; lia).
      rewrite !bind_ret. await.
      apply (same_rest (fun d => map filed (cases d))).
      kept (fun d : DB => map filed (cases d)).
  - unfold respondToCase. rewrite !tryCatch_db. cbv zeta.
    destruct (negb (Validator.isEmpty (respondErrors b))); [reflexivity|].
    destruct k as [|[|k]]; try (exfalso; lia).
    await. destruct (find _ (cases d)) as [c|]; [|reflexivity].
    await. destruct (find _ (cases d)) as [c'|]; [|reflexivity].
    apply (same_rest cases). kept cases.
  - unfold nominateWitnesses. rewrite !tryCatch_db. cbv zeta.
    destruct (negb (Validator.isEmpty (witnessesErrors L b))); [reflexivity|].
    destruct k as [|[|[|k]]]; try (exfalso; lia).
    await. destruct (find _ (cases d)) as [c|]; [|reflexivity].
    await. branch; [reflexivity|].
    await.
    apply (same_rest witnesses). kept witnesses.
  - unfold createPanel. rewrite !tryCatch_db. cbv zeta.
    destruct (negb (Validator.isEmpty (panelErrors b))); [reflexivity|].
    destruct k as [|[|[|k]]]; try (exfalso; lia).
    await. destruct (find _ (cases d)) as [c|]; [|reflexivity].
    destruct (find _ (mediationPanels d)) as [p|]; [reflexivity|].
    branch; [reflexivity|].
    await. branch; [reflexivity|].
    await.
    apply (same_rest mediationPanels). kept mediationPanels.
  - unfold setStatus. rewrite !tryCatch_db. cbv zeta.
    destruct (negb (Validator.isEmpty (statusErrors b))); [reflexivity|].
    destruct k as [|[|k]]; try (exfalso; lia).
    await. destruct (find _ (cases d)) as [c|]; [|reflexivity].
    destruct (parseStatus (StatusBody.status b)) as [st|]; [|reflexivity].
    await. destruct (find _ (cases d)) as [c'|]; [|reflexivity].
    apply (same_rest cases). kept cases.
Qed.

(** C1 (as the code has it). When a Prisma call of a workflow operation
    rejects, the operation is answered 500.  The store is left as it was
    when the rejected call is the first write of the operation or a read
    before it.  No handler opens a transaction: when a later call rejects,
    the first write is not rolled back, its table holds what the run
    without the failure leaves there: the new case as it was filed, the
    updated case of respondToCase and of setStatus, the witness rows, the
    panel. *)
Theorem failed_operation_effects :
  forall (now : Z) (user : AuthUser.t) (op : Operation) (d : DB) (k : nat),
    let out := perform L now user op (faultAt k d) in
    (fault (snd out) = None -> code (fst out) = 500%nat)
    /\ ((k <= readsBeforeWrite L op)%nat -> db (snd out) = d)
    /\ ((readsBeforeWrite L op < k)%nat ->
        firstWritten op (db (snd out))
        = firstWritten op (db (snd (perform L now user op (noFault d))))).
Proof.
  intros now user op d k out. split; [|split].
  - apply rejected_is_500.
  - apply early_fault_leaves_store.
  - apply first_write_kept.
Qed.

(** ** The router *)

Lemma party_operations_noCancel now user op w :
  adminOnly op = false ->
  noCancel (db w) (db (snd (perform L now user op w))).
Proof.
  intros Hop. destruct op as [b files|id b|id b|id b|id b];
    try discriminate Hop; cbn [perform];
    unfold createCase, respondToCase, nominateWitnesses;
    apply cancelFree_tryCatch; cancelfree.
Qed.

Lemma authenticate_db h w x w1 :
  authenticate L h w = (x, w1) -> db w1 = db w.
Proof.
  unfold authenticate, userFindUnique, query, call. intros H.
  destruct h as [h|]; [|injection H as _ <-; reflexivity].
  destruct (negb (Js.truthyStr h) || negb (Js.startsWith "Bearer " h));
    [injection H as _ <-; reflexivity|].
  destruct (jwtVerify L (Js.substringFrom 7 h)) as [uid|];
    [|injection H as _ <-; reflexivity].
  destruct (fault w) as [[|k]|];
    try destruct (find _ (users (db w))); injection H as _ <-; reflexivity.
Qed.

Lemma authenticate_noFault h d x w1 :
  authenticate L h (noFault d) = (x, w1) -> w1 = noFault d.
Proof.
  unfold authenticate, userFindUnique, query, call, noFault. cbn [fault db].
  intros H.
  destruct h as [h|]; [|injection H as _ <-; reflexivity].
  destruct (negb (Js.truthyStr h) || negb (Js.startsWith "Bearer " h));
    [injection H as _ <-; reflexivity|].
  destruct (jwtVerify L (Js.substringFrom 7 h)) as [uid|];
    [|injection H as _ <-; reflexivity].
  destruct (find _ (users d)); injection H as _ <-; reflexivity.
Qed.

Lemma requireAdmin_role (user : AuthUser.t) :
  requireAdmin (Some user) = None <-> AuthUser.role user = "ADMIN".
Proof.
  unfold requireAdmin.
  destruct (AuthUser.role user =? "ADMIN") eqn:E; cbn [negb].
  - apply String.eqb_eq in E. split; auto.
  - apply String.eqb_neq in E. split; [discriminate|contradiction].
Qed.

Lemma requireAdmin_forbids (user : AuthUser.t) :
  AuthUser.role user <> "ADMIN" ->
  requireAdmin (Some user) = Some (json 403 (Error "Admin access required")).
Proof.
  intros H. unfold requireAdmin. apply String.eqb_neq in H. rewrite H.
  reflexivity.
Qed.

Lemma api_admin_route r w user w1 op :
  authenticate L (authorization r) w = (inr user, w1) ->
  route r = Workflow op ->
  adminOnly op = true ->
  api L r w
  = if AuthUser.role user =? "ADMIN"
    then perform L (now r) user op w1
    else (json 403 (Error "Admin access required"), w1).
Proof.
  intros Ha Hr Hop. unfold api. rewrite Ha, Hr, Hop. unfold requireAdmin.
  destruct (AuthUser.role user =? "ADMIN"); reflexivity.
Qed.

Lemma getCase_db user id w : db (snd (getCase user id w)) = db w.
Proof.
  unfold getCase, tryCatch, bind, query, call, ret.
  destruct (fault w) as [[|k]|]; cbn [db fst snd];
    try destruct (find _ (cases (db w))); reflexivity.
Qed.

Lemma api_nonadmin_noCancel r w :
  (forall user w1, authenticate L (authorization r) w = (inr user, w1) ->
     AuthUser.role user <> "ADMIN") ->
  noCancel (db w) (db (snd (api L r w))).
Proof.
  intros Hrole. unfold api.
  destruct (authenticate L (authorization r) w) as [[res|user] w1] eqn:Ha.
  - cbn [snd]. apply noCancel_same_cases. f_equal. exact (authenticate_db _ _ _ _ Ha).
  - pose proof (authenticate_db _ _ _ _ Ha) as Hdb.
    specialize (Hrole user w1 eq_refl).
    destruct (route r) as [op|id].
    + destruct (adminOnly op) eqn:Hop.
      * rewrite (requireAdmin_forbids user Hrole). cbn [snd].
        apply noCancel_same_cases. f_equal. exact Hdb.
      * rewrite <- Hdb. apply party_operations_noCancel. exact Hop.
    + apply noCancel_same_cases. f_equal. rewrite getCase_db. exact Hdb.
Qed.

Lemma other_operations_noCancel now user op w :
  (forall id b, op = SetStatus id b -> StatusBody.status b <> "CANCELLED") ->
  noCancel (db w) (db (snd (perform L now user op w))).
Proof.
  intros Hop. destruct op as [b files|id b|id b|id b|id b];
    try (apply party_operations_noCancel; reflexivity); cbn [perform].
  - unfold createPanel. apply cancelFree_tryCatch.
    repeat first
      [ apply cancelFree_mediationPanelCreate
      | progress cancelfree
      | match goal with
        | |- cancelFree (match ?x with (_, _) => _ end) => destruct x
        end ].
  - unfold setStatus. apply cancelFree_tryCatch.
    destruct (parseStatus (StatusBody.status b)) as [st|] eqn:Hst.
    + assert (Hne : st <> CANCELLED).
      { intros ->. apply parseStatus_some in Hst.
        exact (Hop id b eq_refl (eq_sym Hst)). }
      repeat first
        [ (apply cancelFree_caseUpdate;
           [intros ?; reflexivity|intros x; exact Hne])
        | progress cancelfree ].
    + cancelfree.
Qed.

Lemma api_noCancel r w :
  cancelling r = false -> noCancel (db w) (db (snd (api L r w))).
Proof.
  intros Hr. unfold api.
  destruct (authenticate L (authorization r) w) as [[res|user] w1] eqn:Ha;
    pose proof (authenticate_db _ _ _ _ Ha) as Hdb.
  - cbn [snd]. apply noCancel_same_cases. f_equal. exact Hdb.
  - unfold cancelling in Hr.
    destruct (route r) as [op|id].
    + assert (Hp : noCancel (db w)
                     (db (snd (perform L (now r) user op w1)))).
      { rewrite <- Hdb. apply other_operations_noCancel.
        intros id b ->. apply String.eqb_neq. exact Hr. }
      destruct (adminOnly op); [destruct (requireAdmin (Some user))|];
        try exact Hp.
      cbn [snd]. apply noCancel_same_cases. f_equal. exact Hdb.
    + apply noCancel_same_cases. f_equal. rewrite getCase_db. exact Hdb.
Qed.

(** C9 (as the code has it). The server has no cancelCase operation; a
    case becomes CANCELLED only through the admin override.  No request
    other than a setStatus with target "CANCELLED" moves any case to
    CANCELLED, whoever sends it and whichever call rejects; nor does any
    request of a caller who is not an admin.  The setStatus request of such
    a caller is answered 403 in every status of the case, with the store
    untouched; the setStatus request of an admin with target CANCELLED is
    answered 200 and leaves the case CANCELLED, whatever its status was. *)
Theorem cancellation_only_by_admin_override :
  (forall (r : Request) (w : World),
     cancelling r = false -> noCancel (db w) (db (snd (api L r w))))
  /\ (forall (r : Request) (w : World),
     (forall user w1,
        authenticate L (authorization r) w = (inr user, w1) ->
        AuthUser.role user <> "ADMIN") ->
     noCancel (db w) (db (snd (api L r w))))
  /\ (forall (r : Request) (w : World) (user : AuthUser.t) (w1 : World)
             (id : string) (b : StatusBody.t),
        authenticate L (authorization r) w = (inr user, w1) ->
        AuthUser.role user <> "ADMIN" ->
        route r = Workflow (SetStatus id b) ->
        api L r w = (json 403 (Error "Admin access required"), w1)
        /\ db w1 = db w)
  /\ (forall (r : Request) (d : DB) (user : AuthUser.t) (w1 : World)
             (id : string) (b : StatusBody.t) (c : Case.t),
        authenticate L (authorization r) (noFault d) = (inr user, w1) ->
        AuthUser.role user = "ADMIN" ->
        route r = Workflow (SetStatus id b) ->
        StatusBody.status b = "CANCELLED" ->
        Validator.optional (Validator.isLength 10 500) (StatusBody.reason b)
        = true ->
        find (fun x => Case.id x =? id) (cases d) = Some c ->
        let out := api L r (noFault d) in
        code (fst out) = 200%nat
        /\ statusOf id (db (snd out)) = Some CANCELLED).
Proof.
  split; [exact api_noCancel|].
  split; [exact api_nonadmin_noCancel|]. split.
  - intros r w user w1 id b Ha Hrole Hr. split.
    + rewrite (api_admin_route r w user w1 _ Ha Hr eq_refl).
      apply String.eqb_neq in Hrole. rewrite Hrole. reflexivity.
    + exact (authenticate_db _ _ _ _ Ha).
  - intros r d user w1 id b c Ha Hrole Hr Hs Hreason Hfind out. subst out.
    rewrite (api_admin_route r _ user w1 _ Ha Hr eq_refl).
    apply String.eqb_eq in Hrole. rewrite Hrole.
    rewrite (authenticate_noFault _ _ _ _ Ha). cbn [perform].
    destruct (setStatus_run (now r) user id b d c CANCELLED Hfind Hs Hreason)
      as (Hcode & _ & Hcases & _).
    split; [exact Hcode|].
    unfold statusOf. rewrite Hcases.
    rewrite (find_updateWhere id _ (cases d) c);
      [reflexivity|reflexivity|exact Hfind].
Qed.

(** ** Registration and the admin gate *)

Lemma register_run (b : RegisterBody.t) (d : DB) :
  registerErrors L b = [] ->
  find (emailOrPhone (normalizeEmail L (RegisterBody.email b))
          (RegisterBody.phone b)) (users d) = None ->
  let u :=
    User.mk (cuid L (idSeq d)) (normalizeEmail L (RegisterBody.email b))
      (bcryptHash L (RegisterBody.password b))
      (escape L (trim L (RegisterBody.name b))) (RegisterBody.phone b)
      (if normalizeEmail L (RegisterBody.email b) =? "admin@resolveit.com"
       then "ADMIN" else "USER") in
  register L b (noFault d)
  = (json 201
       (Registered "User registered successfully" u (jwtSign L (User.id u))),
     noFault (nextSeq (withUsers (cons u) d))).
Proof.
  intros Hv Hnone. unfold register. rewrite Hv. cbv zeta.
  cbn [Validator.isEmpty negb]. prisma. rewrite Hnone. prisma. reflexivity.
Qed.

(** C10 (as the code has it). A registration that passes validation and
    meets no user with its address or phone creates a user whose role is
    ADMIN if and only if the submitted address, as [normalizeEmail] rewrites
    it, is "admin@resolveit.com", and USER otherwise.  On the admin routes
    the role of the authenticated caller alone decides: ADMIN reaches the
    handler, any other role is answered 403. *)
Theorem register_role_and_admin_gate :
  (forall (b : RegisterBody.t) (d : DB),
     registerErrors L b = [] ->
     find (emailOrPhone (normalizeEmail L (RegisterBody.email b))
             (RegisterBody.phone b)) (users d) = None ->
     let out := register L b (noFault d) in
     exists u,
       code (fst out) = 201%nat
       /\ registeredUser (fst out) = Some u
       /\ users (db (snd out)) = u :: users d
       /\ User.email u = normalizeEmail L (RegisterBody.email b)
       /\ (User.role u = "ADMIN"
           <-> normalizeEmail L (RegisterBody.email b) = "admin@resolveit.com")
       /\ (User.role u = "USER"
           <-> normalizeEmail L (RegisterBody.email b) <> "admin@resolveit.com"))
  /\ (forall user : AuthUser.t,
        requireAdmin (Some user) = None <-> AuthUser.role user = "ADMIN")
  /\ (forall (r : Request) (w : World) (user : AuthUser.t) (w1 : World)
             (op : Operation),
        authenticate L (authorization r) w = (inr user, w1) ->
        route r = Workflow op ->
        adminOnly op = true ->
        api L r w
        = if AuthUser.role user =? "ADMIN"
          then perform L (now r) user op w1
          else (json 403 (Error "Admin access required"), w1)).
Proof.
  split; [|split; [exact requireAdmin_role|exact api_admin_route]].
  intros b d Hv Hnone out. subst out.
  rewrite (register_run b d Hv Hnone). cbn [fst snd code db].
  eexists. split; [reflexivity|]. split; [reflexivity|].
  split; [reflexivity|]. split; [reflexivity|].
  cbn [User.role].
  destruct (normalizeEmail L (RegisterBody.email b) =? "admin@resolveit.com")
    eqn:E.
  - apply String.eqb_eq in E. split; split; auto; try discriminate.
    intros H. contradiction.
  - apply String.eqb_neq in E. split; split; auto; try discriminate.
    intros H. contradiction.
Qed.

End Claims.

(** * The claims on the fixture *)

(** ** Where the code departs from the specification *)

(** C1. The admin override of Scenario F, with the caseHistory write
    rejected: the answer is 500, yet the case is already RESOLVED and no
    audit entry exists for it. *)
Lemma setStatus_failure_leaves_status_write :
  ~ atomicAsSpecified (db1 PENDING)
      (perform L0 3000 (authOf root)
         (SetStatus "c1" (StatusBody.mk "RESOLVED" None))
         (faultAt 2 (db1 PENDING))).
Proof.
  unfold atomicAsSpecified. intros H.
  destruct (H eq_refl) as [_ Hdb].
  apply (f_equal (statusOf "c1")) in Hdb. vm_compute in Hdb. discriminate Hdb.
Qed.

(** C2. Bob accepts the case: the operation succeeds and its one audit
    entry carries no previousStatus. *)
Lemma respondToCase_entry_has_no_statuses :
  let out :=
    perform L0 3000 (authOf bob) (RespondToCase "c1" (RespondBody.mk (Js.boolean true) None))
      (noFault (db1 AWAITING_RESPONSE)) in
  succeeded (fst out) = true
  /\ ~ auditedAsSpecified "c1" (db1 AWAITING_RESPONSE) out.
Proof.
  split; [reflexivity|].
  intros (e & He & c & c' & _ & _ & Hprev & _).
  vm_compute in He. injection He as <-.
  vm_compute in Hprev. discriminate Hprev.
Qed.



(** C5. Carol, who is not the respondent, is answered 404 and not 403; Bob,
    on a case already ACCEPTED, is answered 404 and not 409. *)
Lemma respondToCase_answers_404 :
  ~ respondRejectedAsSpecified (authOf carol) (case1 AWAITING_RESPONSE)
      (db1 AWAITING_RESPONSE)
      (respondToCase L0 3000 (authOf carol) "c1" (RespondBody.mk (Js.boolean true) None)
         (noFault (db1 AWAITING_RESPONSE)))
  /\ ~ respondRejectedAsSpecified (authOf bob) (case1 ACCEPTED) (db1 ACCEPTED)
         (respondToCase L0 3000 (authOf bob) "c1" (RespondBody.mk (Js.boolean false) None)
            (noFault (db1 ACCEPTED))).
Proof.
  split.
  - intros (H & _ & _).
    assert (Hne : Case.respondentId (case1 AWAITING_RESPONSE)
                  <> Some (AuthUser.id (authOf carol))) by discriminate.
    specialize (H Hne). vm_compute in H. discriminate H.
  - intros (_ & H & _).
    assert (Hne : Case.status (case1 ACCEPTED) <> AWAITING_RESPONSE)
      by discriminate.
    specialize (H Hne). vm_compute in H. discriminate H.
Qed.


(** C7. The history of the case comes back with the entry of time 2000
    before the entry of time 1000. *)
Lemma getCase_history_not_oldest_first :
  ~ oldestFirst (historyOf (fst (getCase (authOf alice) "c1" (noFault db2)))).
Proof.
  unfold oldestFirst. intros H. vm_compute in H.
  inversion H as [|? ? _ Hall]; subst.
  inversion Hall as [|? ? Hle _]; subst.
  vm_compute in Hle. apply Hle. reflexivity.
Qed.

(** C8. Scenario F: the entry of the override is of kind
    "STATUS_UPDATED_BY_ADMIN", not "ADMIN_OVERRIDE". *)
Lemma setStatus_action_is_not_ADMIN_OVERRIDE :
  ~ overrideAsSpecified "c1" (case1 PENDING) RESOLVED (db1 PENDING)
      (setStatus L0 3000 (authOf root) "c1" (StatusBody.mk "RESOLVED" None)
         (noFault (db1 PENDING))).
Proof.
  intros (_ & _ & e & He & Hact & _).
  vm_compute in He. injection He as <-.
  vm_compute in Hact. discriminate Hact.
Qed.

(** C9. No route lets the complainant cancel her PENDING case. *)
Lemma no_route_cancels_for_complainant : ~ cancelExposedAsSpecified L0.
Proof.
  intros [cancelCase H].
  specialize (H (db1 PENDING) (case1 PENDING) (Some "Bearer jwt:u1")
                (authOf alice) (noFault (db1 PENDING)) 3000%Z
                eq_refl eq_refl eq_refl (or_introl eq_refl)).
  apply api_nonadmin_noCancel in H.
  - vm_compute in H. discriminate H.
  - intros user w1 Ha. vm_compute in Ha. injection Ha as <- _. discriminate.
Qed.

(** C10. An address that differs from "admin@resolveit.com" in case only
    registers an ADMIN. *)
Lemma register_admin_by_normalised_address :
  let b := RegisterBody.mk "Admin@ResolveIt.com" "hunter22" "Mallory" None in
  exists u,
    registeredUser (fst (register L0 b (noFault emptyDB))) = Some u
    /\ ~ roleAsSpecified b u.
Proof.
  eexists. split; [reflexivity|].
  intros [H _]. specialize (H eq_refl). discriminate H.
Qed.

(** ** The theorems at work *)

Lemma failed_operation_effects_witness :
  let respond := RespondToCase "c1" (RespondBody.mk (Js.boolean true) None) in
  let override := SetStatus "c1" (StatusBody.mk "RESOLVED" None) in
  let early :=
    perform L0 3000 (authOf bob) respond (faultAt 1 (db1 AWAITING_RESPONSE)) in
  let late := perform L0 3000 (authOf root) override (faultAt 2 (db1 PENDING)) in
  fault (snd early) = None
  /\ (1 <= readsBeforeWrite L0 respond)%nat
  /\ code (fst early) = 500%nat
  /\ db (snd early) = db1 AWAITING_RESPONSE
  /\ fault (snd late) = None
  /\ (readsBeforeWrite L0 override < 2)%nat
  /\ code (fst late) = 500%nat
  /\ firstWritten override (db (snd late)) = CaseRows [case1 RESOLVED].
Proof.
  pose proof (failed_operation_effects L0 3000 (authOf bob)
                (RespondToCase "c1" (RespondBody.mk (Js.boolean true) None))
                (db1 AWAITING_RESPONSE) 1) as (H500 & Hdb & _).
  pose proof (failed_operation_effects L0 3000 (authOf root)
                (SetStatus "c1" (StatusBody.mk "RESOLVED" None))
                (db1 PENDING) 2) as (H500' & _ & Hkept).
  split; [reflexivity|]. split; [apply le_n|].
  split; [apply H500; reflexivity|]. split; [apply Hdb; apply le_n|].
  split; [reflexivity|]. split; [apply le_n|].
  split; [apply H500'; reflexivity|].
  rewrite Hkept; [reflexivity|apply le_n].
Defined.

Lemma successful_operation_audited_once_witness :
  let d := db1 PENDING in
  let op := SetStatus "c1" (StatusBody.mk "RESOLVED" None) in
  let out := perform L0 3000 (authOf root) op (noFault d) in
  succeeded (fst out) = true
  /\ exists e,
       caseHistory (db (snd out)) = e :: caseHistory d
       /\ transitionRecorded "c1" d (db (snd out)) e.
Proof.
  split; [reflexivity|].
  exact (successful_operation_audited_once L0 3000 (authOf root)
           (SetStatus "c1" (StatusBody.mk "RESOLVED" None)) (db1 PENDING)
           eq_refl).
Defined.



Lemma respondToCase_rejects_with_404_witness :
  let d := db1 AWAITING_RESPONSE in
  let b := RespondBody.mk (Js.boolean true) None in
  respondErrors b = []
  /\ respondToCase L0 3000 (authOf carol) "c1" b (noFault d)
     = (json 404 (Error "Case not found or you cannot respond to this case"),
        noFault d).
Proof.
  split; [reflexivity|].
  apply (respondToCase_rejects_with_404 L0 3000 (authOf carol) "c1"
           (RespondBody.mk (Js.boolean true) None) (db1 AWAITING_RESPONSE) eq_refl).
  intros c [<-|[]] _. left. discriminate.
Defined.


Lemma getCase_history_newest_first_witness :
  let out := getCase (authOf alice) "c1" (noFault db2) in
  isParty (AuthUser.id (authOf alice)) (case1 ACCEPTED) = true
  /\ code (fst out) = 200%nat
  /\ newestFirst (historyOf (fst out))
  /\ Permutation (historyOf (fst out))
       (filter (fun h => CaseHistory.caseId h =? "c1") (caseHistory db2)).
Proof.
  split; [reflexivity|].
  exact (getCase_history_newest_first (authOf alice) "c1" db2 (case1 ACCEPTED)
           eq_refl eq_refl).
Defined.

Lemma setStatus_overrides_and_audits_witness :
  let d := db1 PENDING in
  let b := StatusBody.mk "RESOLVED" None in
  let out := setStatus L0 3000 (authOf root) "c1" b (noFault d) in
  StatusBody.status b = statusName RESOLVED
  /\ code (fst out) = 200%nat
  /\ statusOf "c1" (db (snd out)) = Some RESOLVED
  /\ exists e,
       caseHistory (db (snd out)) = e :: caseHistory d
       /\ CaseHistory.action e = "STATUS_UPDATED_BY_ADMIN"
       /\ auditField "previousStatus" e = Some (JString "PENDING")
       /\ auditField "newStatus" e = Some (JString "RESOLVED").
Proof.
  split; [reflexivity|].
  exact (setStatus_overrides_and_audits L0 3000 (authOf root) "c1"
           (StatusBody.mk "RESOLVED" None) (db1 PENDING) (case1 PENDING)
           RESOLVED eq_refl eq_refl eq_refl).
Defined.

Lemma cancellation_only_by_admin_override_witness :
  noCancel (db1 ACCEPTED)
    (db (snd (api L0
                (requestBy root
                   (Workflow
                      (CreatePanel "c1" (PanelBody.mk (Some "u3") None None)))
                   3000)
                (noFault (db1 ACCEPTED)))))
  /\ noCancel (db1 AWAITING_RESPONSE)
    (db (snd (api L0
                (mkRequest (Some "Bearer jwt:u2")
                   (Workflow
                      (RespondToCase "c1"
                         (RespondBody.mk (Js.boolean false) None)))
                   3000)
                (noFault (db1 AWAITING_RESPONSE)))))
  /\ api L0 (cancelRequest "Bearer jwt:u1") (noFault (db1 PENDING))
     = (json 403 (Error "Admin access required"), noFault (db1 PENDING))
  /\ statusOf "c1"
       (db (snd (api L0 (cancelRequest "Bearer jwt:u0") (noFault (db1 ACCEPTED)))))
     = Some CANCELLED.
Proof.
  destruct (cancellation_only_by_admin_override L0)
    as (Hother & Hnone & Hforbid & Hadmin).
  split; [|split; [|split]].
  - apply Hother. reflexivity.
  - apply Hnone. intros user w1 Ha. vm_compute in Ha.
    injection Ha as <- _. discriminate.
  - refine (proj1 (Hforbid (cancelRequest "Bearer jwt:u1")
                     (noFault (db1 PENDING)) (authOf alice)
                     (noFault (db1 PENDING)) "c1"
                     (StatusBody.mk "CANCELLED" None) eq_refl _ eq_refl)).
    discriminate.
  - exact (proj2 (Hadmin (cancelRequest "Bearer jwt:u0") (db1 ACCEPTED)
                    (authOf root) (noFault (db1 ACCEPTED)) "c1"
                    (StatusBody.mk "CANCELLED" None) (case1 ACCEPTED)
                    eq_refl eq_refl eq_refl eq_refl eq_refl eq_refl)).
Defined.

Lemma register_role_and_admin_gate_witness :
  let b := RegisterBody.mk "dave@example.com" "hunter22" "Dave" None in
  let out := register L0 b (noFault (db1 PENDING)) in
  registerErrors L0 b = []
  /\ (exists u,
        registeredUser (fst out) = Some u /\ User.role u = "USER")
  /\ api L0 (cancelRequest "Bearer jwt:u1") (noFault (db1 PENDING))
     = (json 403 (Error "Admin access required"), noFault (db1 PENDING)).
Proof.
  destruct (register_role_and_admin_gate L0) as (Hreg & _ & Hgate).
  split; [reflexivity|]. split.
  - destruct (Hreg (RegisterBody.mk "dave@example.com" "hunter22" "Dave" None)
                (db1 PENDING) eq_refl eq_refl)
      as (u & _ & Hu & _ & _ & _ & Hrole).
    exists u. split; [exact Hu|]. apply Hrole. discriminate.
  - exact (Hgate (cancelRequest "Bearer jwt:u1") (noFault (db1 PENDING))
             (authOf alice) (noFault (db1 PENDING)) _ eq_refl eq_refl eq_refl).
Defined.

(** * Further properties of the handlers *)

(** ** Lists, strings and tables *)

Lemma startsWith_append (p s : string) : Js.startsWith p (p ++ s) = true.
Proof.
  unfold Js.startsWith. induction p as [|c p IH]; simpl.
  - destruct s; reflexivity.
  - destruct (ascii_dec c c) as [_|n]; [exact IH|now elim n].
Qed.

Lemma substring_all (s : string) : substring 0 (String.length s) s = s.
Proof.
  induction s as [|c s IH]; simpl; [reflexivity|]. now rewrite IH.
Qed.

Lemma substringFrom_append (p s : string) :
  Js.substringFrom (String.length p) (p ++ s) = s.
Proof.
  unfold Js.substringFrom. induction p as [|c p IH]; simpl.
  - rewrite Nat.sub_0_r. apply substring_all.
  - exact IH.
Qed.

Lemma same_key_same_row {A B : Type} (f : A -> B) (l : list A) (x y : A) :
  NoDup (map f l) -> In x l -> In y l -> f x = f y -> x = y.
Proof.
  induction l as [|a l IH]; [contradiction|].
  cbn [map]. intros Hnd Hx Hy Hxy. inversion Hnd as [|? ? Hnot Hnd']; subst.
  destruct Hx as [->|Hx], Hy as [->|Hy]; try reflexivity.
  - exfalso. apply Hnot. rewrite Hxy. now apply in_map.
  - exfalso. apply Hnot. rewrite <- Hxy. now apply in_map.
  - auto.
Qed.

Lemma status_buckets (l : list Case.t) :
  List.length l
  = (List.length (filter (statusIn [PENDING]) l)
     + List.length
         (filter (statusIn [AWAITING_RESPONSE; ACCEPTED; WITNESSES_NOMINATED;
                            PANEL_CREATED; MEDIATION_IN_PROGRESS]) l)
     + List.length (filter (statusIn [RESOLVED]) l)
     + List.length (filter (statusIn [UNRESOLVED]) l)
     + List.length (filter (fun c => statusEqb (Case.status c) CANCELLED) l))%nat.
Proof.
  induction l as [|c l IH]; [reflexivity|].
  cbn [filter List.length]. unfold statusIn in *.
  destruct (Case.status c);
    repeat match goal with
           | |- context [existsb ?f ?l] =>
               let v := eval vm_compute in (existsb f l) in
               change (existsb f l) with v
           | |- context [statusEqb ?a ?b] =>
               let v := eval vm_compute in (statusEqb a b) in
               change (statusEqb a b) with v
           end;
    cbn [List.length]; lia.
Qed.

Lemma filter_all {A : Type} (l : list A) : filter (fun _ => true) l = l.
Proof. induction l as [|a l IH]; simpl; congruence. Qed.

Lemma in_updateWhere (id : string) (f : Case.t -> Case.t) (l : list Case.t)
    (c : Case.t) :
  In c (updateWhere id f l) ->
  (exists c0, In c0 l /\ Case.id c0 = id /\ c = f c0)
  \/ (In c l /\ Case.id c <> id).
Proof.
  unfold updateWhere. intros H. apply in_map_iff in H.
  destruct H as (c0 & Hc & Hin).
  destruct (Case.id c0 =? id) eqn:E.
  - left. exists c0. apply String.eqb_eq in E. auto.
  - right. subst c. apply String.eqb_neq in E. auto.
Qed.

Lemma world_noFault (w : World) : fault w = None -> w = noFault (db w).
Proof. destruct w as [d f]. cbn. intros ->. reflexivity. Qed.

Lemma nodup_length_le (l : list string) :
  (List.length (nodup string_dec l) <= List.length l)%nat.
Proof.
  induction l as [|a l IH]; simpl; [lia|].
  destruct (in_dec string_dec a l); simpl; lia.
Qed.

Lemma nodup_length_lt (l : list string) :
  ~ NoDup l -> (List.length (nodup string_dec l) < List.length l)%nat.
Proof.
  induction l as [|a l IH]; intros H.
  - destruct H. constructor.
  - simpl. destruct (in_dec string_dec a l) as [Hin|Hnin].
    + pose proof (nodup_length_le l). lia.
    + simpl. apply -> Nat.succ_lt_mono. apply IH. intros Hnd. apply H.
      constructor; assumption.
Qed.

(** The users a [findMany] returns have distinct addresses if all users
    have. *)
Lemma found_users_distinct (where_ : User.t -> bool) (us : list User.t) :
  NoDup (map User.email us) -> NoDup (map User.email (filter where_ us)).
Proof.
  induction us as [|u us IH]; simpl; intros H; [constructor|].
  inversion H as [|? ? Hnin Hnd]; subst.
  destruct (where_ u); simpl; [|auto].
  constructor; [|auto]. intros Hin. apply Hnin.
  apply in_map_iff in Hin. destruct Hin as (x & Hx & Hin).
  apply filter_In in Hin. apply in_map_iff. exists x. tauto.
Qed.

Lemma registered_among (emails : list string) (us : list User.t) :
  NoDup (map User.email us) ->
  ~ NoDup emails ->
  (List.length (filter (fun u => existsb (String.eqb (User.email u)) emails) us)
   < List.length emails)%nat.
Proof.
  intros Hnd Hdup.
  apply Nat.le_lt_trans with (List.length (nodup string_dec emails));
    [|apply nodup_length_lt; exact Hdup].
  rewrite <- (length_map User.email).
  apply NoDup_incl_length.
  - apply found_users_distinct. exact Hnd.
  - intros e He. apply in_map_iff in He. destruct He as (u & <- & Hu).
    apply filter_In in Hu. destruct Hu as [_ Hu].
    apply existsb_exists in Hu. destruct Hu as (x & Hx & Heq).
    apply String.eqb_eq in Heq. subst x. apply nodup_In. exact Hx.
Qed.

Lemma flag_details (flag a b : bool) :
  flag && (negb a || negb b) = false -> flag = true -> a = true /\ b = true.
Proof. destruct flag, a, b; simpl; intros H1 H2; try discriminate; auto. Qed.

Lemma find_updateWhere_any (id id' : string) (f : Case.t -> Case.t)
    (l : list Case.t) :
  (forall x, Case.id (f x) = Case.id x) ->
  find (fun x => Case.id x =? id') (updateWhere id f l)
  = option_map (fun x => if Case.id x =? id then f x else x)
      (find (fun x => Case.id x =? id') l).
Proof.
  intros Hid. induction l as [|a l IH]; cbn [updateWhere map find option_map];
    [reflexivity|].
  destruct (Case.id a =? id) eqn:Ha.
  - rewrite Hid. destruct (Case.id a =? id'); [cbn; now rewrite Ha|exact IH].
  - destruct (Case.id a =? id'); [cbn; now rewrite Ha|exact IH].
Qed.

Lemma find_by_key (l : list Case.t) (c : Case.t) :
  NoDup (map Case.id l) -> In c l ->
  find (fun x => Case.id x =? Case.id c) l = Some c.
Proof.
  induction l as [|a l IH]; intros Hnd Hin; [destruct Hin|].
  inversion Hnd as [|? ? Hnin Hnd']; subst. cbn [find].
  destruct Hin as [->|Hin].
  - rewrite String.eqb_refl. reflexivity.
  - destruct (Case.id a =? Case.id c) eqn:E; [|auto].
    apply String.eqb_eq in E. exfalso. apply Hnin. rewrite E.
    apply in_map. exact Hin.
Qed.

Lemma found3 (p q r : Case.t -> bool) (l : list Case.t) (c : Case.t) :
  find (fun x => p x && q x && r x) l = Some c ->
  In c l /\ p c = true /\ q c = true /\ r c = true.
Proof.
  intros H. apply find_some in H. destruct H as [Hin H].
  apply andb_prop in H. destruct H as [H Hr].
  apply andb_prop in H. tauto.
Qed.

Lemma moved_status (id id' : string) (d d' : DB) (s s' : CaseStatus) :
  NoDup (map Case.id (cases d)) ->
  moved id d d' ->
  statusOf id' d = Some s ->
  statusOf id' d' = Some s' ->
  s' = s \/ edge s s' = true.
Proof.
  intros Hnd (c & f & Hin & Hid & Hcases & Hfid & Hedge) Hs Hs'.
  unfold statusOf in *. rewrite Hcases, (find_updateWhere_any id id' f _ Hfid) in Hs'.
  destruct (find (fun x => Case.id x =? id') (cases d)) as [x|] eqn:Hf;
    [|discriminate Hs].
  cbn [option_map] in Hs, Hs'. injection Hs as <-.
  destruct (Case.id x =? id) eqn:E; injection Hs' as <-; [|now left].
  right. apply String.eqb_eq in E.
  assert (Hx : x = c).
  { pose proof (find_by_key _ c Hnd Hin) as Hc. rewrite Hid in Hc.
    apply find_some in Hf. destruct Hf as [Hxin Hxid].
    apply String.eqb_eq in Hxid.
    pose proof (find_by_key _ x Hnd Hxin) as Hx. rewrite E in Hx. congruence. }
  subst x. apply Hedge.
Qed.

Lemma find_conj_found {A : Type} (p q : A -> bool) (l : list A) (x : A) :
  find (fun y => p y && q y) l = Some x -> find p l <> None.
Proof.
  induction l as [|a l IH]; simpl; [discriminate|].
  destruct (p a); simpl; [discriminate|]. exact IH.
Qed.

Lemma find_conj3_found {A : Type} (p q r : A -> bool) (l : list A) (x : A) :
  find (fun y => p y && q y && r y) l = Some x -> find p l = None -> False.
Proof.
  intros H. apply (find_conj_found p (fun y => q y && r y) l x).
  rewrite <- H. apply find_pointwise. intros y. apply andb_assoc.
Qed.

Ltac unwritten :=
  first
    [ reflexivity
    | (intros Hs; cbn in Hs; discriminate Hs)
    | (intros _; reflexivity)
    | (exfalso;
       match goal with
       | Hc : find _ ?l = Some _, Hn : find _ ?l = None |- _ =>
           exact (find_conj3_found _ _ _ _ _ Hc Hn)
       | H : None = Some _ |- _ => discriminate H
       end) ].

Lemma rejected_writes_nothing L now user op d :
  let out := perform L now user op (noFault d) in
  succeeded (fst out) = false -> db (snd out) = d.
Proof.
  cbv zeta.
  destruct op as [b files|id b|id b|id b|id b]; cbn [perform].
  - unfold createCase. generalize (newCaseNumber L now) as num. intros num.
    repeat (prisma; try branch); unwritten.
  - unfold respondToCase. repeat (prisma; try branch); unwritten.
  - unfold nominateWitnesses. repeat (prisma; try branch); unwritten.
  - unfold createPanel. repeat (prisma; try branch); unwritten.
  - unfold setStatus. repeat (prisma; try branch); unwritten.
Qed.

Section Steps.

Variable L : Deps.

(** ** One step at a time *)

Lemma respondToCase_run :
  forall (now : Z) (user : AuthUser.t) (id : string) (b : RespondBody.t)
         (d : DB) (c : Case.t),
    respondErrors b = [] ->
    find (fun x => Case.id x =? id) (cases d) = Some c ->
    Case.status c = AWAITING_RESPONSE ->
    Case.respondentId c = Some (AuthUser.id user) ->
    let status := if Js.truthy (RespondBody.accepted b) then ACCEPTED else UNRESOLVED in
    let out := respondToCase L now user id b (noFault d) in
    code (fst out) = 200%nat
    /\ fault (snd out) = None
    /\ cases (db (snd out))
       = updateWhere id
           (Case.setResponse (RespondBody.accepted b)
              (sanitize L (RespondBody.response b)) now status) (cases d)
    /\ map Notification.userId (notifications (db (snd out)))
       = Case.complainantId c :: map Notification.userId (notifications d).
Proof.
  intros now user id b d c Hv Hfind Hst Hresp status out. subst out status.
  unfold respondToCase. rewrite Hv. cbv zeta. cbn [Validator.isEmpty negb].
  assert (Hq : find (fun x =>
             (Case.id x =? id) && optEqb (Case.respondentId x) (AuthUser.id user)
             && statusEqb (Case.status x) AWAITING_RESPONSE) (cases d) = Some c).
  { rewrite (find_pointwise _ (fun x => (Case.id x =? id)
       && (optEqb (Case.respondentId x) (AuthUser.id user)
           && statusEqb (Case.status x) AWAITING_RESPONSE)))
      by (intros x; now rewrite andb_assoc).
    apply find_conj; [exact Hfind|].
    rewrite Hst, Hresp. simpl. rewrite String.eqb_refl. reflexivity. }
  prisma. rewrite Hq. prisma. rewrite Hfind. prisma.
  repeat split; reflexivity.
Qed.

Lemma respondToCase_not_found :
  forall (now : Z) (user : AuthUser.t) (id : string) (b : RespondBody.t)
         (d : DB),
    respondErrors b = [] ->
    (forall c, In c (cases d) -> Case.id c = id ->
       Case.respondentId c <> Some (AuthUser.id user)
       \/ Case.status c <> AWAITING_RESPONSE) ->
    respondToCase L now user id b (noFault d)
    = (json 404 (Error "Case not found or you cannot respond to this case"),
       noFault d).
Proof.
  intros now user id b d Hv Hno.
  unfold respondToCase, tryCatch, bind, caseFindFirst, query, call, noFault.
  rewrite Hv. simpl.
  rewrite (find_pointwise _ (fun x => (Case.id x =? id)
       && (optEqb (Case.respondentId x) (AuthUser.id user)
           && statusEqb (Case.status x) AWAITING_RESPONSE)))
    by (intros x; now rewrite andb_assoc).
  rewrite find_none_conj; [reflexivity|].
  intros x Hin Hid. apply String.eqb_eq in Hid.
  destruct (Hno x Hin Hid) as [Hr|Hs].
  - destruct (optEqb (Case.respondentId x) (AuthUser.id user)) eqn:E;
      [|reflexivity].
    apply optEqb_eq in E. contradiction.
  - destruct (statusEqb (Case.status x) AWAITING_RESPONSE) eqn:E;
      [|apply andb_false_r].
    apply statusEqb_eq in E. contradiction.
Qed.

(** X5. After the linked respondent's answer to a case in
    AWAITING_RESPONSE was accepted (200), a respondToCase request made on
    the store that answer left, by anyone and with any valid body, is
    answered 404 and writes nothing: the first answer took the case out of
    AWAITING_RESPONSE, and it stays ACCEPTED or UNRESOLVED as that answer set
    it. *)
Theorem respondToCase_next_is_404 :
  forall (now now' : Z) (user user' : AuthUser.t) (id : string)
         (b b' : RespondBody.t) (d : DB) (c : Case.t),
    respondErrors b = [] ->
    respondErrors b' = [] ->
    find (fun x => Case.id x =? id) (cases d) = Some c ->
    Case.status c = AWAITING_RESPONSE ->
    Case.respondentId c = Some (AuthUser.id user) ->
    let first := respondToCase L now user id b (noFault d) in
    let second := respondToCase L now' user' id b' (snd first) in
    code (fst first) = 200%nat
    /\ code (fst second) = 404%nat
    /\ db (snd second) = db (snd first)
    /\ statusOf id (db (snd second))
       = Some (if Js.truthy (RespondBody.accepted b) then ACCEPTED else UNRESOLVED).
Proof.
  intros now now' user user' id b b' d c Hv Hv' Hfind Hst Hresp first second.
  destruct (respondToCase_run now user id b d c Hv Hfind Hst Hresp)
    as (Hcode & Hfault & Hcases & _).
  fold first in Hcode, Hfault, Hcases.
  assert (Hw : snd first = noFault (db (snd first))).
  { destruct (snd first) as [d1 f1]. cbn in Hfault. subst f1. reflexivity. }
  assert (Hsecond : second
            = (json 404
                 (Error "Case not found or you cannot respond to this case"),
               noFault (db (snd first)))).
  { subst second. rewrite Hw. apply respondToCase_not_found; [exact Hv'|].
    intros x Hin Hid. right. cbn [noFault db] in Hin. rewrite Hcases in Hin.
    apply in_updateWhere in Hin.
    destruct Hin as [(c0 & _ & _ & ->)|[_ Hne]]; [|contradiction].
    cbn. destruct (Js.truthy (RespondBody.accepted b)); discriminate. }
  rewrite Hsecond. cbn [fst snd code db noFault].
  split; [exact Hcode|]. split; [reflexivity|]. split; [reflexivity|].
  unfold statusOf. rewrite Hcases.
  rewrite (find_updateWhere id _ (cases d) c); [reflexivity|reflexivity|exact Hfind].
Qed.

Lemma accepted_case_found (user : AuthUser.t) (id : string) (d : DB) (c : Case.t) :
  find (fun x => Case.id x =? id) (cases d) = Some c ->
  isParty (AuthUser.id user) c = true ->
  Case.status c = ACCEPTED ->
  find (fun x => (Case.id x =? id) && isParty (AuthUser.id user) x
                 && statusEqb (Case.status x) ACCEPTED) (cases d) = Some c.
Proof.
  intros Hfind Hparty Hst.
  rewrite (find_pointwise _ (fun x => (Case.id x =? id)
       && (isParty (AuthUser.id user) x && statusEqb (Case.status x) ACCEPTED)))
    by (intros x; now rewrite andb_assoc).
  apply find_conj; [exact Hfind|]. rewrite Hparty, Hst. reflexivity.
Qed.

Lemma nominateWitnesses_not_found :
  forall (now : Z) (user : AuthUser.t) (id : string) (b : WitnessesBody.t)
         (d : DB),
    witnessesErrors L b = [] ->
    (forall c, In c (cases d) -> Case.id c = id ->
       isParty (AuthUser.id user) c = false \/ Case.status c <> ACCEPTED) ->
    nominateWitnesses L now user id b (noFault d)
    = (json 404
         (Error "Case not found or you cannot add witnesses to this case"),
       noFault d).
Proof.
  intros now user id b d Hv Hno. unfold nominateWitnesses.
  rewrite Hv. cbv zeta. cbn [Validator.isEmpty negb]. prisma.
  rewrite (find_pointwise _ (fun x => (Case.id x =? id)
       && (isParty (AuthUser.id user) x && statusEqb (Case.status x) ACCEPTED)))
    by (intros x; now rewrite andb_assoc).
  rewrite find_none_conj; [reflexivity|].
  intros x Hin Hid. apply String.eqb_eq in Hid.
  destruct (Hno x Hin Hid) as [Hp|Hs].
  - rewrite Hp. reflexivity.
  - destruct (statusEqb (Case.status x) ACCEPTED) eqn:E; [|apply andb_false_r].
    apply statusEqb_eq in E. contradiction.
Qed.

(** X6. After a nomination on an ACCEPTED case succeeded (200), a
    nominateWitnesses request made on the store that nomination left, by
    anyone and with any valid list, is answered 404 and writes nothing: the
    first nomination took the case out of ACCEPTED. *)
Theorem nominateWitnesses_next_is_404 :
  forall (now now' : Z) (user user' : AuthUser.t) (id : string)
         (b b' : WitnessesBody.t) (d : DB) (c : Case.t),
    witnessesErrors L b = [] ->
    witnessesErrors L b' = [] ->
    find (fun x => Case.id x =? id) (cases d) = Some c ->
    isParty (AuthUser.id user) c = true ->
    Case.status c = ACCEPTED ->
    List.length
      (filter (fun u => existsb (String.eqb (User.email u))
                          (map (normalizeEmail L) (WitnessesBody.witnessEmails b)))
         (users d))
    = List.length (map (normalizeEmail L) (WitnessesBody.witnessEmails b)) ->
    let first := nominateWitnesses L now user id b (noFault d) in
    let second := nominateWitnesses L now' user' id b' (snd first) in
    code (fst first) = 200%nat
    /\ code (fst second) = 404%nat
    /\ db (snd second) = db (snd first).
Proof.
  intros now now' user user' id b b' d c Hv Hv' Hfind Hparty Hst Hlen
    first second.
  destruct (nominateWitnesses_run L now user id b d c Hv Hfind Hparty Hst Hlen)
    as (Hcode & Hfault & Hcases & _).
  fold first in Hcode, Hfault, Hcases.
  assert (Hsecond : second
            = (json 404
                 (Error "Case not found or you cannot add witnesses to this case"),
               noFault (db (snd first)))).
  { subst second. rewrite (world_noFault _ Hfault).
    apply nominateWitnesses_not_found; [exact Hv'|].
    intros x Hin Hid. right. cbn [noFault db] in Hin. rewrite Hcases in Hin.
    apply in_updateWhere in Hin.
    destruct Hin as [(c0 & _ & _ & ->)|[_ Hne]]; [|contradiction].
    cbn. discriminate. }
  rewrite Hsecond. cbn [fst snd code db noFault].
  split; [exact Hcode|]. split; reflexivity.
Qed.

(** X7. Where no two users share an address, a nomination whose list names
    the same normalised address twice is answered 400 ("Some witnesses are
    not registered users...") and writes nothing, although every address of
    the list is registered: the handler compares the number of users found
    with the length of the list. *)
Theorem nominateWitnesses_rejects_repeated_address :
  forall (now : Z) (user : AuthUser.t) (id : string) (b : WitnessesBody.t)
         (d : DB) (c : Case.t),
    witnessesErrors L b = [] ->
    find (fun x => Case.id x =? id) (cases d) = Some c ->
    isParty (AuthUser.id user) c = true ->
    Case.status c = ACCEPTED ->
    NoDup (map User.email (users d)) ->
    ~ NoDup (map (normalizeEmail L) (WitnessesBody.witnessEmails b)) ->
    nominateWitnesses L now user id b (noFault d)
    = (json 400 (Error
         "Some witnesses are not registered users. All witnesses must be registered."),
       noFault d).
Proof.
  intros now user id b d c Hv Hfind Hparty Hst Hnd Hdup.
  unfold nominateWitnesses. rewrite Hv. cbv zeta.
  cbn [Validator.isEmpty negb]. prisma.
  rewrite (accepted_case_found user id d c Hfind Hparty Hst). prisma.
  pose proof (registered_among _ _ Hnd Hdup) as Hlt.
  destruct (Nat.eqb_spec
              (List.length
                 (filter (fun u => existsb (String.eqb (User.email u))
                    (map (normalizeEmail L) (WitnessesBody.witnessEmails b)))
                    (users d)))
              (List.length
                 (map (normalizeEmail L) (WitnessesBody.witnessEmails b))))
    as [E|E]; [lia|].
  reflexivity.
Qed.

(** X8. getCase answers 404 and writes nothing for a caller who is neither
    the complainant nor the respondent of any case with the requested id; it
    does not tell a foreign case from a missing one. *)
Theorem getCase_hides_foreign_case :
  forall (user : AuthUser.t) (id : string) (d : DB),
    (forall c, In c (cases d) -> Case.id c = id ->
       isParty (AuthUser.id user) c = false) ->
    getCase user id (noFault d)
    = (json 404 (Error "Case not found or you do not have access to this case"),
       noFault d).
Proof.
  intros user id d Hno. unfold getCase. prisma.
  rewrite find_none_conj; [reflexivity|].
  intros x Hin Hid. apply String.eqb_eq in Hid. exact (Hno x Hin Hid).
Qed.

Lemma createPanel_run :
  forall (now : Z) (user : AuthUser.t) (id : string) (b : PanelBody.t)
         (d : DB) (c : Case.t) (lawyer : string),
    PanelBody.lawyerId b = Some lawyer ->
    find (fun x => Case.id x =? id) (cases d) = Some c ->
    find (fun p => MediationPanel.caseId p =? id) (mediationPanels d) = None ->
    panelReady c = true ->
    let ids :=
      filterBoolean [PanelBody.lawyerId b; PanelBody.religiousScholarId b;
                     PanelBody.societyMemberId b] in
    let members :=
      filter (fun u => existsb (String.eqb (User.id u)) ids) (users d) in
    List.length members = List.length ids ->
    let out := createPanel L now user id b (noFault d) in
    code (fst out) = 201%nat
    /\ fault (snd out) = None
    /\ cases (db (snd out))
       = updateWhere id (Case.setStatus PANEL_CREATED) (cases d)
    /\ (exists p,
          mediationPanels (db (snd out)) = p :: mediationPanels d
          /\ MediationPanel.caseId p = id
          /\ MediationPanel.lawyerId p = lawyer)
    /\ (exists e,
          caseHistory (db (snd out)) = e :: caseHistory d
          /\ CaseHistory.action e = "PANEL_CREATED")
    /\ map Notification.userId (notifications (db (snd out)))
       = rev (map User.id members)
         ++ match Case.respondentId c with
            | Some rid => [rid]
            | None => []
            end
         ++ Case.complainantId c :: map Notification.userId (notifications d).
Proof.
  intros now user id b d c lawyer Hl Hfind Hpanel Hready ids members Hlen out.
  subst out. unfold createPanel, panelErrors. rewrite Hl. cbv zeta.
  cbn [Validator.check app Validator.isEmpty negb]. prisma.
  rewrite Hfind.
  assert (Hid : Case.id c = id).
  { apply find_some in Hfind. apply String.eqb_eq. apply Hfind. }
  rewrite Hid, Hpanel. prisma.
  unfold panelReady in Hready. apply orb_true_iff in Hready.
  assert (Hst : negb (statusEqb (Case.status c) WITNESSES_NOMINATED)
                && negb (statusEqb (Case.status c) ACCEPTED) = false).
  { destruct Hready as [-> | ->]; [reflexivity|apply andb_false_r]. }
  rewrite Hst. rewrite <- Hl. fold ids. prisma. fold members.
  rewrite Hlen, Nat.eqb_refl. cbn [negb]. prisma. rewrite Hfind. prisma.
  destruct (Case.respondentId c) as [rid|]; prisma;
    (split; [reflexivity|]; split; [reflexivity|]; split; [reflexivity|];
     split; [eexists; split; [reflexivity|]; split; reflexivity|];
     split; [eexists; split; reflexivity|];
     cbn [notifications withNotifications];
     rewrite !map_app, map_rev, map_map; reflexivity).
Qed.

Lemma panel_found (id : string) (l : list MediationPanel.t) (p : MediationPanel.t) :
  MediationPanel.caseId p = id ->
  exists q, find (fun x => MediationPanel.caseId x =? id) (p :: l) = Some q.
Proof.
  intros <-. exists p. cbn [find]. rewrite String.eqb_refl. reflexivity.
Qed.

Lemma createPanel_conflict :
  forall (now : Z) (user : AuthUser.t) (id : string) (b : PanelBody.t)
         (d : DB) (c : Case.t) (p : MediationPanel.t),
    panelErrors b = [] ->
    find (fun x => Case.id x =? id) (cases d) = Some c ->
    find (fun x => MediationPanel.caseId x =? id) (mediationPanels d) = Some p ->
    createPanel L now user id b (noFault d)
    = (json 409 (Error "Mediation panel already exists for this case"),
       noFault d).
Proof.
  intros now user id b d c p Hv Hfind Hpanel. unfold createPanel.
  rewrite Hv. cbv zeta. cbn [Validator.isEmpty negb]. prisma.
  rewrite Hfind.
  assert (Hid : Case.id c = id).
  { apply find_some in Hfind. apply String.eqb_eq. apply Hfind. }
  rewrite Hid, Hpanel. reflexivity.
Qed.

(** X9. A case gets one panel.  After createPanel succeeded (201), a second
    createPanel on the case is answered 409 "Mediation panel already exists
    for this case" and writes nothing; the status stays PANEL_CREATED. *)
Theorem createPanel_once :
  forall (now now' : Z) (user user' : AuthUser.t) (id : string)
         (b b' : PanelBody.t) (d : DB) (c : Case.t) (lawyer : string),
    PanelBody.lawyerId b = Some lawyer ->
    panelErrors b' = [] ->
    find (fun x => Case.id x =? id) (cases d) = Some c ->
    find (fun p => MediationPanel.caseId p =? id) (mediationPanels d) = None ->
    panelReady c = true ->
    List.length
      (filter (fun u => existsb (String.eqb (User.id u))
                 (filterBoolean [PanelBody.lawyerId b;
                                 PanelBody.religiousScholarId b;
                                 PanelBody.societyMemberId b])) (users d))
    = List.length
        (filterBoolean [PanelBody.lawyerId b; PanelBody.religiousScholarId b;
                        PanelBody.societyMemberId b]) ->
    let first := createPanel L now user id b (noFault d) in
    let second := createPanel L now' user' id b' (snd first) in
    code (fst first) = 201%nat
    /\ fst second
       = json 409 (Error "Mediation panel already exists for this case")
    /\ db (snd second) = db (snd first)
    /\ statusOf id (db (snd second)) = Some PANEL_CREATED.
Proof.
  intros now now' user user' id b b' d c lawyer Hl Hv' Hfind Hpanel Hready Hlen
    first second.
  destruct (createPanel_run now user id b d c lawyer Hl Hfind Hpanel Hready Hlen)
    as (Hcode & Hfault & Hcases & (p & Hp & Hpid & _) & _).
  fold first in Hcode, Hfault, Hcases, Hp.
  assert (Hfind' : find (fun x => Case.id x =? id) (cases (db (snd first)))
                   = Some (Case.setStatus PANEL_CREATED c)).
  { rewrite Hcases. apply find_updateWhere; [reflexivity|exact Hfind]. }
  destruct (panel_found id (mediationPanels d) p Hpid) as [q Hq].
  rewrite <- Hp in Hq.
  assert (Hsecond : second
            = (json 409 (Error "Mediation panel already exists for this case"),
               noFault (db (snd first)))).
  { subst second. rewrite (world_noFault _ Hfault).
    exact (createPanel_conflict now' user' id b' _ _ q Hv' Hfind' Hq). }
  rewrite Hsecond. cbn [fst snd db noFault].
  split; [exact Hcode|]. split; [reflexivity|]. split; [reflexivity|].
  unfold statusOf. rewrite Hfind'. reflexivity.
Qed.

(** X10. createPanel on a case without a panel whose status is neither
    WITNESSES_NOMINATED nor ACCEPTED is answered 400 and writes nothing. *)
Theorem createPanel_needs_accepted_case :
  forall (now : Z) (user : AuthUser.t) (id : string) (b : PanelBody.t)
         (d : DB) (c : Case.t),
    panelErrors b = [] ->
    find (fun x => Case.id x =? id) (cases d) = Some c ->
    find (fun p => MediationPanel.caseId p =? id) (mediationPanels d) = None ->
    panelReady c = false ->
    createPanel L now user id b (noFault d)
    = (json 400 (Error
         "Case must be in WITNESSES_NOMINATED or ACCEPTED status to create a panel"),
       noFault d).
Proof.
  intros now user id b d c Hv Hfind Hpanel Hready. unfold createPanel.
  rewrite Hv. cbv zeta. cbn [Validator.isEmpty negb]. prisma.
  rewrite Hfind.
  assert (Hid : Case.id c = id).
  { apply find_some in Hfind. apply String.eqb_eq. apply Hfind. }
  rewrite Hid, Hpanel. prisma.
  unfold panelReady in Hready. apply orb_false_iff in Hready.
  destruct Hready as [-> ->]. reflexivity.
Qed.


Lemma respondToCase_moved now user id b d :
  let out := respondToCase L now user id b (noFault d) in
  succeeded (fst out) = true -> moved id d (db (snd out)).
Proof.
  cbv zeta. unfold respondToCase, moved.
  repeat (prisma; try branch);
    try (intros Hs; cbn in Hs; discriminate Hs).
  all: intros _;
    match goal with
    | Hc : find _ (cases _) = Some ?t |- exists _ _, In _ _ /\ _ =>
        apply found3 in Hc; destruct Hc as (Hin & Hid & _ & Hst);
        apply String.eqb_eq in Hid; apply statusEqb_eq in Hst;
        exists t; eexists; split; [exact Hin|]; split; [exact Hid|];
        split; [reflexivity|]; split; [intros x; reflexivity|];
        intros x; rewrite Hst; reflexivity
    end.
Qed.

Lemma nominateWitnesses_moved now user id b d :
  let out := nominateWitnesses L now user id b (noFault d) in
  succeeded (fst out) = true -> moved id d (db (snd out)).
Proof.
  cbv zeta. unfold nominateWitnesses, moved.
  repeat (prisma; try branch);
    try (intros Hs; cbn in Hs; discriminate Hs).
  all: intros _;
    match goal with
    | Hc : find (fun _ => _ && _ && _) (cases _) = Some ?t |- _ =>
        apply found3 in Hc; destruct Hc as (Hin & Hid & _ & Hst);
        apply String.eqb_eq in Hid; apply statusEqb_eq in Hst;
        exists t; eexists; split; [exact Hin|]; split; [exact Hid|];
        split; [reflexivity|]; split; [intros x; reflexivity|];
        intros x; rewrite Hst; reflexivity
    end.
Qed.

Lemma panelReady_edge (c : Case.t) :
  negb (statusEqb (Case.status c) WITNESSES_NOMINATED)
  && negb (statusEqb (Case.status c) ACCEPTED) = false ->
  edge (Case.status c) PANEL_CREATED = true.
Proof. destruct (Case.status c); cbn; intros H; try discriminate H; reflexivity. Qed.

Lemma createPanel_moved now user id b d :
  let out := createPanel L now user id b (noFault d) in
  succeeded (fst out) = true -> moved id d (db (snd out)).
Proof.
  cbv zeta. unfold createPanel, moved.
  repeat (prisma; try branch);
    try (intros Hs; cbn in Hs; discriminate Hs).
  all: intros _;
    repeat match goal with
           | H : Some _ = Some _ |- _ => injection H as H; subst
           | H : None = Some _ |- _ => discriminate H
           end;
    match goal with
    | Hc : find _ (cases _) = Some ?t, Hr : negb _ && negb _ = false |- _ =>
        pose proof (panelReady_edge _ Hr) as Hedge;
        apply find_some in Hc; destruct Hc as (Hin & Hid);
        apply String.eqb_eq in Hid;
        exists t; eexists; split; [exact Hin|]; split; [exact Hid|];
        split; [reflexivity|]; split; [intros x; reflexivity|];
        intros x; exact Hedge
    end.
Qed.

(** ** What every request leaves in place *)

Lemma api_stable (r : Request) (w : World) :
  stable (db w) (db (snd (api L r w))).
Proof.
  unfold api.
  destruct (authenticate L (authorization r) w) as [[res|user] w1] eqn:Ha;
    pose proof (authenticate_db L _ _ _ _ Ha) as Hdb.
  - cbn [snd]. rewrite Hdb. apply stable_refl.
  - destruct (route r) as [op|id].
    + destruct (adminOnly op); [destruct (requireAdmin (Some user))|];
        cbn [snd]; try (rewrite Hdb; apply stable_refl);
        rewrite <- Hdb; apply perform_stable.
    + rewrite getCase_db, Hdb. apply stable_refl.
Qed.

(** Without a rejected call a request either leaves the store as it is or is
    the run of a workflow handler on it. *)
Lemma api_handler (r : Request) (d : DB) :
  db (snd (api L r (noFault d))) = d
  \/ exists user op,
       route r = Workflow op
       /\ api L r (noFault d) = perform L (now r) user op (noFault d).
Proof.
  unfold api.
  destruct (authenticate L (authorization r) (noFault d)) as [[res|user] w1]
    eqn:Ha; pose proof (authenticate_noFault L _ _ _ _ Ha) as ->.
  - left. reflexivity.
  - destruct (route r) as [op|id].
    + destruct (adminOnly op); [destruct (requireAdmin (Some user))|];
        try (left; reflexivity); right; exists user, op; split; reflexivity.
    + left. apply getCase_db.
Qed.

(** X1. No request to the case routes, whatever it answers and whichever
    Prisma call rejects on the way, removes or rewrites an audit entry, a
    notification, an evidence row or a panel: each of these tables only gains
    rows at its front; and every witness row that was there is still there. *)
Theorem request_only_appends_to_logs :
  forall (r : Request) (w : World),
    let d' := db (snd (api L r w)) in
    extends (caseHistory (db w)) (caseHistory d')
    /\ extends (notifications (db w)) (notifications d')
    /\ extends (evidence (db w)) (evidence d')
    /\ extends (mediationPanels (db w)) (mediationPanels d')
    /\ incl (witnesses (db w)) (witnesses d').
Proof.
  intros r w d'.
  destruct (api_stable r w) as (_ & Hh & Hn & He & Hp & Hw & _).
  repeat split; assumption.
Qed.

(** X2. No request to the case routes, whatever it answers and whichever
    Prisma call rejects on the way, touches the users table, deletes a case
    or changes a column of a case other than its status and the response of
    the respondent: the cases as they were filed are still there, in order,
    below the cases filed since. *)
Theorem request_keeps_users_and_filed_cases :
  forall (r : Request) (w : World),
    let d' := db (snd (api L r w)) in
    users d' = users (db w)
    /\ extends (map filed (cases (db w))) (map filed (cases d')).
Proof.
  intros r w d'.
  destruct (api_stable r w) as (Hu & _ & _ & _ & _ & _ & Hc).
  split; assumption.
Qed.


(** X4. The status graph of the parties' and the panel's steps.  Where case
    ids are unique and no Prisma call rejects, a respondToCase,
    nominateWitnesses or createPanel request leaves the status of every case
    as it was or moves it along one of five edges: AWAITING_RESPONSE to
    ACCEPTED or UNRESOLVED, ACCEPTED to WITNESSES_NOMINATED or PANEL_CREATED,
    WITNESSES_NOMINATED to PANEL_CREATED. *)
Theorem workflow_steps_follow_edges :
  forall (r : Request) (op : Operation) (d : DB) (id : string)
         (s s' : CaseStatus),
    route r = Workflow op ->
    workflowStep op = true ->
    NoDup (map Case.id (cases d)) ->
    statusOf id d = Some s ->
    statusOf id (db (snd (api L r (noFault d)))) = Some s' ->
    s' = s \/ edge s s' = true.
Proof.
  intros r op d id s s' Hr Hop Hnd Hs Hs'.
  destruct (api_handler r d) as [H|(user & op' & Hr' & H)].
  - rewrite H in Hs'. left. congruence.
  - rewrite Hr in Hr'. injection Hr' as <-. rewrite H in Hs'.
    destruct (succeeded (fst (perform L (now r) user op (noFault d)))) eqn:E.
    + assert (Hm : exists key,
                moved key d (db (snd (perform L (now r) user op (noFault d))))).
      { destruct op as [b files|key b|key b|key b|key b];
          try discriminate Hop; exists key; cbn [perform] in *.
        - exact (respondToCase_moved _ _ _ _ _ E).
        - exact (nominateWitnesses_moved _ _ _ _ _ E).
        - exact (createPanel_moved _ _ _ _ _ E). }
      destruct Hm as [key Hm]. exact (moved_status key id _ _ s s' Hnd Hm Hs Hs').
    + rewrite (rejected_writes_nothing L _ _ _ _ E) in Hs'. left. congruence.
Qed.


(** X12. A createCase that succeeds stores the case it returns, under the id
    the store hands out next.  That case carries a court case number and a
    court name if it is flagged as in court, and a FIR number and a police
    station name if it is flagged as with the police; and the store gains one
    evidence row per uploaded file, linked to the case, the last file first. *)
Theorem createCase_stores_complete_case :
  forall (now : Z) (user : AuthUser.t) (b : CreateCaseBody.t)
         (files : list File.t) (d : DB),
    let out := createCase L now user b files (noFault d) in
    succeeded (fst out) = true ->
    exists c,
      returnedCase (fst out) = Some c
      /\ In c (cases (db (snd out)))
      /\ Case.id c = cuid L (idSeq d)
      /\ detailsPresent c
      /\ evidence (db (snd out))
         = rev (map (evidenceOf (Case.id c)) files) ++ evidence d.
Proof.
  intros now user b files d. cbv zeta.
  unfold createCase, returnedCase, detailsPresent.
  generalize (newCaseNumber L now) as num. intros num.
  repeat (prisma; try branch);
    try (intros Hs; cbn in Hs; discriminate Hs).
  all: intros _; eexists; (split; [reflexivity|]);
    (split; [left; reflexivity|]); (split; [reflexivity|]);
    (split; [|reflexivity]); cbn;
    (split; intros Hflag;
     match goal with
     | H : _ && (negb _ || negb _) = false |- _ =>
         solve [exact (flag_details _ _ _ H Hflag)]
     end).
Qed.

(** ** Authentication and accounts *)

(** X14. Whenever authenticate turns a request away, for a missing or
    malformed header, a token that does not verify, a user that is gone or a
    lookup that rejects, the answer is a 401 and the store is as it was. *)
Theorem authenticate_failure_is_401 :
  forall (header : option string) (w : World) (res : Response) (w1 : World),
    authenticate L header w = (inl res, w1) ->
    code res = 401%nat /\ db w1 = db w.
Proof.
  intros header w res w1 H. split; [|exact (authenticate_db L _ _ _ _ H)].
  unfold authenticate, userFindUnique, query, call in H.
  destruct header as [h|]; [|injection H as <- _; reflexivity].
  destruct (negb (Js.truthyStr h) || negb (Js.startsWith "Bearer " h));
    [injection H as <- _; reflexivity|].
  destruct (jwtVerify L (Js.substringFrom 7 h)) as [uid|];
    [|injection H as <- _; reflexivity].
  destruct (fault w) as [[|k]|];
    try destruct (find _ (users (db w))); try discriminate H;
    injection H as <- _; reflexivity.
Qed.

(** X15. The identity authenticate attaches to a request is read from the
    store: the header is "Bearer " followed by a token that verifies to the
    id of a stored user, and the id, address, name and role attached are
    those of that row, not anything the request carries. *)
Theorem authenticate_reads_the_store :
  forall (header : option string) (w : World) (user : AuthUser.t) (w1 : World),
    authenticate L header w = (inr user, w1) ->
    exists h u,
      header = Some h
      /\ Js.startsWith "Bearer " h = true
      /\ jwtVerify L (Js.substringFrom 7 h) = Some (User.id u)
      /\ In u (users (db w))
      /\ user = AuthUser.mk (User.id u) (User.email u) (User.name u) (User.role u).
Proof.
  intros header w user w1 H.
  unfold authenticate, userFindUnique, query, call in H.
  destruct header as [h|]; [|discriminate H].
  destruct (Js.startsWith "Bearer " h) eqn:Hb;
    [|rewrite orb_true_r in H; discriminate H].
  destruct (negb (Js.truthyStr h)); [discriminate H|]. cbn [orb negb] in H.
  destruct (jwtVerify L (Js.substringFrom 7 h)) as [uid|] eqn:Hv;
    [|discriminate H].
  destruct (fault w) as [[|k]|]; try discriminate H;
    (destruct (find (fun u => User.id u =? uid) (users (db w))) as [u|] eqn:Hf;
     [|discriminate H]);
    injection H as <- _; apply find_some in Hf; destruct Hf as [Hin Heq];
    apply String.eqb_eq in Heq; subst uid;
    exists h, u; repeat split; assumption.
Qed.

Lemma register_conflict (b : RegisterBody.t) (d : DB) (u : User.t) :
  registerErrors L b = [] ->
  find (emailOrPhone (normalizeEmail L (RegisterBody.email b))
          (RegisterBody.phone b)) (users d) = Some u ->
  register L b (noFault d)
  = (json 409 (Error "User already exists with this email or phone number"),
     noFault d).
Proof.
  intros Hv Hsome. unfold register. rewrite Hv. cbv zeta.
  cbn [Validator.isEmpty negb]. prisma. rewrite Hsome. reflexivity.
Qed.

(** X16. An address registers once.  After a registration succeeded (201), a
    registration whose address normalises to the same string is answered 409
    "User already exists with this email or phone number" and writes nothing,
    whatever its password, name and phone. *)
Theorem register_once_per_address :
  forall (b b' : RegisterBody.t) (d : DB),
    registerErrors L b = [] ->
    registerErrors L b' = [] ->
    find (emailOrPhone (normalizeEmail L (RegisterBody.email b))
            (RegisterBody.phone b)) (users d) = None ->
    normalizeEmail L (RegisterBody.email b')
    = normalizeEmail L (RegisterBody.email b) ->
    let first := register L b (noFault d) in
    let second := register L b' (snd first) in
    code (fst first) = 201%nat
    /\ fst second
       = json 409 (Error "User already exists with this email or phone number")
    /\ db (snd second) = db (snd first).
Proof.
  intros b b' d Hv Hv' Hnone Hsame first second.
  subst second first. rewrite (register_run L b d Hv Hnone). cbn [fst snd code].
  split; [reflexivity|].
  erewrite register_conflict; [split; reflexivity|exact Hv'|].
  cbn [users nextSeq withUsers find]. unfold emailOrPhone at 1.
  cbn [User.email]. rewrite Hsame, String.eqb_refl. reflexivity.
Qed.

(** X17. Where verifying a signed token gives back the id it was signed for,
    the token a successful registration returns authenticates: sent as
    "Bearer <token>" it yields the id, address, name and role of the user
    just created, and leaves the store as it is. *)
Theorem register_then_authenticate :
  forall (b : RegisterBody.t) (d : DB),
    (forall id, jwtVerify L (jwtSign L id) = Some id) ->
    registerErrors L b = [] ->
    find (emailOrPhone (normalizeEmail L (RegisterBody.email b))
            (RegisterBody.phone b)) (users d) = None ->
    let out := register L b (noFault d) in
    exists u token,
      body (fst out) = Registered "User registered successfully" u token
      /\ authenticate L (Some ("Bearer " ++ token)%string) (snd out)
         = (inr (AuthUser.mk (User.id u) (User.email u) (User.name u)
                   (User.role u)), snd out).
Proof.
  intros b d Hjwt Hv Hnone out. subst out.
  rewrite (register_run L b d Hv Hnone). cbn [fst snd body].
  eexists. eexists. split; [reflexivity|].
  unfold authenticate.
  change 7%nat with (String.length "Bearer ").
  rewrite startsWith_append, substringFrom_append, Hjwt.
  cbn [Js.truthyStr append String.eqb negb orb].
  unfold userFindUnique, query, call, noFault.
  cbn [fault db users nextSeq withUsers find User.id].
  rewrite String.eqb_refl. reflexivity.
Qed.

End Steps.

Section Accounts.

Variable L : Deps.
Variable bcryptCompare : string -> string -> bool.

(** X18. A login with a well-formed body is answered 401 "Invalid
    credentials", with the store untouched, both when no user has the
    normalised address and when the password does not match the stored hash:
    the answer does not tell the two apart. *)
Theorem login_invalid_credentials_alike :
  forall (b : LoginBody.t) (d : DB),
    loginErrors L b = [] ->
    (forall u,
       find (fun u => User.email u =? normalizeEmail L (LoginBody.email b))
         (users d) = Some u ->
       bcryptCompare (LoginBody.password b) (User.password u) = false) ->
    login L bcryptCompare b (noFault d)
    = (reply 401 (AuthError "Invalid credentials"), noFault d).
Proof.
  intros b d Hv Hbad. unfold login, catching. rewrite Hv. cbv zeta.
  cbn [Validator.isEmpty negb]. prisma.
  destruct (find (fun u => User.email u =? normalizeEmail L (LoginBody.email b))
              (users d)) as [u|] eqn:Hf; [|reflexivity].
  rewrite (Hbad u eq_refl). reflexivity.
Qed.

(** X19. login never writes: whatever the body and whichever call rejects,
    the store after is the store before. *)
Theorem login_never_writes :
  forall (b : LoginBody.t) (w : World),
    db (snd (login L bcryptCompare b w)) = db w.
Proof.
  intros b w. unfold login, catching, bind, ret, userFindUnique, query, call.
  destruct (negb (Validator.isEmpty (loginErrors L b))); [reflexivity|].
  destruct (fault w) as [[|k]|]; cbn [db fst snd];
    try (destruct (find _ (users (db w))) as [u|];
         [destruct (negb (bcryptCompare _ _))|]); reflexivity.
Qed.

(** X20. Where bcrypt's compare accepts a password against its own hash, a
    user who has just registered can log in with the same address and
    password: the answer is 200 with the user row that the registration
    created, and the login writes nothing. *)
Theorem register_then_login :
  forall (b : RegisterBody.t) (d : DB),
    (forall p, bcryptCompare p (bcryptHash L p) = true) ->
    registerErrors L b = [] ->
    find (emailOrPhone (normalizeEmail L (RegisterBody.email b))
            (RegisterBody.phone b)) (users d) = None ->
    let out := register L b (noFault d) in
    let again :=
      login L bcryptCompare
        (LoginBody.mk (RegisterBody.email b) (RegisterBody.password b))
        (snd out) in
    exists u token,
      body (fst out) = Registered "User registered successfully" u token
      /\ fst again = reply 200 (AuthOk "Login successful" u token)
      /\ db (snd again) = db (snd out).
Proof.
  intros b d Hcmp Hv Hnone out again. subst again out.
  rewrite (register_run L b d Hv Hnone). cbn [fst snd body].
  eexists. eexists. split; [reflexivity|].
  assert (Hlv : loginErrors L
                  (LoginBody.mk (RegisterBody.email b) (RegisterBody.password b))
                = []).
  { unfold registerErrors in Hv. unfold loginErrors. cbn [LoginBody.email LoginBody.password].
    destruct (isEmail L (RegisterBody.email b)); [|discriminate Hv].
    cbn [Validator.check app] in *.
    destruct (Validator.isLengthMin 6 (RegisterBody.password b)) eqn:E;
      [|discriminate Hv].
    unfold Validator.isLengthMin in E. apply Nat.leb_le in E.
    destruct (RegisterBody.password b); [cbn in E; lia|reflexivity]. }
  unfold login, catching. rewrite Hlv. cbv zeta. cbn [Validator.isEmpty negb].
  prisma. cbn [LoginBody.email LoginBody.password User.email users nextSeq withUsers find].
  try rewrite String.eqb_refl. cbn [User.password]. rewrite Hcmp. cbn [negb].
  split; reflexivity.
Qed.

End Accounts.

(** ** The error handler *)


(** ** The dashboard *)

Lemma countIn_sum {K : Type} (eqb : K -> K -> bool) (k : K)
    (groups : list (K * nat)) :
  list_sum (map snd (countIn eqb k groups)) = S (list_sum (map snd groups)).
Proof.
  unfold list_sum. induction groups as [|[k' n] rest IH]; [reflexivity|].
  cbn [countIn]. destruct (eqb k' k); cbn [map snd fold_right]; [reflexivity|].
  rewrite IH. lia.
Qed.

Lemma groupBy_sum {K : Type} (eqb : K -> K -> bool) (key : Case.t -> K)
    (l : list Case.t) :
  list_sum (map snd (groupBy eqb key l)) = List.length l.
Proof.
  unfold groupBy. induction l as [|c l IH]; [reflexivity|].
  cbn [fold_right List.length]. rewrite countIn_sum, IH. reflexivity.
Qed.

(** X22. When no Prisma call of the dashboard rejects, it answers 200 and
    leaves the store alone.  Its total is the number of cases, its user count
    the number of users, and the four status buckets it reports (pending,
    active, resolved, unresolved) add up to the total less the CANCELLED
    cases, which no bucket counts.  The counts of each of the two groupings
    add up to the total, and at most ten recent cases are listed. *)
Theorem dashboard_buckets :
  forall (now : Z) (d : DB),
    exists board,
      dashboard now (noFault d) = (reply 200 (Some board), noFault d)
      /\ totalCases (statistics board)
         = (pendingCases (statistics board) + activeCases (statistics board)
            + resolvedCases (statistics board)
            + unresolvedCases (statistics board) + countCancelled d)%nat
      /\ totalCases (statistics board) = List.length (cases d)
      /\ totalUsers (statistics board) = List.length (users d)
      /\ list_sum (map snd (casesByType board))
         = totalCases (statistics board)
      /\ list_sum (map snd (casesByStatus board))
         = totalCases (statistics board)
      /\ (List.length (recentCases board) <= 10)%nat.
Proof.
  intros now d. eexists. split; [reflexivity|].
  cbn [statistics recentCases casesByType casesByStatus totalCases
       pendingCases activeCases resolvedCases unresolvedCases totalUsers].
  unfold countCancelled. rewrite filter_all.
  split; [apply status_buckets|]. split; [reflexivity|].
  split; [reflexivity|].
  split; [apply groupBy_sum|]. split; [apply groupBy_sum|].
  unfold casesSince. apply firstn_le_length.
Qed.

(** X23. If any one of the nine calls of the dashboard's Promise.all
    rejects, one of the six counts, the recent cases or one of the two
    groupings, the answer is 500 with no statistics at all, and the store is
    untouched. *)
Theorem dashboard_all_or_nothing :
  forall (now : Z) (k : nat) (d : DB),
    (k < 9)%nat ->
    dashboard now (faultAt k d) = (reply 500 None, noFault d).
Proof.
  intros now k d Hk.
  do 9 (destruct k as [|k]; [reflexivity|]). exfalso; lia.
Qed.

(** ** The profile *)

Section Profile.
Variable L : Deps.
Variable isMobilePhone : string -> bool.

Lemma updateData_credentials (name phone : option string) (u : User.t) :
  credentials (updateData name phone u) = credentials u.
Proof.
  unfold updateData.
  destruct name as [n|]; [destruct (Js.truthyStr n)|];
    (destruct phone as [p|]; [destruct (Js.truthyStr p)|]); reflexivity.
Qed.

Lemma userUpdate_db (id : string) (f : User.t -> User.t) (w : World)
    (r : Res User.t) (w' : World) :
  userUpdate id f w = (r, w') ->
  db w' = db w
  \/ db w' = withUsers (map (fun x => if User.id x =? id then f x else x)) (db w).
Proof.
  unfold userUpdate, call. intros H.
  destruct (fault w) as [[|k]|];
    try destruct (find _ (users (db w))); injection H as _ <-; auto.
Qed.

Lemma userFindUnique_db (p : User.t -> bool) (w : World) :
  db (snd (userFindUnique p w)) = db w.
Proof.
  unfold userFindUnique, query, call.
  destruct (fault w) as [[|k]|]; reflexivity.
Qed.

Lemma updateProfile_db (user : AuthUser.t) (b : ProfileBody.t) (w : World) :
  let d' := db (snd (updateProfile L isMobilePhone user b w)) in
  d' = db w
  \/ d' = withUsers
            (map (fun x => if User.id x =? AuthUser.id user
                           then updateData (sanitize L (ProfileBody.name b))
                                  (ProfileBody.phone b) x
                           else x)) (db w).
Proof.
  cbv zeta. unfold updateProfile, catching, bind, ret.
  destruct (negb (Validator.isEmpty (profileErrors isMobilePhone b)));
    [left; reflexivity|].
  destruct (Js.truthyOpt (ProfileBody.phone b)).
  - pose proof (userFindUnique_db
                  (fun u => match ProfileBody.phone b, User.phone u with
                            | Some p, Some q =>
                                (q =? p) && negb (User.id u =? AuthUser.id user)
                            | _, _ => false
                            end) w) as Hq.
    destruct (userFindUnique _ w) as [[[t|]|] w1]; cbn [snd] in Hq |- *;
      try (left; exact Hq).
    destruct (userUpdate _ _ w1) as [[u|] w2] eqn:Hu; cbn [snd];
      apply userUpdate_db in Hu; rewrite Hq in Hu; exact Hu.
  - destruct (userUpdate _ _ w) as [[u|] w2] eqn:Hu; cbn [snd];
      apply userUpdate_db in Hu; exact Hu.
Qed.

(** X28. A profile update cannot change who a user is or what they may do:
    whatever the body and whichever call rejects, every user keeps its id,
    address, password hash and role, in the same order, and the cases, the
    audit trail and the notifications are untouched. *)
(** X28. A profile update cannot change who a user is or what they may do:
    whatever the body and whichever call rejects, every user keeps its id,
    address, password hash and role, in the same order, and the cases, the
    audit trail and the notifications are untouched. *)
Theorem updateProfile_keeps_credentials :
  forall (user : AuthUser.t) (b : ProfileBody.t) (w : World),
    let d' := db (snd (updateProfile L isMobilePhone user b w)) in
    map credentials (users d') = map credentials (users (db w))
    /\ cases d' = cases (db w)
    /\ caseHistory d' = caseHistory (db w)
    /\ notifications d' = notifications (db w).
Proof.
  intros user b w d'. subst d'.
  destruct (updateProfile_db user b w) as [-> | ->].
  - repeat split; reflexivity.
  - split; [|repeat split; reflexivity].
    cbn [users withUsers]. rewrite map_map. apply map_ext. intros x.
    destruct (User.id x =? AuthUser.id user); [|reflexivity].
    apply updateData_credentials.
Qed.

(** X29. A profile update asking for a phone number that another user holds
    is answered 409 "Phone number is already taken by another user" and
    writes nothing. *)
(** X29. A profile update asking for a phone number that another user holds
    is answered 409 "Phone number is already taken by another user" and
    writes nothing. *)
Theorem updateProfile_phone_taken :
  forall (user : AuthUser.t) (b : ProfileBody.t) (d : DB) (p : string)
         (other : User.t),
    profileErrors isMobilePhone b = [] ->
    ProfileBody.phone b = Some p ->
    p <> "" ->
    In other (users d) ->
    User.phone other = Some p ->
    User.id other <> AuthUser.id user ->
    updateProfile L isMobilePhone user b (noFault d)
    = (reply 409 (ProfileError "Phone number is already taken by another user"),
       noFault d).
Proof.
  intros user b d p other Hv Hp Hne Hin Hph Hid.
  unfold updateProfile, catching. rewrite Hv, Hp. cbv zeta.
  cbn [Validator.isEmpty negb Js.truthyOpt]. unfold Js.truthyStr.
  apply String.eqb_neq in Hne. rewrite Hne. cbn [negb].
  prisma.
  destruct (find _ (users d)) as [t|] eqn:Hf; [reflexivity|].
  exfalso. apply (find_none _ _ Hf) in Hin. rewrite Hph in Hin.
  rewrite String.eqb_refl in Hin. apply String.eqb_neq in Hid.
  rewrite Hid in Hin. discriminate Hin.
Qed.
End Profile.

(** ** Notifications of a user *)

Section Notifications.

Import Inbox.

Lemma findOwned_in (key : string) (user : AuthUser.t) (t : list row) (r : row) :
  findOwned key user t = Some r ->
  In r t /\ id r = key /\ owner r = AuthUser.id user.
Proof.
  unfold findOwned. intros H. apply find_some in H. destruct H as [Hin H].
  apply andb_prop in H. destruct H as [H1 H2].
  apply String.eqb_eq in H1, H2. auto.
Qed.

Lemma findOwned_foreign (key : string) (user : AuthUser.t) (t : list row) :
  (forall r, In r t -> id r = key -> owner r <> AuthUser.id user) ->
  findOwned key user t = None.
Proof.
  intros H. unfold findOwned. apply find_none_conj.
  intros x Hx Hk. apply String.eqb_eq in Hk. apply String.eqb_neq. auto.
Qed.

(** X24. Marking as read or deleting a notification key that names no
    notification of the caller, whether the key is missing or the row is
    someone else's, is answered 404 "Notification not found" and changes
    nothing. *)
Theorem inbox_foreign_key_is_404 :
  forall (user : AuthUser.t) (key : string) (t : list row),
    (forall r, In r t -> id r = key -> owner r <> AuthUser.id user) ->
    markRead user key t = (reply 404 (Failed "Notification not found"), t)
    /\ delete user key t = (reply 404 (Failed "Notification not found"), t).
Proof.
  intros user key t H. unfold markRead, delete.
  rewrite (findOwned_foreign key user t H). split; reflexivity.
Qed.

Lemma read_id (r : row) : id (read r) = id r.
Proof. reflexivity. Qed.

Lemma read_owner (r : row) : owner (read r) = owner r.
Proof. reflexivity. Qed.

Lemma read_isRead (r : row) : isRead (read r) = true.
Proof. reflexivity. Qed.

Lemma unreadCount_map (v : AuthUser.t) (f : row -> row) (t : list row) :
  (forall x, In x t ->
     owner (f x) = owner x
     /\ (owner x = AuthUser.id v -> isRead (f x) = isRead x)) ->
  unreadCount v (map f t) = unreadCount v t.
Proof.
  unfold unreadCount. induction t as [|a t IH]; intros H; [reflexivity|].
  cbn [map filter].
  destruct (H a (or_introl eq_refl)) as [Ho Hr]. rewrite Ho.
  assert (IH' := IH (fun x Hx => H x (or_intror Hx))).
  destruct (owner a =? AuthUser.id v) eqn:E; cbn [andb].
  - apply String.eqb_eq in E. rewrite (Hr E).
    destruct (negb (isRead a)); cbn [List.length]; congruence.
  - exact IH'.
Qed.

(** X25. Where keys are unique, marking one's own notification as read
    answers 200 with the row marked, keeps every key in place, changes no
    other row, and leaves the unread count of every other user as it was. *)
Theorem markRead_marks_one_row :
  forall (user : AuthUser.t) (key : string) (t : list row) (r : row),
    NoDup (map id t) ->
    findOwned key user t = Some r ->
    let out := markRead user key t in
    fst out = reply 200 (Marked "Notification marked as read" (read r))
    /\ map id (snd out) = map id t
    /\ (forall x, In x (snd out) -> id x = key -> x = read r)
    /\ (forall x, id x <> key -> (In x (snd out) <-> In x t))
    /\ (forall v, AuthUser.id v <> AuthUser.id user ->
          unreadCount v (snd out) = unreadCount v t).
Proof.
  intros user key t r Hnd Hf out. subst out. unfold markRead. rewrite Hf.
  cbn [fst snd]. destruct (findOwned_in _ _ _ _ Hf) as [Hin [Hid Hown]].
  split; [reflexivity|]. split; [|split; [|split]].
  - rewrite map_map. apply map_ext. intros x.
    destruct (id x =? key); reflexivity.
  - intros x Hx Hk. apply in_map_iff in Hx. destruct Hx as [y [Hy Hyin]].
    destruct (id y =? key) eqn:E.
    + apply String.eqb_eq in E. subst x. f_equal.
      apply (same_key_same_row id t); congruence.
    + subst x. apply String.eqb_neq in E. contradiction.
  - intros x Hx. rewrite in_map_iff. split.
    + intros [y [Hy Hyin]]. destruct (id y =? key) eqn:E.
      * apply String.eqb_eq in E. subst x. rewrite read_id in Hx. contradiction.
      * now subst x.
    + intros Hxin. exists x. split; [|exact Hxin].
      apply String.eqb_neq in Hx. now rewrite Hx.
  - intros v Hv. apply unreadCount_map. intros x Hx.
    destruct (id x =? key) eqn:E; [|split; reflexivity].
    split; [reflexivity|]. intros Hxo. exfalso.
    apply String.eqb_eq in E.
    assert (x = r) by (apply (same_key_same_row id t); congruence).
    subst x. congruence.
Qed.

(** X26. Mark-all-read reports the caller's unread count as the number of
    rows updated, leaves the caller with no unread notification, keeps every
    key in place, leaves the unread count of every other user as it was, and
    never turns a read row back to unread. *)
Theorem markAllRead_clears_own_unread :
  forall (user : AuthUser.t) (t : list row),
    let out := markAllRead user t in
    fst out
    = reply 200 (AllMarked "All notifications marked as read"
                   (unreadCount user t))
    /\ unreadCount user (snd out) = 0%nat
    /\ map id (snd out) = map id t
    /\ (forall v, AuthUser.id v <> AuthUser.id user ->
          unreadCount v (snd out) = unreadCount v t)
    /\ (forall x, In x t -> isRead x = true -> In x (snd out)).
Proof.
  intros user t out. subst out. unfold markAllRead. cbn [fst snd].
  split; [reflexivity|]. split; [|split; [|split]].
  - unfold unreadCount. induction t as [|a t IH]; [reflexivity|].
    cbn [map filter].
    destruct (owner a =? AuthUser.id user) eqn:E; cbn [andb].
    + destruct (isRead a) eqn:R; cbn [negb].
      * rewrite E, R. exact IH.
      * rewrite read_owner, E, read_isRead. exact IH.
    + rewrite E. exact IH.
  - rewrite map_map. apply map_ext. intros x.
    destruct ((owner x =? AuthUser.id user) && negb (isRead x)); reflexivity.
  - intros v Hv. apply unreadCount_map. intros x Hx.
    destruct (owner x =? AuthUser.id user) eqn:E; cbn [andb];
      [|split; reflexivity].
    destruct (negb (isRead x)); split; try reflexivity.
    intros Hxo. apply String.eqb_eq in E. congruence.
  - intros x Hx Hr. apply in_map_iff. exists x. split; [|exact Hx].
    rewrite Hr. cbn [negb]. rewrite andb_false_r. reflexivity.
Qed.

(** X27. Deleting one's own notification answers 200 and removes exactly
    the rows with that key; after it, deleting or marking the same key again
    is answered 404 and changes nothing. *)
Theorem delete_removes_the_row :
  forall (user : AuthUser.t) (key : string) (t : list row) (r : row),
    findOwned key user t = Some r ->
    let out := delete user key t in
    fst out = reply 200 (Deleted "Notification deleted successfully")
    /\ (forall x, In x (snd out) <-> In x t /\ id x <> key)
    /\ delete user key (snd out)
       = (reply 404 (Failed "Notification not found"), snd out)
    /\ markRead user key (snd out)
       = (reply 404 (Failed "Notification not found"), snd out).
Proof.
  intros user key t r Hf out. subst out.
  assert (Hd : delete user key t
               = (reply 200 (Deleted "Notification deleted successfully"),
                  filter (fun x => negb (id x =? key)) t))
    by (unfold delete; now rewrite Hf).
  rewrite Hd. cbn [fst snd].
  assert (Hmem : forall x,
            In x (filter (fun x => negb (id x =? key)) t)
            <-> In x t /\ id x <> key).
  { intros x. rewrite filter_In. split; intros [H1 H2]; split; try exact H1.
    - apply negb_true_iff in H2. now apply String.eqb_neq.
    - apply negb_true_iff. now apply String.eqb_neq. }
  split; [reflexivity|]. split; [exact Hmem|].
  assert (Hnone : findOwned key user (filter (fun x => negb (id x =? key)) t)
                  = None); [|unfold delete, markRead; now rewrite Hnone].
  apply findOwned_foreign.
  intros x Hx Hk. apply Hmem in Hx. destruct Hx as [_ Hx]. contradiction.
Qed.

End Notifications.

(** ** The properties at concrete inputs *)


Lemma workflow_steps_follow_edges_witness :
  let op := RespondToCase "c1" (RespondBody.mk (Js.boolean true) None) in
  let r := requestBy bob (Workflow op) 3000 in
  let d := db1 AWAITING_RESPONSE in
  statusOf "c1" d = Some AWAITING_RESPONSE
  /\ statusOf "c1" (db (snd (api L0 r (noFault d)))) = Some ACCEPTED
  /\ (ACCEPTED = AWAITING_RESPONSE \/ edge AWAITING_RESPONSE ACCEPTED = true).
Proof.
  split; [reflexivity|]. split; [reflexivity|].
  apply (workflow_steps_follow_edges L0
           (requestBy bob (Workflow (RespondToCase "c1" (RespondBody.mk (Js.boolean true) None)))
              3000)
           (RespondToCase "c1" (RespondBody.mk (Js.boolean true) None))
           (db1 AWAITING_RESPONSE) "c1" AWAITING_RESPONSE ACCEPTED);
    try reflexivity.
  constructor; [intros []|constructor].
Defined.

Lemma respondToCase_next_is_404_witness :
  let b := RespondBody.mk (Js.boolean true) None in
  let first :=
    respondToCase L0 3000 (authOf bob) "c1" b (noFault (db1 AWAITING_RESPONSE)) in
  let second :=
    respondToCase L0 3100 (authOf bob) "c1" (RespondBody.mk (Js.boolean false) None)
      (snd first) in
  code (fst first) = 200%nat
  /\ code (fst second) = 404%nat
  /\ db (snd second) = db (snd first)
  /\ statusOf "c1" (db (snd second)) = Some ACCEPTED.
Proof.
  apply (respondToCase_next_is_404 L0 3000 3100 (authOf bob) (authOf bob) "c1"
           (RespondBody.mk (Js.boolean true) None) (RespondBody.mk (Js.boolean false) None)
           (db1 AWAITING_RESPONSE) (case1 AWAITING_RESPONSE));
    reflexivity.
Defined.

Lemma nominateWitnesses_next_is_404_witness :
  let b := WitnessesBody.mk ["carol@example.com"] in
  let first :=
    nominateWitnesses L0 3000 (authOf alice) "c1" b (noFault (db1 ACCEPTED)) in
  let second := nominateWitnesses L0 3100 (authOf bob) "c1" b (snd first) in
  code (fst first) = 200%nat
  /\ code (fst second) = 404%nat
  /\ db (snd second) = db (snd first).
Proof.
  apply (nominateWitnesses_next_is_404 L0 3000 3100 (authOf alice) (authOf bob) "c1"
           (WitnessesBody.mk ["carol@example.com"])
           (WitnessesBody.mk ["carol@example.com"])
           (db1 ACCEPTED) (case1 ACCEPTED));
    reflexivity.
Defined.

Lemma nominateWitnesses_rejects_repeated_address_witness :
  let b := WitnessesBody.mk ["carol@example.com"; "Carol@Example.com"] in
  witnessesErrors L0 b = []
  /\ nominateWitnesses L0 3000 (authOf alice) "c1" b (noFault (db1 ACCEPTED))
     = (json 400 (Error
          "Some witnesses are not registered users. All witnesses must be registered."),
        noFault (db1 ACCEPTED)).
Proof.
  split; [reflexivity|].
  apply (nominateWitnesses_rejects_repeated_address L0 3000 (authOf alice) "c1"
           (WitnessesBody.mk ["carol@example.com"; "Carol@Example.com"])
           (db1 ACCEPTED) (case1 ACCEPTED));
    try reflexivity.
  - repeat (constructor; [cbn; intuition discriminate|]). constructor.
  - intros H. vm_compute in H. inversion H as [|x l Hnot _]. apply Hnot.
    left. reflexivity.
Defined.

Lemma getCase_hides_foreign_case_witness :
  getCase (authOf carol) "c1" (noFault (db1 ACCEPTED))
  = (json 404 (Error "Case not found or you do not have access to this case"),
     noFault (db1 ACCEPTED)).
Proof.
  apply (getCase_hides_foreign_case (authOf carol) "c1" (db1 ACCEPTED)).
  intros c [<-|[]] _. reflexivity.
Defined.

Lemma createPanel_once_witness :
  let b := PanelBody.mk (Some "u3") None None in
  let first := createPanel L0 3000 (authOf root) "c1" b (noFault (db1 ACCEPTED)) in
  let second := createPanel L0 3100 (authOf root) "c1" b (snd first) in
  code (fst first) = 201%nat
  /\ fst second
     = json 409 (Error "Mediation panel already exists for this case")
  /\ db (snd second) = db (snd first)
  /\ statusOf "c1" (db (snd second)) = Some PANEL_CREATED.
Proof.
  apply (createPanel_once L0 3000 3100 (authOf root) (authOf root) "c1"
           (PanelBody.mk (Some "u3") None None)
           (PanelBody.mk (Some "u3") None None)
           (db1 ACCEPTED) (case1 ACCEPTED) "u3");
    reflexivity.
Defined.

Lemma createPanel_needs_accepted_case_witness :
  let b := PanelBody.mk (Some "u3") None None in
  panelReady (case1 AWAITING_RESPONSE) = false
  /\ createPanel L0 3000 (authOf root) "c1" b (noFault (db1 AWAITING_RESPONSE))
     = (json 400 (Error
          "Case must be in WITNESSES_NOMINATED or ACCEPTED status to create a panel"),
        noFault (db1 AWAITING_RESPONSE)).
Proof.
  split; [reflexivity|].
  apply (createPanel_needs_accepted_case L0 3000 (authOf root) "c1"
           (PanelBody.mk (Some "u3") None None) (db1 AWAITING_RESPONSE)
           (case1 AWAITING_RESPONSE));
    reflexivity.
Defined.


Lemma createCase_stores_complete_case_witness :
  let files := [File.mk "f1.png" "photo.png" "image/png" 2048] in
  let out :=
    createCase L0 2000 (authOf alice) claimAgainstBob files
      (noFault (db1 ACCEPTED)) in
  succeeded (fst out) = true
  /\ exists c,
       returnedCase (fst out) = Some c
       /\ In c (cases (db (snd out)))
       /\ Case.id c = "id7"
       /\ detailsPresent c
       /\ evidence (db (snd out)) = map (evidenceOf "id7") files.
Proof.
  split; [reflexivity|].
  destruct (createCase_stores_complete_case L0 2000 (authOf alice)
              claimAgainstBob [File.mk "f1.png" "photo.png" "image/png" 2048]
              (db1 ACCEPTED) eq_refl)
    as (c & Hc & Hin & Hid & Hd & He).
  exists c. split; [exact Hc|]. split; [exact Hin|]. split; [exact Hid|].
  split; [exact Hd|]. rewrite He, Hid. reflexivity.
Defined.


Lemma authenticate_failure_is_401_witness :
  authenticate L0 (Some "Bearer jwt:u9") (noFault (db1 ACCEPTED))
  = (inl (unauthorized "User not found"), noFault (db1 ACCEPTED))
  /\ code (unauthorized "User not found") = 401%nat
  /\ db (noFault (db1 ACCEPTED)) = db (noFault (db1 ACCEPTED)).
Proof.
  split; [reflexivity|].
  apply (authenticate_failure_is_401 L0 (Some "Bearer jwt:u9")
           (noFault (db1 ACCEPTED)) (unauthorized "User not found")
           (noFault (db1 ACCEPTED))).
  reflexivity.
Defined.

Lemma authenticate_reads_the_store_witness :
  exists h u,
    Some "Bearer jwt:u1" = Some h
    /\ Js.startsWith "Bearer " h = true
    /\ jwtVerify L0 (Js.substringFrom 7 h) = Some (User.id u)
    /\ In u (users (db (noFault (db1 ACCEPTED))))
    /\ authOf alice
       = AuthUser.mk (User.id u) (User.email u) (User.name u) (User.role u).
Proof.
  apply (authenticate_reads_the_store L0 (Some "Bearer jwt:u1")
           (noFault (db1 ACCEPTED)) (authOf alice) (noFault (db1 ACCEPTED))).
  reflexivity.
Defined.

Lemma register_once_per_address_witness :
  let again := RegisterBody.mk "DAVE@example.com" "another" "David" None in
  let first := register L0 dave (noFault (db1 ACCEPTED)) in
  let second := register L0 again (snd first) in
  code (fst first) = 201%nat
  /\ fst second
     = json 409 (Error "User already exists with this email or phone number")
  /\ db (snd second) = db (snd first).
Proof.
  apply (register_once_per_address L0 dave
           (RegisterBody.mk "DAVE@example.com" "another" "David" None)
           (db1 ACCEPTED));
    reflexivity.
Defined.

Lemma verify_sign_L0 (id : string) : jwtVerify L0 (jwtSign L0 id) = Some id.
Proof.
  change (jwtVerify L0 (jwtSign L0 id))
    with (if Js.startsWith "jwt:" ("jwt:" ++ id)
          then Some (Js.substringFrom (String.length "jwt:") ("jwt:" ++ id))
          else None).
  rewrite startsWith_append, substringFrom_append. reflexivity.
Defined.

Lemma register_then_authenticate_witness :
  let out := register L0 dave (noFault (db1 ACCEPTED)) in
  exists u token,
    body (fst out) = Registered "User registered successfully" u token
    /\ authenticate L0 (Some ("Bearer " ++ token)%string) (snd out)
       = (inr (AuthUser.mk (User.id u) (User.email u) (User.name u)
                 (User.role u)), snd out).
Proof.
  apply (register_then_authenticate L0 dave (db1 ACCEPTED) verify_sign_L0);
    reflexivity.
Defined.

Lemma login_invalid_credentials_alike_witness :
  let unknown := LoginBody.mk "nobody@example.com" "secret1" in
  let wrong := LoginBody.mk "alice@example.com" "guess" in
  login L0 compareHash unknown (noFault (db1 ACCEPTED))
  = (reply 401 (AuthError "Invalid credentials"), noFault (db1 ACCEPTED))
  /\ login L0 compareHash wrong (noFault (db1 ACCEPTED))
     = (reply 401 (AuthError "Invalid credentials"), noFault (db1 ACCEPTED)).
Proof.
  split.
  - apply (login_invalid_credentials_alike L0 compareHash
             (LoginBody.mk "nobody@example.com" "secret1") (db1 ACCEPTED));
      [reflexivity|].
    intros u H. vm_compute in H. discriminate H.
  - apply (login_invalid_credentials_alike L0 compareHash
             (LoginBody.mk "alice@example.com" "guess") (db1 ACCEPTED));
      [reflexivity|].
    intros u H. vm_compute in H. injection H as <-. reflexivity.
Defined.

Lemma compareHash_L0 (p : string) : compareHash p (bcryptHash L0 p) = true.
Proof. apply String.eqb_refl. Defined.

Lemma register_then_login_witness :
  let out := register L0 dave (noFault (db1 ACCEPTED)) in
  let again :=
    login L0 compareHash
      (LoginBody.mk (RegisterBody.email dave) (RegisterBody.password dave))
      (snd out) in
  exists u token,
    body (fst out) = Registered "User registered successfully" u token
    /\ fst again = reply 200 (AuthOk "Login successful" u token)
    /\ db (snd again) = db (snd out).
Proof.
  apply (register_then_login L0 compareHash dave (db1 ACCEPTED) compareHash_L0);
    reflexivity.
Defined.

Lemma dashboard_all_or_nothing_witness :
  dashboard 3000 (faultAt 7 (db1 ACCEPTED))
  = (reply 500 None, noFault (db1 ACCEPTED)).
Proof.
  apply (dashboard_all_or_nothing 3000 7 (db1 ACCEPTED)). lia.
Defined.

Lemma inbox_foreign_key_is_404_witness :
  Inbox.markRead (authOf alice) "n2" inbox1
  = (reply 404 (Inbox.Failed "Notification not found"), inbox1)
  /\ Inbox.delete (authOf alice) "n2" inbox1
     = (reply 404 (Inbox.Failed "Notification not found"), inbox1).
Proof.
  apply (inbox_foreign_key_is_404 (authOf alice) "n2" inbox1).
  intros r [<-|[<-|[<-|[]]]] H; vm_compute in H |- *; discriminate.
Defined.

Lemma markRead_marks_one_row_witness :
  let out := Inbox.markRead (authOf alice) "n3" inbox1 in
  Inbox.findOwned "n3" (authOf alice) inbox1 <> None
  /\ statusCode (fst out) = 200%nat
  /\ map Inbox.id (snd out) = ["n3"; "n2"; "n1"]
  /\ Inbox.unreadCount (authOf bob) (snd out) = 1%nat.
Proof.
  destruct (markRead_marks_one_row (authOf alice) "n3" inbox1
              (Inbox.mkRow "n3"
                 (Notification.mk "u1" (Some "c1") "CASE_UPDATE" "Case Accepted"
                    "The opposite party has accepted your case." false 2000)))
    as (Hfst & Hids & _ & _ & Hothers).
  - repeat (constructor; [cbn; intuition discriminate|]). constructor.
  - reflexivity.
  - split; [discriminate|]. split; [rewrite Hfst; reflexivity|].
    split; [exact Hids|].
    rewrite (Hothers (authOf bob)); [reflexivity|discriminate].
Defined.

Lemma delete_removes_the_row_witness :
  let out := Inbox.delete (authOf alice) "n3" inbox1 in
  fst out = reply 200 (Inbox.Deleted "Notification deleted successfully")
  /\ Inbox.delete (authOf alice) "n3" (snd out)
     = (reply 404 (Inbox.Failed "Notification not found"), snd out).
Proof.
  destruct (delete_removes_the_row (authOf alice) "n3" inbox1
              (Inbox.mkRow "n3"
                 (Notification.mk "u1" (Some "c1") "CASE_UPDATE" "Case Accepted"
                    "The opposite party has accepted your case." false 2000))
              eq_refl)
    as (Hfst & _ & Hagain & _).
  split; [exact Hfst|exact Hagain].
Defined.

Lemma updateProfile_phone_taken_witness :
  let eve := User.mk "u4" "eve@example.com" "bcrypt:secret5" "Eve"
               (Some "+15550100") "USER" in
  let d := withUsers (cons eve) (db1 ACCEPTED) in
  let b := ProfileBody.mk None (Some "+15550100") in
  updateProfile L0 (fun _ => true) (authOf alice) b (noFault d)
  = (reply 409 (ProfileError "Phone number is already taken by another user"),
     noFault d).
Proof.
  apply (updateProfile_phone_taken L0 (fun _ => true) (authOf alice)
           (ProfileBody.mk None (Some "+15550100"))
           (withUsers
              (cons (User.mk "u4" "eve@example.com" "bcrypt:secret5" "Eve"
                       (Some "+15550100") "USER")) (db1 ACCEPTED))
           "+15550100"
           (User.mk "u4" "eve@example.com" "bcrypt:secret5" "Eve"
              (Some "+15550100") "USER"));
    try reflexivity; try discriminate.
  left. reflexivity.
Defined.
